(** * Python_Scraper: crawl engine and chunking pipeline

    A shallow embedding of [1_crawl_site_bs4.py] (class [WebsiteCrawler]),
    of [2b_process_html_bs4.py] ([chunk_text], [extract_metadata],
    [html_to_markdown], [process_html_file]) and of the loop of
    [create_knowledge_graph] in [graphrag_utils.py], with the properties of
    the written specification stated and settled against it, and with
    further properties of the code.

    Left out of the model: the nodes of a document that [get_text] skips
    (comments, the contents of [script] and [style]); the exceptions of
    [requests.get] that are no [RequestException]; and, in the crawl, a
    parser that refuses the markup (for [process_html_file] it is
    modelled).

    Python strings are sequences of Unicode code points: a character is a
    code point ([N]) and a string a list of them.  Integers are [Z]; indices
    follow Python (negative indices count from the end, an index out of range
    raises [IndexError], a slice is clamped).  A Python exception is a value
    of [exn], and code that may raise returns a [result]. *)

From Stdlib Require Import ZArith NArith List Lia Bool.
From stdpp Require Import gmap strings.
Import ListNotations.
Local Open Scope Z_scope.

(** ** Exceptions *)

Inductive exn : Set :=
| IndexError
| ValueError
| OSError
| ParserRejectedMarkup.

Inductive result (A : Type) : Type :=
| Returns (a : A)
| Raises (e : exn).
Arguments Returns {A} a.
Arguments Raises {A} e.

Definition rbind {A B} (r : result A) (k : A -> result B) : result B :=
  match r with
  | Returns a => k a
  | Raises e => Raises e
  end.

Notation "'try!' x := r 'in' k" := (rbind r (fun x => k))
  (at level 10, x name, r at level 100, k at level 200).

(** ** Python strings *)

Module Py.

Abbreviation char := N.
Abbreviation str := (list N).

(** A literal: the code points of an ASCII string. *)
Definition lit (s : string) : str :=
  map Ascii.N_of_ascii (String.list_ascii_of_string s).

(** The string of the one character [\n]. *)
Definition newline : str := [10%N].

(** [s * n]. *)
Definition mul (s : str) (n : Z) : str := concat (repeat s (Z.to_nat n)).

(** [c.isspace()] for one character: the code points CPython lists as
    whitespace (bidirectional type WS, B or S, or category Zs). *)
Definition isspace (c : char) : bool :=
  ((9 <=? c) && (c <=? 13) || (28 <=? c) && (c <=? 32) || (c =? 133)
   || (c =? 160) || (c =? 5760) || (8192 <=? c) && (c <=? 8202)
   || (c =? 8232) || (c =? 8233) || (c =? 8239) || (c =? 8287)
   || (c =? 12288))%N.

Definition len (s : str) : Z := Z.of_nat (length s).

(** Truth value of a string: non-empty. *)
Definition truthy (s : str) : bool :=
  match s with [] => false | _ :: _ => true end.

(** [s[i]]. *)
Definition index (s : str) (i : Z) : result char :=
  let j := if i <? 0 then i + len s else i in
  if (j <? 0) || (len s <=? j) then Raises IndexError
  else match nth_error s (Z.to_nat j) with
       | Some c => Returns c
       | None => Raises IndexError
       end.

(** A slice bound, as [PySlice_AdjustIndices] adjusts it for step 1. *)
Definition adjust (n i : Z) : Z :=
  if i <? 0 then Z.max 0 (i + n) else Z.min i n.

(** [s[lo:hi]]. *)
Definition slice (s : str) (lo hi : Z) : str :=
  let a := adjust (len s) lo in
  let b := adjust (len s) hi in
  firstn (Z.to_nat (b - a)) (skipn (Z.to_nat a) s).

Fixpoint lstrip_by (p : char -> bool) (s : str) : str :=
  match s with
  | c :: s' => if p c then lstrip_by p s' else s
  | [] => []
  end.

Definition rstrip_by (p : char -> bool) (s : str) : str :=
  rev (lstrip_by p (rev s)).

Definition strip_by (p : char -> bool) (s : str) : str :=
  rstrip_by p (lstrip_by p s).

(** [s.strip()]. *)
Definition strip (s : str) : str := strip_by isspace s.

Definition mem (c : char) (cs : str) : bool := existsb (N.eqb c) cs.

(** [s.strip(chars)]. *)
Definition strip_chars (cs : str) (s : str) : str :=
  strip_by (fun c => mem c cs) s.

Fixpoint eqb (s t : str) : bool :=
  match s, t with
  | [], [] => true
  | c :: s', d :: t' => N.eqb c d && eqb s' t'
  | _, _ => false
  end.

(** [s.startswith(p)]. *)
Fixpoint startswith (s p : str) {struct p} : bool :=
  match p, s with
  | [], _ => true
  | d :: p', c :: s' => N.eqb c d && startswith s' p'
  | _ :: _, [] => false
  end.

(** [p in s] for strings: [p] occurs as a substring. *)
Fixpoint contains (s p : str) : bool :=
  startswith s p ||
  match s with
  | [] => false
  | _ :: s' => contains s' p
  end.

(** [range(a, b, -1)]: a, a-1, ..., b+1. *)
Definition range_down (a b : Z) : list Z :=
  map (fun k => a - Z.of_nat k) (seq 0 (Z.to_nat (a - b))).

(** [s.find(p, start)]: index of the first occurrence at or after [start],
    or -1. *)
Fixpoint find_at (s p : str) (pos : Z) : Z :=
  if startswith s p then pos
  else match s with
       | [] => -1
       | _ :: s' => find_at s' p (pos + 1)
       end.

Definition find (s p : str) (start : Z) : Z :=
  let a := if start <? 0 then Z.max 0 (start + len s) else start in
  if len s <? a then -1 else find_at (skipn (Z.to_nat a) s) p a.

(** [s.rfind(p)]: index of the last occurrence, or -1. *)
Fixpoint rfind_at (s p : str) (pos : Z) : Z :=
  match s with
  | [] => if startswith s p then pos else -1
  | _ :: s' =>
      let r := rfind_at s' p (pos + 1) in
      if 0 <=? r then r else if startswith s p then pos else -1
  end.

Definition rfind (s p : str) : Z := rfind_at s p 0.

(** [s.split(sep)] for a separator of one character. *)
Fixpoint split (sep : char) (s : str) : list str :=
  match s with
  | [] => [[]]
  | c :: s' =>
      if N.eqb c sep then [] :: split sep s'
      else match split sep s' with
           | p :: ps => (c :: p) :: ps
           | [] => [[c]]
           end
  end.

(** [s.split(sep, 1)] for a separator of one character that occurs in [s]:
    the text before the first occurrence and the text after it. *)
Fixpoint split1 (sep : char) (s : str) : str * str :=
  match s with
  | [] => ([], [])
  | c :: s' =>
      if N.eqb c sep then ([], s')
      else let '(a, b) := split1 sep s' in (c :: a, b)
  end.

(** [sep.join(parts)]. *)
Fixpoint join (sep : str) (parts : list str) : str :=
  match parts with
  | [] => []
  | [p] => p
  | p :: ps => p ++ sep ++ join sep ps
  end.

(** [s.replace(old, new)]: the occurrences of [old] are replaced from left
    to right and do not overlap; [skip] characters of a replaced occurrence
    are still to be passed. *)
Fixpoint replace_from (old new : str) (skip : nat) (s : str) : str :=
  match s with
  | [] => []
  | c :: s' =>
      match skip with
      | S k => replace_from old new k s'
      | O =>
          if startswith s old
          then new ++ replace_from old new (length old - 1) s'
          else c :: replace_from old new 0 s'
      end
  end.

Definition replace (s old new : str) : str :=
  match old with
  | [] => new ++ flat_map (fun c => c :: new) s
  | _ :: _ => replace_from old new 0 s
  end.

(** ASCII letters and [lower()] on ASCII text. *)
Definition is_ascii_upper (c : char) : bool := ((65 <=? c) && (c <=? 90))%N.
Definition is_ascii_lower (c : char) : bool := ((97 <=? c) && (c <=? 122))%N.
Definition is_ascii_alpha (c : char) : bool :=
  is_ascii_upper c || is_ascii_lower c.
Definition is_ascii_digit (c : char) : bool := ((48 <=? c) && (c <=? 57))%N.
Definition ascii_lower (s : str) : str :=
  map (fun c => if is_ascii_upper c then (c + 32)%N else c) s.

End Py.

Abbreviation str := Py.str.

Arguments Py.lit : simpl never.
Arguments Py.mem : simpl never.
Arguments Py.isspace : simpl never.
Arguments Py.index : simpl never.
Arguments Py.slice : simpl never.
Arguments Py.strip : simpl never.
Arguments Py.contains : simpl never.

(** ** Chunking ([2b_process_html_bs4.py]) *)

Module Chunk.

Definition terminals : str := Py.lit ".!?".

(** The [for i in range(...)] loop of [chunk_text], over the indices still
    to visit: the new [end], or the old one when the loop finishes without
    [break]. *)
Fixpoint sentence_end (text : str) (idxs : list Z) (end_ : Z) : result Z :=
  match idxs with
  | [] => Returns end_
  | i :: idxs' =>
      if 0 <? i then
        try! c := Py.index text i in
        if Py.mem c terminals then
          try! d := Py.index text (i + 1) in
          if Py.isspace d then Returns (i + 1)
          else sentence_end text idxs' end_
        else sentence_end text idxs' end_
      else sentence_end text idxs' end_
  end.

(** One pass of the [while] body from cursor [start]: the slice bounds
    [(start', end)] of the chunk. *)
Definition bounds (text : str) (chunk_size overlap start : Z)
  : result (Z * Z) :=
  let text_len := Py.len text in
  let end_ := start + chunk_size in
  let start' := if 0 <? start then start - overlap else start in
  try! end' :=
    (if end_ <? text_len
     then sentence_end text
            (Py.range_down (Z.min (end_ + 100) text_len - 1) (end_ - 100))
            end_
     else Returns end_) in
  Returns (start', end').

(** The [while start < text_len] loop.  [None]: the loop is still running
    after [fuel] passes. *)
Fixpoint chunk_loop (fuel : nat) (text : str) (chunk_size overlap : Z)
    (chunks : list str) (start : Z) : option (result (list str)) :=
  match fuel with
  | O => None
  | S fuel' =>
      if start <? Py.len text then
        match bounds text chunk_size overlap start with
        | Raises e => Some (Raises e)
        | Returns (start', end_) =>
            let chunk := Py.strip (Py.slice text start' end_) in
            let chunks' :=
              if Py.truthy chunk then chunks ++ [chunk] else chunks in
            chunk_loop fuel' text chunk_size overlap chunks' end_
        end
      else Some (Returns chunks)
  end.

Definition chunk_text (fuel : nat) (text : str) (chunk_size overlap : Z)
  : option (result (list str)) :=
  chunk_loop fuel text chunk_size overlap [] 0.

End Chunk.


(** ** [urllib.parse.urlparse] (CPython 3.12) *)

Module Url.

Record ParseResult := {
  scheme : str;
  netloc : str;
  path : str;
  params : str;
  query : str;
  fragment : str
}.

Definition scheme_chars : str :=
  Py.lit "abcdefghijklmnopqrstuvwxyzABCDEFGHIJKLMNOPQRSTUVWXYZ0123456789+-.".

Definition uses_params : list str :=
  map Py.lit [""; "ftp"; "hdl"; "prospero"; "http"; "imap"; "https"; "shttp";
              "rtsp"; "rtsps"; "rtspu"; "sip"; "sips"; "mms"; "sftp";
              "tel"]%string.

(** [_WHATWG_C0_CONTROL_OR_SPACE]: the code points 0 to 32. *)
Definition c0_control_or_space (c : Py.char) : bool := (c <=? 32)%N.

(** [_UNSAFE_URL_BYTES_TO_REMOVE]: tab, carriage return, line feed. *)
Definition unsafe_to_remove (c : Py.char) : bool :=
  ((c =? 9) || (c =? 13) || (c =? 10))%N.

(** [_splitnetloc(url, 2)] on a [url] that begins with two slashes: the
    authority runs to the first of [/], [?], [#]. *)
Fixpoint splitnetloc (s : str) : str * str :=
  match s with
  | [] => ([], [])
  | c :: s' =>
      if Py.mem c (Py.lit "/?#") then ([], s)
      else let '(a, b) := splitnetloc s' in (c :: a, b)
  end.

Definition has (c : string) (s : str) : bool := Py.contains s (Py.lit c).

(** [_splitparams]. *)
Definition splitparams (url : str) : str * str :=
  let semi := Py.lit ";" in
  if has "/" url then
    let i := Py.find url semi (Py.rfind url (Py.lit "/")) in
    if i <? 0 then (url, [])
    else (Py.slice url 0 i, skipn (Z.to_nat (i + 1)) url)
  else
    let i := Py.find url semi 0 in
    (Py.slice url 0 i, Py.slice url (i + 1) (Py.len url)).

Section Parse.

(** What [urlsplit] checks of an authority beyond the pairing of its
    brackets: the syntax of a bracketed host and the NFKC form of a
    non-ASCII one.  Either check raises [ValueError]. *)
Variable netloc_rejected : str -> bool.

Definition urlsplit (url : str) : result ParseResult :=
  let url := Py.lstrip_by c0_control_or_space url in
  let url := List.filter (fun c => negb (unsafe_to_remove c)) url in
  let i := Py.find url (Py.lit ":") 0 in
  let '(scheme, url) :=
    match url with
    | c0 :: _ =>
        if (0 <? i) && Py.is_ascii_alpha c0
           && forallb (fun c => Py.mem c scheme_chars) (Py.slice url 0 i)
        then (Py.ascii_lower (Py.slice url 0 i), skipn (Z.to_nat (i + 1)) url)
        else ([], url)
    | [] => ([], url)
    end in
  try! nu :=
    (if Py.eqb (Py.slice url 0 2) (Py.lit "//") then
       let '(netloc, rest) := splitnetloc (skipn 2 url) in
       if (has "[" netloc && negb (has "]" netloc))
          || (has "]" netloc && negb (has "[" netloc))
       then Raises ValueError
       else Returns (netloc, rest)
     else Returns ([], url)) in
  let '(netloc, url) := nu in
  let '(url, fragment) :=
    if has "#" url then Py.split1 35%N url else (url, []) in
  let '(url, query) :=
    if has "?" url then Py.split1 63%N url else (url, []) in
  if netloc_rejected netloc then Raises ValueError
  else Returns {| scheme := scheme; netloc := netloc; path := url;
                  params := []; query := query; fragment := fragment |}.

Definition urlparse (url : str) : result ParseResult :=
  try! r := urlsplit url in
  let '(url, params) :=
    if existsb (Py.eqb (scheme r)) uses_params && has ";" (path r)
    then splitparams (path r) else (path r, []) in
  Returns {| scheme := scheme r; netloc := netloc r; path := url;
             params := params; query := query r; fragment := fragment r |}.

End Parse.

End Url.

(** ** BeautifulSoup documents *)

Module Soup.

#[local] Set Warnings "-register-all".

(** A parsed document: text nodes and tags.  The document itself is a tag
    that holds the top-level nodes. *)
Inductive node : Type :=
| NavigableString (s : str)
| Tag (name : str) (attrs : gmap str str) (contents : list node).

(** The nodes below [n], in document order. *)
Fixpoint descendants (n : node) : list node :=
  match n with
  | NavigableString _ => []
  | Tag _ _ cs => flat_map (fun c => c :: descendants c) cs
  end.

Definition is_tag_in (names : list str) (n : node) : bool :=
  match n with
  | NavigableString _ => false
  | Tag nm _ _ => existsb (Py.eqb nm) names
  end.

(** [n.find_all(names)]. *)
Definition find_all (names : list str) (n : node) : list node :=
  List.filter (is_tag_in names) (descendants n).

(** [n.find(name)], and [n.body] for the name [body]. *)
Definition find (name : str) (n : node) : option node :=
  hd_error (find_all [name] n).

(** [n.get_text()]. *)
Fixpoint get_text (n : node) : str :=
  match n with
  | NavigableString s => s
  | Tag _ _ cs => flat_map get_text cs
  end.

Definition name_of (n : node) : str :=
  match n with
  | NavigableString _ => []
  | Tag nm _ _ => nm
  end.

(** [n.get(key)]. *)
Definition get (key : str) (n : node) : option str :=
  match n with
  | NavigableString _ => None
  | Tag _ attrs _ => attrs !! key
  end.

End Soup.

(** ** Normalisation to markdown ([html_to_markdown]) *)

Module Markdown.

Import Soup.

(** [int(c)] for one character. *)
Definition int_of_char (c : Py.char) : result Z :=
  if Py.is_ascii_digit c then Returns (Z.of_N c - 48) else Raises ValueError.

Definition heading_names : list str :=
  map Py.lit ["h1"; "h2"; "h3"; "h4"; "h5"; "h6"]%string.

(** The loop over the headings. *)
Fixpoint headings (tags : list node) (markdown_lines : list str)
  : result (list str) :=
  match tags with
  | [] => Returns markdown_lines
  | tag :: tags' =>
      try! c := Py.index (name_of tag) 1 in
      try! level := int_of_char c in
      headings tags'
        (markdown_lines
           ++ [Py.mul (Py.lit "#") level ++ Py.lit " "
                 ++ Py.strip (get_text tag)]
           ++ [[]])
  end.

(** The items of one list. *)
Fixpoint list_items (lis : list node) (markdown_lines : list str) : list str :=
  match lis with
  | [] => markdown_lines
  | li :: lis' =>
      let text := Py.strip (get_text li) in
      list_items lis'
        (if Py.truthy text then markdown_lines ++ [Py.lit "- " ++ text]
         else markdown_lines)
  end.

(** The loop over paragraphs and lists. *)
Fixpoint blocks (tags : list node) (markdown_lines : list str) : list str :=
  match tags with
  | [] => markdown_lines
  | tag :: tags' =>
      if Py.eqb (name_of tag) (Py.lit "p") then
        let text := Py.strip (get_text tag) in
        blocks tags'
          (if Py.truthy text then markdown_lines ++ [text] ++ [[]]
           else markdown_lines)
      else if existsb (Py.eqb (name_of tag)) [Py.lit "ul"; Py.lit "ol"] then
        blocks tags'
          (list_items (find_all [Py.lit "li"] tag) markdown_lines ++ [[]])
      else blocks tags' markdown_lines
  end.

(** The loop over the links. *)
Fixpoint links (tags : list node) (markdown_lines : list str) : list str :=
  match tags with
  | [] => markdown_lines
  | link :: tags' =>
      let text := Py.strip (get_text link) in
      let href := default [] (get (Py.lit "href") link) in
      links tags'
        (if Py.truthy text && Py.truthy href
         then markdown_lines
                ++ [Py.lit "[" ++ text ++ Py.lit "](" ++ href ++ Py.lit ")"]
         else markdown_lines)
  end.

(** The main content: the first [main] element, else the [body]. *)
Definition main_content (soup : node) : option node :=
  match find (Py.lit "main") soup with
  | Some m => Some m
  | None => find (Py.lit "body") soup
  end.

Definition html_to_markdown (soup : node) : result str :=
  match main_content soup with
  | None => Returns []
  | Some main_content =>
      try! markdown_lines :=
        headings (find_all heading_names main_content) [] in
      let markdown_lines :=
        blocks (find_all (map Py.lit ["p"; "ul"; "ol"]%string) main_content)
          markdown_lines in
      let markdown_lines :=
        links (find_all [Py.lit "a"] main_content) markdown_lines in
      Returns (Py.join Py.newline markdown_lines)
  end.

End Markdown.

(** ** The crawl engine ([1_crawl_site_bs4.py]) *)

Module Crawler.

(** What the crawler reads of a [requests.Response]. *)
Record Response := {
  status_code : Z;
  content_type : option str;   (* the Content-Type header, when present *)
  text : str;
  content : list Byte.byte;
  url : str
}.

(** What is written to a file: text (mode [w]) or bytes (mode [wb]). *)
Inductive payload :=
| TextFile (s : str)
| BinaryFile (b : list Byte.byte).

(** The fields of a [WebsiteCrawler]. *)
Record WebsiteCrawler := {
  start_url : str;
  max_depth : Z;
  max_downloads : Z;
  output_folder : str;
  visited_urls : gset str;
  download_count : Z;
  domain : str
}.

(** What a run leaves outside the object: the files written, the warnings
    logged (the address of each) and the requests sent, oldest first. *)
Record world := {
  files : list (str * payload);
  warnings : list str;
  requests : list str
}.

Definition state : Type := WebsiteCrawler * world.

(** How a call of [crawl] ends.  [OutOfFuel]: the model ran out of [fuel]
    before the call returned. *)
Inductive outcome := Done | Raised (e : exn) | OutOfFuel.

Definition add_visited (u : str) (self : WebsiteCrawler) : WebsiteCrawler :=
  {| start_url := start_url self; max_depth := max_depth self;
     max_downloads := max_downloads self;
     output_folder := output_folder self;
     visited_urls := {[ u ]} ∪ visited_urls self;
     download_count := download_count self; domain := domain self |}.

Definition count_download (self : WebsiteCrawler) : WebsiteCrawler :=
  {| start_url := start_url self; max_depth := max_depth self;
     max_downloads := max_downloads self;
     output_folder := output_folder self;
     visited_urls := visited_urls self;
     download_count := download_count self + 1; domain := domain self |}.

Definition write_file (f : str) (c : payload) (w : world) : world :=
  {| files := files w ++ [(f, c)]; warnings := warnings w;
     requests := requests w |}.

Definition log_warning (u : str) (w : world) : world :=
  {| files := files w; warnings := warnings w ++ [u];
     requests := requests w |}.

Definition send_request (u : str) (w : world) : world :=
  {| files := files w; warnings := warnings w;
     requests := requests w ++ [u] |}.

(** [os.path.join(a, b)] (POSIX). *)
Definition os_path_join (a b : str) : str :=
  if Py.startswith b (Py.lit "/") then b
  else if negb (Py.truthy a) || Py.startswith (rev a) (Py.lit "/")
       then a ++ b
       else a ++ Py.lit "/" ++ b.

(** [response.raise_for_status()] raises [HTTPError], a
    [RequestException], for the client and server error codes. *)
Definition raise_for_status (r : Response) : bool :=
  (400 <=? status_code r) && (status_code r <? 600).

Section Env.

(** The libraries and the outside world. *)
Variable netloc_rejected : str -> bool.
(** [str.lower]. *)
Variable lower : str -> str.
(** [urllib.parse.urljoin]. *)
Variable urljoin : str -> str -> result str.
(** [BeautifulSoup(text, 'html.parser')] and [soup.prettify()]. *)
Variable html_parser : str -> Soup.node.
Variable prettify : Soup.node -> str.
(** [mimetypes.guess_type(path)[0]] and [mimetypes.guess_extension]. *)
Variable guess_type : str -> option str.
Variable guess_extension : str -> option str.
(** [requests.get]: [None] when it raises a [RequestException]. *)
Variable http_get : str -> option Response.
(** The paths that [open] refuses with [OSError]. *)
Variable open_fails : str -> bool.

Definition urlparse := Url.urlparse netloc_rejected.

(** [WebsiteCrawler.__init__]. *)
Definition init (start_url : str) (max_depth max_downloads : Z)
    (output_folder : str) : result WebsiteCrawler :=
  try! parsed := urlparse start_url in
  Returns {| start_url := start_url; max_depth := max_depth;
             max_downloads := max_downloads;
             output_folder := output_folder; visited_urls := ∅;
             download_count := 0; domain := Url.netloc parsed |}.

Definition clean_url (self : WebsiteCrawler) (url : str)
  : result (option str) :=
  let url := Py.replace (Py.strip url) [160%N] [] in
  if negb (Py.startswith url (Py.lit "http://")
           || Py.startswith url (Py.lit "https://"))
  then Returns None
  else
    try! parsed := urlparse url in
    if (500 <? Py.len (Url.path parsed))
       || Py.contains (Url.path parsed) (Py.lit " ")
    then Returns None
    else
      let path_parts := Py.split 47%N (Url.path parsed) in
      let clean_parts :=
        List.filter (fun part => negb (Py.contains part (domain self)))
          path_parts in
      let clean_path := Py.join (Py.lit "/") clean_parts in
      let clean_url :=
        Url.scheme parsed ++ Py.lit "://" ++ Url.netloc parsed ++ clean_path in
      let clean_url :=
        if Py.truthy (Url.query parsed)
        then clean_url ++ Py.lit "?" ++ Url.query parsed
        else clean_url in
      Returns (Some clean_url).

Definition is_valid_url (self : WebsiteCrawler) (url : str) : bool :=
  match urlparse url with
  | Returns parsed => Py.eqb (Url.netloc parsed) (domain self)
  | Raises _ => false
  end.

Definition get_mime_type (response : Response) : result str :=
  let content_type :=
    lower (hd [] (Py.split 59%N (default [] (content_type response)))) in
  if Py.truthy content_type then Returns content_type
  else
    try! parsed := urlparse (url response) in
    match guess_type (Url.path parsed) with
    | Some mime_type =>
        if Py.truthy mime_type then Returns mime_type
        else Returns (Py.lit "application/octet-stream")
    | None => Returns (Py.lit "application/octet-stream")
    end.

(** The file name [save_content] makes of an address, before the suffix
    or extension is added. *)
Definition base_filename (self : WebsiteCrawler) (url : str) : str :=
  let filename :=
    Py.strip_chars (Py.lit "/") (Py.replace url (start_url self) []) in
  let filename := if Py.truthy filename then filename else Py.lit "index" in
  Py.replace filename (Py.lit "/") (Py.lit "_").

Definition save_content (url : str) (response : Response) (mime_type : str)
    (st : state) : state * result bool :=
  let '(self, w) := st in
  let filename := base_filename self url in
  let '(filename, content) :=
    if Py.eqb mime_type (Py.lit "text/html") then
      let soup := html_parser (text response) in
      (filename ++ Py.lit "_text.html", TextFile (prettify soup))
    else
      let ext :=
        match guess_extension mime_type with
        | Some e => if Py.truthy e then e else Py.lit ".bin"
        | None => Py.lit ".bin"
        end in
      (filename ++ ext, BinaryFile (content response)) in
  let filepath := os_path_join (output_folder self) filename in
  if open_fails filepath then (st, Raises OSError)
  else ((count_download self, write_file filepath content w), Returns true).

(** The loop over the links of a page; [visit] is the recursive call of
    [crawl] one level down. *)
Fixpoint follow (visit : str -> state -> state * outcome) (url : str)
    (links : list Soup.node) (st : state) : state * outcome :=
  match links with
  | [] => (st, Done)
  | link :: links' =>
      match Soup.get (Py.lit "href") link with
      | Some href =>
          if Py.truthy href then
            match urljoin url href with
            | Raises e => (st, Raised e)
            | Returns absolute_url =>
                match visit absolute_url st with
                | (st', Done) => follow visit url links' st'
                | stopped => stopped
                end
            end
          else follow visit url links' st
      | None => follow visit url links' st
      end
  end.

Fixpoint crawl (fuel : nat) (url : str) (depth : Z) (st : state)
  : state * outcome :=
  match fuel with
  | O => (st, OutOfFuel)
  | S fuel' =>
      let '(self, w) := st in
      if (max_depth self <? depth)
         || (max_downloads self <=? download_count self)
      then (st, Done)
      else
        match clean_url self url with
        | Raises e => (st, Raised e)
        | Returns None => (st, Done)
        | Returns (Some url) =>
            if negb (Py.truthy url) || negb (is_valid_url self url)
            then (st, Done)
            else if bool_decide (url ∈ visited_urls self) then (st, Done)
            else
              let self := add_visited url self in
              let w := send_request url w in
              match http_get url with
              | None => ((self, log_warning url w), Done)
              | Some response =>
                  if raise_for_status response
                  then ((self, log_warning url w), Done)
                  else
                    match get_mime_type response with
                    | Raises e => ((self, w), Raised e)
                    | Returns mime_type =>
                        match save_content url response mime_type (self, w)
                        with
                        | (st', Raises e) => (st', Raised e)
                        | (st', Returns _) =>
                            if Py.eqb mime_type (Py.lit "text/html") then
                              let soup := html_parser (text response) in
                              follow
                                (fun u => crawl fuel' u (depth + 1))
                                url
                                (Soup.find_all [Py.lit "a"] soup)
                                st'
                            else (st', Done)
                        end
                    end
              end
        end
  end.

End Env.

End Crawler.

(** ** Python values and dictionaries *)

Module Value.

#[local] Set Warnings "-register-all".

(** The values a document holds: [None], a string, an integer or a
    dictionary with string keys. *)
Inductive pyval : Type :=
| VNone
| VStr (s : str)
| VInt (z : Z)
| VDict (d : gmap str pyval).

(** [d.get(key, default)]. *)
Definition get (key : string) (dflt : pyval) (d : gmap str pyval) : pyval :=
  default dflt (d !! Py.lit key).

End Value.

(** ** Documents of chunks ([2b_process_html_bs4.py]) *)

Module Process.

Import Value.

(** [tag.string]: the text of a tag that holds one string, directly or
    inside tags that hold one child each. *)
Fixpoint string_of (n : Soup.node) : option str :=
  match n with
  | Soup.NavigableString s => Some s
  | Soup.Tag _ _ [child] => string_of child
  | Soup.Tag _ _ _ => None
  end.

(** [soup.find('meta', attrs={'name': 'description'})]. *)
Definition find_meta_description (soup : Soup.node) : option Soup.node :=
  hd_error
    (List.filter
       (fun n =>
          Soup.is_tag_in [Py.lit "meta"] n
          && match Soup.get (Py.lit "name") n with
             | Some v => Py.eqb v (Py.lit "description")
             | None => false
             end)
       (Soup.descendants soup)).

(** [os.path.basename] (POSIX). *)
Definition basename (p : str) : str :=
  skipn (Z.to_nat (Py.rfind p (Py.lit "/") + 1)) p.

Section Env.

(** [BeautifulSoup(text, 'html.parser')] and [str.lower]. *)
Variable html_parser : str -> Soup.node.
Variable lower : str -> str.
(** [open(path, 'r', encoding='utf-8')] and [f.read()]: the text of the
    file, [OSError] when it cannot be opened, [ValueError]
    ([UnicodeDecodeError]) when it is not UTF-8. *)
Variable read_text : str -> result str.
(** The markup that [html.parser] refuses: [BeautifulSoup] raises
    [ParserRejectedMarkup] on it. *)
Variable parser_rejects : str -> bool.

Definition extract_metadata (html_content file_path : str)
  : gmap str pyval :=
  let soup := html_parser html_content in
  let title :=
    match Soup.find (Py.lit "title") soup with
    | Some t => match string_of t with Some s => VStr s | None => VNone end
    | None => VStr []
    end in
  let meta_desc :=
    match find_meta_description soup with
    | Some meta_tag =>
        VStr (default [] (Soup.get (Py.lit "content") meta_tag))
    | None => VStr []
    end in
  let filename := lower (basename file_path) in
  let content_type :=
    if Py.contains filename (Py.lit "members") then Py.lit "member_list"
    else if Py.contains filename (Py.lit "about") then Py.lit "about"
    else if Py.contains filename (Py.lit "news") then Py.lit "news"
    else Py.lit "unknown" in
  <[Py.lit "title" := title]>
    (<[Py.lit "description" := meta_desc]>
       (<[Py.lit "content_type" := VStr content_type]>
          (<[Py.lit "source_file" := VStr file_path]> ∅))).

(** The document of chunk number [i]. *)
Definition document (metadata : gmap str pyval) (total : Z) (i : Z)
    (chunk : str) : gmap str pyval :=
  <[Py.lit "content" := VStr chunk]>
    (<[Py.lit "metadata" :=
         VDict (<[Py.lit "total_chunks" := VInt total]>
                  (<[Py.lit "chunk_index" := VInt i]> metadata))]> ∅).

(** The loop [for i, chunk in enumerate(chunks)], from index [i] on. *)
Fixpoint documents_from (metadata : gmap str pyval) (total : Z) (i : Z)
    (chunks : list str) (documents : list (gmap str pyval))
  : list (gmap str pyval) :=
  match chunks with
  | [] => documents
  | chunk :: chunks' =>
      documents_from metadata total (i + 1) chunks'
        (documents ++ [document metadata total i chunk])
  end.

(** [process_html_file].  [None]: the loop of [chunk_text] is still
    running after [fuel] passes. *)
Definition process_html_file (fuel : nat) (html_file : str)
  : option (result (list (gmap str pyval))) :=
  match read_text html_file with
  | Raises e => Some (Raises e)
  | Returns html_content =>
      if parser_rejects html_content then Some (Raises ParserRejectedMarkup)
      else
        let soup := html_parser html_content in
        let metadata := extract_metadata html_content html_file in
        match Markdown.html_to_markdown soup with
        | Raises e => Some (Raises e)
        | Returns markdown_content =>
            match Chunk.chunk_text fuel markdown_content 1000 200 with
            | None => None
            | Some (Raises e) => Some (Raises e)
            | Some (Returns chunks) =>
                Some (Returns
                        (documents_from metadata (Z.of_nat (length chunks)) 0
                           chunks []))
            end
        end
  end.

End Env.

End Process.

(** ** The knowledge graph ([graphrag_utils.py]) *)

Module Graph.

Import Value.

(** How [create_knowledge_graph] can end early. *)
Inductive error :=
| KeyError (key : str)
| AttributeError
| EmbeddingError
| DriverError.

Section Env.

(** The embedding of a content ([embeddings.embed_query]; [None] when it
    raises) and the type of its vectors. *)
Variable vector : Type.
Variable embed_query : pyval -> option vector.

(** A [Document] node, as the [CREATE] statement writes it. *)
Record Document := {
  content : pyval;
  source : pyval;
  title : pyval;
  filename : pyval;
  last_modified : pyval;
  created : pyval;
  embedding : vector
}.

(** The nodes that [session.run] refuses. *)
Variable run_fails : Document -> bool.

(** [create_knowledge_graph]: the loop over the documents, from the nodes
    already in the database to the nodes in it at the end. *)
Fixpoint create_knowledge_graph (documents : list (gmap str pyval))
    (db : list Document) : list Document * option error :=
  match documents with
  | [] => (db, None)
  | doc :: documents' =>
      match doc !! Py.lit "content" with
      | None => (db, Some (KeyError (Py.lit "content")))
      | Some content =>
          let metadata := get "metadata" (VDict ∅) doc in
          match embed_query content with
          | None => (db, Some EmbeddingError)
          | Some vector =>
              match metadata with
              | VDict metadata =>
                  let node :=
                    {| content := content;
                       source := get "source" (VStr []) metadata;
                       title := get "title" (VStr []) metadata;
                       filename := get "filename" (VStr []) metadata;
                       last_modified :=
                         get "last_modified" (VStr []) metadata;
                       created := get "created" (VStr []) metadata;
                       embedding := vector |} in
                  if run_fails node then (db, Some DriverError)
                  else create_knowledge_graph documents' (db ++ [node])
              | _ => (db, Some AttributeError)
              end
          end
      end
  end.

End Env.

End Graph.

(** * Statements

    What the properties below are stated with: observations of strings and
    runs, the specification's own wording of an operation where it is
    compared with the code, and the concrete inputs of the examples. *)

Module ChunkSpec.

Import Chunk.

(** The characters of a string that are not whitespace, in order. *)
Definition nonws (s : str) : str :=
  List.filter (fun c => negb (Py.isspace c)) s.

(** Whether some sentence-terminal character of [text] is immediately
    followed by whitespace. *)
Fixpoint has_break (text : str) : bool :=
  match text with
  | c :: (d :: _) as rest =>
      (Py.mem c terminals && Py.isspace d) || has_break rest
  | _ => false
  end.

(** The chunks put back together: [k] characters that are not whitespace
    are dropped from the front of each chunk. *)
Fixpoint rebuild (ks : list nat) (cs : list str) : str :=
  match ks, cs with
  | k :: ks', c :: cs' => skipn k (nonws c) ++ rebuild ks' cs'
  | _, _ => []
  end.

(** 1000 times [a], then 500 times [b]. *)
Definition two_halves : str :=
  Py.mul (Py.lit "a") 1000 ++ Py.mul (Py.lit "b") 500.

Definition two_halves_chunks : list str :=
  [Py.mul (Py.lit "a") 1000;
   Py.mul (Py.lit "a") 200 ++ Py.mul (Py.lit "b") 500].

(** The reconstruction as the specification words it: the last [overlap]
    characters of every chunk but the first are dropped. *)
Definition drop_last (n : nat) (s : str) : str := firstn (length s - n) s.

Definition rebuild_dropping_last (overlap : nat) (cs : list str) : str :=
  match cs with
  | [] => []
  | c :: cs' => c ++ concat (map (drop_last overlap) cs')
  end.

(** The chunks put back together, the first [overlap] characters of every
    chunk but the first dropped. *)
Definition rebuild_dropping_first (overlap : nat) (cs : list str) : str :=
  match cs with
  | [] => []
  | c :: cs' => c ++ concat (map (skipn overlap) cs')
  end.

(** Whether the last character of [text] is a sentence terminal. *)
Definition ends_with_terminal (text : str) : bool :=
  match rev text with
  | c :: _ => Py.mem c terminals
  | [] => false
  end.

(** 1500 spaces. *)
Definition blank : str := Py.mul (Py.lit " ") 1500.

(** *** The round trip

    A pass of the loop with cursor [s] and end [e] is a cut [(s, e)]: its
    chunk is the text from [overlap] characters before the cursor to [e],
    trimmed, and [s, e) is what the chunk adds to the chunks before it. *)

(** Where the slice of a pass begins. *)
Definition window_start (overlap s : Z) : Z :=
  if 0 <? s then s - overlap else s.

(** The chunk of a cut. *)
Definition window (text : str) (overlap : Z) (cut : Z * Z) : str :=
  Py.strip (Py.slice text (window_start overlap (fst cut)) (snd cut)).

(** What a chunk repeats: the characters of the text between the start of
    its slice and its cursor that are not whitespace. *)
Definition repeated (text : str) (overlap : Z) (cut : Z * Z) : str :=
  nonws (Py.slice text (window_start overlap (fst cut)) (fst cut)).

(** The cuts follow one another from [pos] to [stop] and leave out
    whitespace only; every cursor is 0 or has [overlap] characters before
    it. *)
Fixpoint tiling (text : str) (overlap pos stop : Z) (cuts : list (Z * Z))
  : Prop :=
  match cuts with
  | [] => nonws (Py.slice text pos stop) = []
  | (s, e) :: cuts' =>
      pos <= s <= e /\ (s = 0 \/ overlap <= s)
      /\ nonws (Py.slice text pos s) = []
      /\ tiling text overlap e stop cuts'
  end.

(** A sentence of two characters, 49 times [X] and 250 times [a], with
    its chunks for [chunk_size = 100] and [overlap = 50]. *)
Definition lossy : str :=
  Py.lit "A. " ++ Py.mul (Py.lit "X") 49 ++ Py.mul (Py.lit "a") 250.

Definition lossy_chunks : list str :=
  [Py.lit "A."; Py.mul (Py.lit "a") 150; Py.mul (Py.lit "a") 150].

(** 800 times [a], five spaces and 695 times [b], with its chunks for the
    default sizes. *)
Definition spaced : str :=
  Py.mul (Py.lit "a") 800 ++ Py.mul (Py.lit " ") 5 ++ Py.mul (Py.lit "b") 695.

Definition spaced_chunks : list str :=
  [Py.mul (Py.lit "a") 800 ++ Py.mul (Py.lit " ") 5
     ++ Py.mul (Py.lit "b") 195;
   Py.mul (Py.lit "b") 695].

End ChunkSpec.

Module UrlSpec.
Import Url.

(** A character that [urlsplit] keeps. *)
Definition safe (c : Py.char) : bool := negb (unsafe_to_remove c).

(** A character that ends the authority. *)
Definition delim (c : Py.char) : bool := Py.mem c (Py.lit "/?#").

Definition brackets_unpaired (N : str) : bool :=
  (has "[" N && negb (has "]" N)) || (has "]" N && negb (has "[" N)).

(** What [urlsplit] does after the scheme and the two slashes. *)
Definition parse_rest (nr : str -> bool) (S R : str) : result ParseResult :=
  let '(N, rest) := splitnetloc R in
  if brackets_unpaired N then Raises ValueError
  else
    let '(u, frag) :=
      if has "#" rest then Py.split1 35%N rest else (rest, []) in
    let '(p, q) := if has "?" u then Py.split1 63%N u else (u, []) in
    if nr N then Raises ValueError
    else Returns {| scheme := S; netloc := N; path := p; params := [];
                    query := q; fragment := frag |}.

(** Empty, or beginning with a character that satisfies [p]. *)
Definition starts (p : Py.char -> bool) (s : str) : bool :=
  match s with
  | [] => true
  | c :: _ => p c
  end.

(** [?query] when there is a query. *)
Definition query_part (q : str) : str :=
  if Py.truthy q then Py.lit "?" ++ q else [].

(** The path [clean_url] keeps: the segments that do not hold the
    domain. *)
Definition clean_path (D P : str) : str :=
  Py.join (Py.lit "/")
    (List.filter (fun part => negb (Py.contains part D)) (Py.split 47%N P)).

(** A character that a canonical address can hold: kept by [urlsplit] and
    not the non-breaking space. *)
Definition kept (c : Py.char) : Prop := safe c = true /\ c <> 160%N.

(** The parts of a canonical address: authority [N], path [P] before it
    is cleaned, query [Q]. *)
Definition parts (nr : str -> bool) (N P Q : str) : Prop :=
  forallb (fun c => negb (delim c)) N = true
  /\ brackets_unpaired N = false /\ nr N = false
  /\ Forall kept N /\ Forall kept P /\ Forall kept Q
  /\ Forall (fun c => c <> 63%N) P /\ Forall (fun c => c <> 35%N) P
  /\ Forall (fun c => c <> 32%N) P
  /\ starts (N.eqb 47) P = true /\ (length P <= 500)%nat
  /\ Forall (fun c => c <> 35%N) Q.

(** The length of the segments of a path joined by one character each,
    plus one. *)
Definition weight (L : list str) : nat :=
  list_sum (map (fun p => S (length p)) L).

End UrlSpec.

Module MarkdownSpec.

Import Soup.

(** A page whose main content is [<h2>About Us</h2>] and
    [<p>We build things.</p>]. *)
Definition about_doc : node :=
  Tag (Py.lit "[document]") ∅
    [Tag (Py.lit "html") ∅
       [Tag (Py.lit "body") ∅
          [Tag (Py.lit "main") ∅
             [Tag (Py.lit "h2") ∅ [NavigableString (Py.lit "About Us")];
              Tag (Py.lit "p") ∅
                [NavigableString (Py.lit "We build things.")]]]]].

(** The text the specification expects for it, with two final newlines. *)
Definition about_expected : str :=
  Py.lit "## About Us" ++ Py.newline ++ Py.newline
    ++ Py.lit "We build things." ++ Py.newline ++ Py.newline.

(** The text the code gives: the lines joined, one final newline. *)
Definition about_joined : str :=
  Py.lit "## About Us" ++ Py.newline ++ Py.newline
    ++ Py.lit "We build things." ++ Py.newline.

End MarkdownSpec.

Module CrawlerSpec.

Import Crawler.

(** [s.removeprefix(p)]. *)
Definition removeprefix (p s : str) : str :=
  if Py.startswith s p then skipn (length p) s else s.

(** The file name as the specification words it: only a leading seed
    address is removed. *)
Definition filename_as_specified (self : WebsiteCrawler) (url : str) : str :=
  let filename :=
    Py.strip_chars (Py.lit "/") (removeprefix (start_url self) url) in
  let filename := if Py.truthy filename then filename else Py.lit "index" in
  Py.replace filename (Py.lit "/") (Py.lit "_").

(** A crawler for the seed [http://example.org], as [__init__] makes it. *)
Definition example_crawler (max_depth max_downloads : Z) : WebsiteCrawler :=
  {| start_url := Py.lit "http://example.org"; max_depth := max_depth;
     max_downloads := max_downloads;
     output_folder := Py.lit "workspace/crawled"; visited_urls := ∅;
     download_count := 0; domain := Py.lit "example.org" |}.

Definition no_files : world :=
  {| files := []; warnings := []; requests := [] |}.

(** Two addresses that [urlparse] refuses once [clean_url] has trimmed
    them: the host opens a bracket that is not closed.  In the second the
    two slashes come together when the non-breaking space between them is
    removed; before that, [urlparse] and [urljoin] read no host in it and
    accept it. *)
Definition bracket_url : str := Py.lit "http://[".
Definition nbsp_bracket_url : str := Py.lit "http:/" ++ [160%N] ++ Py.lit "/[".

(** The crawler [__init__] makes for the seed [nbsp_bracket_url]. *)
Definition bracket_crawler : WebsiteCrawler :=
  {| start_url := nbsp_bracket_url; max_depth := 1; max_downloads := 2;
     output_folder := Py.lit "workspace/crawled"; visited_urls := ∅;
     download_count := 0; domain := [] |}.

(** An address that holds the seed address a second time, in its query. *)
Definition redirect_url : str :=
  Py.lit "http://example.org/redirect?to=http://example.org/about".

(** An address with a space before its fragment, and what [clean_url]
    makes of it, once and twice. *)
Definition spaced_url : str := Py.lit "http://example.org/a?x= #top".
Definition spaced_once : str := Py.lit "http://example.org/a?x= ".
Definition spaced_twice : str := Py.lit "http://example.org/a?x=".

(** An address with the domain in its last segment, after a segment with
    a semicolon. *)
Definition params_url : str := Py.lit "http://example.org/a;x/example.org".
Definition params_once : str := Py.lit "http://example.org/a;x".
Definition params_twice : str := Py.lit "http://example.org/a".

Definition about_url : str := Py.lit "http://example.org/about".

Section Links.

Variable netloc_rejected : str -> bool.
Variable lower : str -> str.
Variable urljoin : str -> str -> result str.
Variable html_parser : str -> Soup.node.
Variable guess_type : str -> option str.
Variable http_get : str -> option Response.

(** The page fetched at address [v] holds a link whose target, made
    absolute and canonical, is the address [u]. *)
Definition links_to (self : WebsiteCrawler) (v u : str) : Prop :=
  exists response link href absolute_url,
    http_get v = Some response
    /\ raise_for_status response = false
    /\ get_mime_type netloc_rejected lower guess_type response
       = Returns (Py.lit "text/html")
    /\ In link (Soup.find_all [Py.lit "a"] (html_parser (text response)))
    /\ Soup.get (Py.lit "href") link = Some href
    /\ Py.truthy href = true
    /\ urljoin v href = Returns absolute_url
    /\ clean_url netloc_rejected self absolute_url = Returns (Some u).

(** A path of [k] links from one address to another. *)
Inductive link_path (self : WebsiteCrawler) : nat -> str -> str -> Prop :=
| path_here (u : str) : link_path self 0 u u
| path_step (k : nat) (s v u : str) :
    links_to self s v -> link_path self k v u -> link_path self (S k) s u.

(** [x] is at most [max_depth - depth] links away from [u]. *)
Definition in_reach (self : WebsiteCrawler) (u : str) (depth : Z) (x : str)
  : Prop :=
  exists k, link_path self k u x /\ depth + Z.of_nat k <= max_depth self.

End Links.

(** The settings of a crawler do not change. *)
Definition same_settings (a b : WebsiteCrawler) : Prop :=
  start_url a = start_url b /\ max_depth a = max_depth b
  /\ max_downloads a = max_downloads b
  /\ output_folder a = output_folder b /\ domain a = domain b.

(** The budget holds in [st], which a run from [st0] has reached: the
    counter has not gone down and is within the limit, and as many files
    were written as it went up. *)
Definition within_budget (st0 st : state) : Prop :=
  same_settings (fst st) (fst st0)
  /\ download_count (fst st0) <= download_count (fst st)
  /\ download_count (fst st) <= max_downloads (fst st0)
  /\ exists new, files (snd st) = files (snd st0) ++ new
                 /\ Z.of_nat (length new)
                    = download_count (fst st) - download_count (fst st0).

Section Run.

Variable netloc_rejected : str -> bool.
Variable lower : str -> str.
Variable urljoin : str -> str -> result str.
Variable html_parser : str -> Soup.node.
Variable prettify : Soup.node -> str.
Variable guess_type : str -> option str.
Variable guess_extension : str -> option str.
Variable http_get : str -> option Response.
Variable open_fails : str -> bool.

(** One call of [crawl], case by case: it returns at a guard; or the
    fetch fails; or the media type cannot be told; or the resource is
    saved and, for a page, its links are followed. *)
Inductive crawl_step (fuel : nat) (url : str) (depth : Z)
    (self : WebsiteCrawler) (w : world) : state -> outcome -> Prop :=
| step_skip (o : outcome) :
    o <> OutOfFuel ->
    crawl_step fuel url depth self w (self, w) o
| step_fetch_failed (u : str) :
    depth <= max_depth self ->
    download_count self < max_downloads self ->
    clean_url netloc_rejected self url = Returns (Some u) ->
    crawl_step fuel url depth self w
      (add_visited u self, log_warning u (send_request u w)) Done
| step_mime_raised (u : str) (e : exn) :
    depth <= max_depth self ->
    download_count self < max_downloads self ->
    clean_url netloc_rejected self url = Returns (Some u) ->
    crawl_step fuel url depth self w
      (add_visited u self, send_request u w) (Raised e)
| step_saved (u : str) (r : Response) (m : str) (st1 st' : state)
    (res : result bool) (o : outcome) :
    depth <= max_depth self ->
    download_count self < max_downloads self ->
    clean_url netloc_rejected self url = Returns (Some u) ->
    http_get u = Some r -> raise_for_status r = false ->
    get_mime_type netloc_rejected lower guess_type r = Returns m ->
    save_content html_parser prettify guess_extension open_fails u r m
      (add_visited u self, send_request u w) = (st1, res) ->
    ((st' = st1 /\ o <> OutOfFuel)
     \/ (Py.eqb m (Py.lit "text/html") = true
         /\ follow urljoin
              (fun a =>
                 crawl netloc_rejected lower urljoin html_parser prettify
                   guess_type guess_extension http_get open_fails fuel a
                   (depth + 1))
              u (Soup.find_all [Py.lit "a"] (html_parser (text r))) st1
            = (st', o))) ->
    crawl_step fuel url depth self w st' o.

End Run.

(** *** A small site

    [http://example.org] links to [/about] and to [https://other.org];
    [/about] has no links; [/old] answers 304 with a page and [/gone]
    answers 404. *)

Definition link_to (href : string) : Soup.node :=
  Soup.Tag (Py.lit "a") {[ Py.lit "href" := Py.lit href ]}
    [Soup.NavigableString (Py.lit "link")].

Definition home_page : Soup.node :=
  Soup.Tag (Py.lit "[document]") ∅
    [link_to "http://example.org/about"; link_to "https://other.org"].

Definition empty_page : Soup.node := Soup.Tag (Py.lit "[document]") ∅ [].

Definition page (status : Z) (body address : string) : Response :=
  {| status_code := status; content_type := Some (Py.lit "text/html");
     text := Py.lit body; content := []; url := Py.lit address |}.

Definition site_get (u : str) : option Response :=
  if Py.eqb u (Py.lit "http://example.org")
  then Some (page 200 "home" "http://example.org")
  else if Py.eqb u (Py.lit "http://example.org/about")
  then Some (page 200 "about" "http://example.org/about")
  else if Py.eqb u (Py.lit "http://example.org/old")
  then Some (page 304 "old" "http://example.org/old")
  else if Py.eqb u (Py.lit "http://example.org/gone")
  then Some (page 404 "gone" "http://example.org/gone")
  else None.

Definition site_parser (text : str) : Soup.node :=
  if Py.eqb text (Py.lit "home") then home_page else empty_page.

(** The links of the site are absolute: joining gives the link itself. *)
Definition site_urljoin (base href : str) : result str := Returns href.

Definition site_crawl (fuel : nat) (url : str) (depth : Z) (st : state)
  : state * outcome :=
  crawl (fun _ => false) Py.ascii_lower site_urljoin site_parser
    (fun _ => []) (fun _ => None) (fun _ => None) site_get (fun _ => false)
    fuel url depth st.

(** The runs of the examples: from the seed with [max_depth = 1] and
    [max_downloads = 2], and from the two addresses that do not answer
    200. *)
Definition home_url : str := Py.lit "http://example.org".
Definition old_url : str := Py.lit "http://example.org/old".
Definition gone_url : str := Py.lit "http://example.org/gone".

Definition home_run : state * outcome :=
  site_crawl 3 home_url 0 (example_crawler 1 2, no_files).

Definition old_run : state * outcome :=
  site_crawl 1 old_url 0 (example_crawler 1 2, no_files).

End CrawlerSpec.

Module ProcessSpec.

Import Value Process.

(** The documents of the chunks, numbered from [i]. *)
Fixpoint numbered (metadata : gmap str pyval) (total i : Z)
    (chunks : list str) : list (gmap str pyval) :=
  match chunks with
  | [] => []
  | chunk :: chunks' =>
      document metadata total i chunk
        :: numbered metadata total (i + 1) chunks'
  end.

(** The keys of the metadata that [create_knowledge_graph] reads and a
    document of [process_html_file] does not have. *)
Definition unset_keys : list str :=
  map Py.lit ["source"; "filename"; "last_modified"; "created"]%string.

(** *** The page [about_text.html]

    The file holds the document [MarkdownSpec.about_doc]; its text is one
    chunk. *)

Definition about_parser (text : str) : Soup.node := MarkdownSpec.about_doc.

(** Every file is read as the empty text, and no markup is refused. *)
Definition about_read (path : str) : result str := Returns [].

Definition no_markup_rejected (text : str) : bool := false.

Definition about_name : str := Py.lit "about_text.html".

Definition about_file : str := Py.lit "workspace/crawled/about_text.html".

Definition about_metadata : gmap str pyval :=
  extract_metadata about_parser Py.ascii_lower [] about_file.

Definition about_documents : list (gmap str pyval) :=
  [document about_metadata 1 0 (Py.strip MarkdownSpec.about_joined)].

(** A database that takes every node, with embeddings of no content. *)
Definition embed_unit (content : pyval) : option unit := Some tt.

Definition accepts_all (node : Graph.Document unit) : bool := false.

Definition about_graph : list (Graph.Document unit) * option Graph.error :=
  Graph.create_knowledge_graph unit embed_unit accepts_all about_documents [].

End ProcessSpec.

Module AddressSpec.

(** A response whose header gives the media type in capitals, with a
    parameter. *)
Definition charset_page : Crawler.Response :=
  {| Crawler.status_code := 200;
     Crawler.content_type := Some (Py.lit "Text/HTML; charset=utf-8");
     Crawler.text := []; Crawler.content := [];
     Crawler.url := CrawlerSpec.about_url |}.

(** The seed address between a space and a line break. *)
Definition padded_url : str := [32%N] ++ CrawlerSpec.about_url ++ [10%N].

End AddressSpec.

(** * Properties *)

(** ** Strings *)

Module PyFacts.

Lemma eqb_eq (s t : str) : Py.eqb s t = true <-> s = t.
Proof.
  revert t. induction s as [|c s IH]; intros [|d t]; simpl;
    try (split; [discriminate | discriminate]); [tauto|].
  rewrite andb_true_iff, N.eqb_eq, IH. split.
  - intros [-> ->]. reflexivity.
  - intros H. injection H as -> ->. auto.
Qed.

Lemma eqb_neq (s t : str) : Py.eqb s t = false -> s <> t.
Proof.
  intros H E. apply eqb_eq in E. congruence.
Qed.

(** The string operations on small inputs. *)
Example find_after_last_slash :
  Py.find (Py.lit "/a;b/c;d") (Py.lit ";")
    (Py.rfind (Py.lit "/a;b/c;d") (Py.lit "/")) = 6.
Proof. reflexivity. Qed.

Example split_slashes :
  Py.split 47%N (Py.lit "/a//b/") = map Py.lit [""; "a"; ""; "b"; ""]%string
  /\ Py.split 47%N [] = [[]].
Proof. split; reflexivity. Qed.

Example join_slashes :
  Py.join (Py.lit "/") (map Py.lit [""; "a"; "b"]%string) = Py.lit "/a/b".
Proof. reflexivity. Qed.

Example replace_left_to_right :
  Py.replace (Py.lit "aaab") (Py.lit "aa") (Py.lit "x") = Py.lit "xab"
  /\ Py.replace (Py.lit "abc") [] (Py.lit "X") = Py.lit "XaXbXcX".
Proof. split; reflexivity. Qed.

Example slice_clamped :
  Py.slice (Py.lit "abcdef") 2 100 = Py.lit "cdef"
  /\ Py.slice (Py.lit "abcdef") (-2) 6 = Py.lit "ef"
  /\ Py.index (Py.lit "abc") 3 = Raises IndexError
  /\ Py.index (Py.lit "abc") (-1) = Returns 99%N.
Proof. repeat split; reflexivity. Qed.

Example strip_both_ends :
  Py.strip (Py.lit "  a b " ++ [160%N; 10%N]) = Py.lit "a b".
Proof. reflexivity. Qed.

End PyFacts.

(** ** Chunking *)

Module ChunkFacts.

Import Chunk ChunkSpec.

Lemma index_in_range (s : str) (i : Z) :
  0 <= i < Py.len s ->
  exists c, nth_error s (Z.to_nat i) = Some c /\ Py.index s i = Returns c.
Proof.
  intros Hi. unfold Py.index, Py.len in *.
  destruct (Z.ltb_spec i 0); [lia|].
  destruct (Z.ltb_spec i 0); [lia|].
  destruct (Z.leb_spec (Z.of_nat (length s)) i); [lia|]. simpl.
  destruct (nth_error s (Z.to_nat i)) as [c|] eqn:E.
  - exists c; auto.
  - apply nth_error_None in E. lia.
Qed.

Lemma has_break_nth (text : str) (i : nat) (c d : Py.char) :
  has_break text = false ->
  nth_error text i = Some c -> nth_error text (S i) = Some d ->
  Py.mem c terminals = true -> Py.isspace d = false.
Proof.
  revert i. induction text as [|x text IH]; intros i Hb Hc Hd Hm.
  - destruct i; discriminate.
  - destruct text as [|y text'].
    + destruct i; simpl in Hd; [discriminate | destruct i; discriminate].
    + cbn [has_break] in Hb. apply orb_false_iff in Hb as [H1 H2].
      destruct i as [|i].
      * simpl in Hc, Hd. injection Hc as ->. injection Hd as ->.
        rewrite Hm in H1. simpl in H1. exact H1.
      * simpl in Hc. apply (IH i); auto.
Qed.

(** Without a sentence break in reach, and with every index read inside
    the text, the backward search leaves [end] where it was. *)
Lemma sentence_end_no_break (text : str) (idxs : list Z) (e : Z) :
  has_break text = false ->
  Forall (fun i => i + 1 < Py.len text) idxs ->
  sentence_end text idxs e = Returns e.
Proof.
  intros Hb. induction 1 as [|i idxs Hi _ IH]; simpl; [reflexivity|].
  destruct (Z.ltb_spec 0 i); [|exact IH].
  destruct (index_in_range text i) as (c & Hc & ->); [lia|]. simpl.
  destruct (Py.mem c terminals) eqn:Hm; [|exact IH].
  destruct (index_in_range text (i + 1)) as (d & Hd & ->); [lia|]. simpl.
  replace (Z.to_nat (i + 1)) with (S (Z.to_nat i)) in Hd by lia.
  rewrite (has_break_nth text _ c d Hb Hc Hd Hm). exact IH.
Qed.

Lemma range_down_bounds (a b i : Z) :
  In i (Py.range_down a b) -> b < i <= a.
Proof.
  unfold Py.range_down. rewrite in_map_iff.
  intros (k & <- & Hk). apply in_seq in Hk. lia.
Qed.

(** The search returns the old [end] or one past an index it visited. *)
Lemma sentence_end_range (text : str) (idxs : list Z) (e e' : Z) :
  sentence_end text idxs e = Returns e' ->
  e' = e \/ exists i, In i idxs /\ e' = i + 1.
Proof.
  induction idxs as [|i idxs IH]; simpl; intros H.
  - injection H as <-. now left.
  - assert (IH' : sentence_end text idxs e = Returns e' ->
                  e' = e \/ exists j, In j (i :: idxs) /\ e' = j + 1).
    { intros H'. destruct (IH H') as [->|(j & Hj & ->)]; [now left|].
      right. exists j. split; [now right | reflexivity]. }
    destruct (0 <? i); [|auto].
    destruct (Py.index text i) as [c|]; simpl in H; [|discriminate].
    destruct (Py.mem c terminals); [|auto].
    destruct (Py.index text (i + 1)) as [d|]; simpl in H; [|discriminate].
    destruct (Py.isspace d); [|auto].
    injection H as <-. right. exists i. split; [now left | reflexivity].
Qed.

(** With the default sizes, a pass moves the cursor forward by at least
    902 and at most 1100 characters. *)
Lemma bounds_default (text : str) (s s' e : Z) :
  bounds text 1000 200 s = Returns (s', e) ->
  s' = (if 0 <? s then s - 200 else s) /\ s + 902 <= e <= s + 1100.
Proof.
  unfold bounds.
  destruct (s + 1000 <? Py.len text).
  - destruct (sentence_end _ _ _) as [e'|] eqn:E; simpl; [|discriminate].
    intros H. injection H as <- <-. split; [reflexivity|].
    apply sentence_end_range in E as [->|(i & Hi & ->)]; [lia|].
    apply range_down_bounds in Hi. lia.
  - simpl. intros H. injection H as <- <-. split; [reflexivity | lia].
Qed.

Lemma firstn_plus {A} (x y : nat) (l : list A) :
  firstn (x + y) l = firstn x l ++ firstn y (skipn x l).
Proof.
  revert l. induction x as [|x IH]; intros l; [reflexivity|].
  destruct l as [|a l]; simpl.
  - now rewrite firstn_nil.
  - now rewrite IH.
Qed.

Lemma slice_nonneg (t : str) (a b : Z) :
  0 <= a -> 0 <= b ->
  Py.slice t a b
  = firstn (Z.to_nat (Z.min b (Py.len t)) - Z.to_nat (Z.min a (Py.len t)))
      (skipn (Z.to_nat (Z.min a (Py.len t))) t).
Proof.
  intros Ha Hb. unfold Py.slice, Py.adjust.
  destruct (Z.ltb_spec a 0); [lia|]. destruct (Z.ltb_spec b 0); [lia|].
  f_equal. unfold Py.len. lia.
Qed.

Lemma slice_split (t : str) (a b c : Z) :
  0 <= a <= b -> b <= c ->
  Py.slice t a c = Py.slice t a b ++ Py.slice t b c.
Proof.
  intros Hab Hbc. rewrite !slice_nonneg by lia.
  set (n := Py.len t).
  assert (Hn : 0 <= n) by (unfold n, Py.len; lia).
  replace (Z.to_nat (Z.min c n) - Z.to_nat (Z.min a n))%nat
    with ((Z.to_nat (Z.min b n) - Z.to_nat (Z.min a n))
          + (Z.to_nat (Z.min c n) - Z.to_nat (Z.min b n)))%nat by lia.
  rewrite firstn_plus. f_equal. rewrite skipn_skipn. do 2 f_equal. lia.
Qed.

Lemma slice_all (t : str) (e : Z) : Py.len t <= e -> Py.slice t 0 e = t.
Proof.
  intros He. assert (0 <= Py.len t) by (unfold Py.len; lia).
  rewrite slice_nonneg by lia.
  rewrite Z.min_r, Z.min_l by lia. simpl. rewrite Nat.sub_0_r.
  apply firstn_all2. unfold Py.len. lia.
Qed.

Lemma slice_empty (t : str) (a : Z) : 0 <= a -> Py.slice t a a = [].
Proof.
  intros Ha. rewrite slice_nonneg by lia. now rewrite Nat.sub_diag.
Qed.

Lemma slice_length (t : str) (a b : Z) :
  0 <= a <= b -> Z.of_nat (length (Py.slice t a b)) <= b - a.
Proof.
  intros H. rewrite slice_nonneg by lia. rewrite List.length_firstn. lia.
Qed.

Lemma nonws_app (a b : str) : nonws (a ++ b) = nonws a ++ nonws b.
Proof. apply List.filter_app. Qed.

Lemma nonws_lstrip (s : str) : nonws (Py.lstrip_by Py.isspace s) = nonws s.
Proof.
  induction s as [|c s IH]; [reflexivity|]. simpl.
  destruct (Py.isspace c) eqn:E; simpl; [exact IH|]. now rewrite E.
Qed.

Lemma nonws_rev (s : str) : nonws (rev s) = rev (nonws s).
Proof.
  induction s as [|c s IH]; [reflexivity|]. simpl.
  rewrite nonws_app, IH. simpl.
  destruct (negb (Py.isspace c)); simpl; [reflexivity|].
  now rewrite app_nil_r.
Qed.

(** Trimming removes whitespace only. *)
Lemma nonws_strip (s : str) : nonws (Py.strip s) = nonws s.
Proof.
  unfold Py.strip, Py.strip_by, Py.rstrip_by.
  rewrite nonws_rev, nonws_lstrip, nonws_rev, rev_involutive.
  apply nonws_lstrip.
Qed.

Lemma nonws_length (s : str) : (length (nonws s) <= length s)%nat.
Proof. apply List.filter_length_le. Qed.

Lemma rebuild_snoc (ks : list nat) (cs : list str) (k : nat) (c : str) :
  length ks = length cs ->
  rebuild (ks ++ [k]) (cs ++ [c]) = rebuild ks cs ++ skipn k (nonws c).
Proof.
  revert cs. induction ks as [|k0 ks IH]; intros [|c0 cs] H;
    try discriminate; simpl.
  - now rewrite app_nil_r.
  - rewrite IH by (simpl in H; lia). now rewrite app_assoc.
Qed.

(** More fuel does not change a result. *)
Lemma chunk_loop_fuel (fuel fuel' : nat) (text : str) (cs acc : list str)
    (size overlap s : Z) (r : result (list str)) :
  (fuel <= fuel')%nat ->
  chunk_loop fuel text size overlap acc s = Some r ->
  chunk_loop fuel' text size overlap acc s = Some r.
Proof.
  revert fuel' acc s. induction fuel as [|fuel IH]; intros fuel' acc s Hle;
    [discriminate|].
  destruct fuel' as [|fuel']; [lia|]. simpl.
  destruct (s <? Py.len text); [|auto].
  destruct (bounds text size overlap s) as [[s' e]|]; [|auto].
  apply IH. lia.
Qed.

(** With the default sizes the loop ends: every pass moves the cursor
    forward, so one pass per character is more than enough. *)
Lemma chunk_loop_ends (text : str) (fuel : nat) (acc : list str) (s : Z) :
  (0 < fuel)%nat ->
  Py.len text - s < Z.of_nat fuel ->
  exists r, chunk_loop fuel text 1000 200 acc s = Some r.
Proof.
  revert acc s. induction fuel as [|fuel IH]; intros acc s H0 Hf; simpl;
    [lia|].
  destruct (Z.ltb_spec s (Py.len text)); [|eauto].
  destruct (bounds text 1000 200 s) as [[s' e]|] eqn:E; [|eauto].
  apply bounds_default in E as [_ He]. apply IH; lia.
Qed.

(** [chunk_text] ends on every text: with the default sizes, more fuel
    than the text has characters is enough for the loop. *)
Lemma chunk_text_ends (text : str) (fuel : nat) :
  (length text < fuel)%nat ->
  exists r, chunk_text fuel text 1000 200 = Some r.
Proof.
  intros H. apply chunk_loop_ends; unfold Py.len; lia.
Qed.

Lemma lstrip_none (s : str) :
  Forall (fun c => Py.isspace c = false) s -> Py.lstrip_by Py.isspace s = s.
Proof.
  destruct 1 as [|c s Hc _]; [reflexivity|]. simpl. now rewrite Hc.
Qed.

Lemma strip_none (s : str) :
  Forall (fun c => Py.isspace c = false) s -> Py.strip s = s.
Proof.
  intros H. unfold Py.strip, Py.strip_by, Py.rstrip_by.
  rewrite (lstrip_none s H), lstrip_none, rev_involutive; [reflexivity|].
  apply List.Forall_rev. exact H.
Qed.

Lemma slice_Forall (P : Py.char -> Prop) (t : str) (a b : Z) :
  Forall P t -> Forall P (Py.slice t a b).
Proof.
  intros H. unfold Py.slice. apply List.Forall_forall. intros x Hx.
  rewrite List.Forall_forall in H. apply H.
  set (n := Z.to_nat (Py.adjust (Py.len t) a)) in *.
  set (m := Z.to_nat _) in Hx.
  rewrite <- (firstn_skipn n t). apply in_or_app. right.
  rewrite <- (firstn_skipn m (skipn n t)). apply in_or_app. now left.
Qed.

Lemma slice_length_inside (t : str) (a b : Z) :
  0 <= a <= b -> b <= Py.len t ->
  length (Py.slice t a b) = Z.to_nat (b - a).
Proof.
  intros Ha Hb. rewrite slice_nonneg by lia.
  rewrite List.length_firstn, List.length_skipn. unfold Py.len in *. lia.
Qed.

Lemma rebuild_dropping_first_snoc (n : nat) (cs : list str) (c : str) :
  cs <> [] ->
  rebuild_dropping_first n (cs ++ [c])
  = rebuild_dropping_first n cs ++ skipn n c.
Proof.
  destruct cs as [|c0 cs]; [congruence|]. intros _. simpl.
  rewrite map_app, concat_app. simpl. now rewrite app_nil_r, app_assoc.
Qed.

(** The loop invariant for a text without whitespace: every pass adds a
    chunk, and the chunks without their overlaps are the text before the
    cursor. *)
Lemma chunk_loop_plain (text : str) (fuel : nat) :
  Forall (fun c => Py.isspace c = false) text ->
  forall (acc : list str) (s : Z) (cs : list str),
  (s = 0 /\ acc = []) \/ (200 <= s /\ acc <> []) ->
  rebuild_dropping_first 200 acc = Py.slice text 0 s ->
  chunk_loop fuel text 1000 200 acc s = Some (Returns cs) ->
  rebuild_dropping_first 200 cs = text.
Proof.
  intros Hplain.
  induction fuel as [|fuel IH]; intros acc s cs Hs Hinv; simpl;
    [discriminate|].
  destruct (Z.ltb_spec s (Py.len text)) as [Hlt|Hge].
  - destruct (bounds text 1000 200 s) as [[s' e]|] eqn:E; [|discriminate].
    apply bounds_default in E as [Hs' He].
    rewrite strip_none by (now apply slice_Forall).
    assert (Hnew : Py.slice text s e <> []).
    { intros Hnil. apply (f_equal (@length _)) in Hnil.
      rewrite slice_nonneg in Hnil by lia.
      rewrite List.length_firstn, List.length_skipn in Hnil.
      unfold Py.len in *. simpl in Hnil. lia. }
    assert (Hnext : Py.slice text 0 e
                    = Py.slice text 0 s ++ Py.slice text s e)
      by (apply slice_split; lia).
    destruct Hs as [[-> ->] | [H200 Hacc]].
    + change (0 <? 0) with false in Hs'. subst s'.
      destruct (Py.slice text 0 e) as [|c chunk] eqn:Ec; [congruence|].
      cbn [Py.truthy app]. apply (IH _ e); [right; split; [lia|discriminate]|].
      simpl. now rewrite app_nil_r.
    + assert (Hpos : (0 <? s) = true) by (apply Z.ltb_lt; lia).
      rewrite Hpos in Hs'. subst s'.
      assert (Hcut : Py.slice text (s - 200) e
                     = Py.slice text (s - 200) s ++ Py.slice text s e)
        by (apply slice_split; lia).
      assert (Hover : length (Py.slice text (s - 200) s) = 200%nat).
      { rewrite slice_length_inside by lia. lia. }
      destruct (Py.slice text (s - 200) e) as [|c chunk] eqn:Ec.
      * symmetry in Hcut. apply app_eq_nil in Hcut as [_ Hcut]. congruence.
      * cbn [Py.truthy]. apply (IH _ e).
        -- right. split; [lia|]. now destruct acc.
        -- rewrite rebuild_dropping_first_snoc by exact Hacc.
           rewrite Hinv, Hnext, Hcut. f_equal.
           rewrite skipn_app, <- Hover, skipn_all, Nat.sub_diag.
           reflexivity.
  - intros H. injection H as <-. rewrite Hinv. now apply slice_all.
Qed.

(** On a text without whitespace the chunks are the slices themselves:
    the text is rebuilt exactly by dropping the first 200 characters of every
    chunk but the first. *)
Lemma chunk_text_roundtrip_plain (fuel : nat) (text : str) (cs : list str) :
  Forall (fun c => Py.isspace c = false) text ->
  chunk_text fuel text 1000 200 = Some (Returns cs) ->
  rebuild_dropping_first 200 cs = text.
Proof.
  intros Hplain H.
  apply (chunk_loop_plain text fuel Hplain [] 0 cs); auto.
  now rewrite slice_empty.
Qed.

Lemma last_not_terminal (text : str) (i : Z) (c : Py.char) :
  ends_with_terminal text = false ->
  nth_error text (Z.to_nat i) = Some c -> 0 <= i ->
  Py.mem c terminals = true -> i + 1 < Py.len text.
Proof.
  unfold ends_with_terminal. intros He Hc Hi Hm.
  assert (Hlt : (Z.to_nat i < length text)%nat)
    by (apply nth_error_Some; congruence).
  destruct (Z.eq_dec (i + 1) (Py.len text)) as [E|E];
    [|unfold Py.len in *; lia].
  exfalso. destruct (rev text) as [|d r] eqn:Er.
  - apply (f_equal (@length _)) in Er. rewrite length_rev in Er.
    simpl in Er. lia.
  - assert (Ht : text = rev r ++ [d]).
    { rewrite <- (rev_involutive text), Er. reflexivity. }
    rewrite Ht in Hc. rewrite nth_error_app2 in Hc.
    + replace (Z.to_nat i - length (rev r))%nat with 0%nat in Hc.
      * simpl in Hc. congruence.
      * rewrite Ht in E. unfold Py.len in E. rewrite length_app in E.
        simpl in E. lia.
    + rewrite Ht in E. unfold Py.len in E. rewrite length_app in E.
      simpl in E. lia.
Qed.

(** Where the text does not end with a sentence terminal, the backward
    search reads inside the text only, and returns. *)
Lemma sentence_end_returns (text : str) (idxs : list Z) (e : Z) :
  ends_with_terminal text = false ->
  Forall (fun i => i < Py.len text) idxs ->
  exists e', sentence_end text idxs e = Returns e'.
Proof.
  intros He. induction 1 as [|i idxs Hi _ IH]; simpl; [eauto|].
  destruct (Z.ltb_spec 0 i); [|exact IH].
  destruct (index_in_range text i) as (c & Hc & ->); [lia|]. simpl.
  destruct (Py.mem c terminals) eqn:Hm; [|exact IH].
  assert (Hin : i + 1 < Py.len text)
    by (apply (last_not_terminal text i c); auto; lia).
  destruct (index_in_range text (i + 1)) as (d & _ & ->); [lia|]. simpl.
  destruct (Py.isspace d); eauto.
Qed.

Lemma bounds_returns (text : str) (s : Z) :
  ends_with_terminal text = false ->
  exists s' e, bounds text 1000 200 s = Returns (s', e).
Proof.
  intros He. unfold bounds. destruct (s + 1000 <? Py.len text).
  - destruct (sentence_end_returns text
                (Py.range_down (Z.min (s + 1000 + 100) (Py.len text) - 1)
                   (s + 1000 - 100)) (s + 1000) He) as [e' ->].
    + apply List.Forall_forall. intros i Hi.
      apply range_down_bounds in Hi. lia.
    + simpl. eauto.
  - simpl. eauto.
Qed.

Lemma chunk_loop_returns (text : str) (fuel : nat) (acc : list str) (s : Z) :
  ends_with_terminal text = false ->
  (0 < fuel)%nat -> Py.len text - s < Z.of_nat fuel ->
  exists cs, chunk_loop fuel text 1000 200 acc s = Some (Returns cs).
Proof.
  intros He. revert acc s.
  induction fuel as [|fuel IH]; intros acc s H0 Hf; simpl; [lia|].
  destruct (Z.ltb_spec s (Py.len text)); [|eauto].
  destruct (bounds_returns text s He) as (s' & e & E). rewrite E.
  apply bounds_default in E as [_ Hle]. apply IH; lia.
Qed.

(** [chunk_text] returns a list on every text that does not end with a
    sentence terminal. *)
Lemma chunk_text_returns (fuel : nat) (text : str) :
  ends_with_terminal text = false ->
  (length text < fuel)%nat ->
  exists cs, chunk_text fuel text 1000 200 = Some (Returns cs).
Proof.
  intros He H. apply chunk_loop_returns; [exact He | |]; unfold Py.len; lia.
Qed.

(** C1. [chunk_text] is not total.  On a text of 1000 letters and a final
    full stop the backward search starts at the last character (index
    1000), finds a sentence-terminal character there and reads the
    character after it, index 1001, outside the text: [IndexError]. *)
Theorem chunk_text_index_error (fuel : nat) :
  chunk_text (S fuel) (Py.mul (Py.lit "a") 1000 ++ Py.lit ".") 1000 200
  = Some (Raises IndexError).
Proof. vm_compute. reflexivity. Qed.

(** A pass moves the cursor to within 100 characters of [start + size]. *)
Lemma bounds_range (text : str) (size overlap s s' e : Z) :
  bounds text size overlap s = Returns (s', e) ->
  s' = window_start overlap s /\ s + size - 98 <= e <= s + size + 100.
Proof.
  unfold bounds, window_start.
  destruct (s + size <? Py.len text).
  - destruct (sentence_end _ _ _) as [e'|] eqn:E; simpl; [|discriminate].
    intros H. injection H as <- <-. split; [reflexivity|].
    apply sentence_end_range in E as [->|(i & Hi & ->)]; [lia|].
    apply range_down_bounds in Hi. lia.
  - simpl. intros H. injection H as <- <-. split; [reflexivity | lia].
Qed.

Section Tiling.

Variable text : str.
Variable overlap : Z.
Hypothesis overlap_nonneg : 0 <= overlap.

Lemma tiling_snoc (s e : Z) (cuts : list (Z * Z)) :
  s = 0 \/ overlap <= s -> s <= e ->
  forall pos,
    0 <= pos -> pos <= s -> Forall (fun cut => snd cut <= s) cuts ->
    tiling text overlap pos s cuts ->
    tiling text overlap pos e (cuts ++ [(s, e)]).
Proof.
  intros Hs He. induction cuts as [|[s0 e0] cuts IH]; intros pos H0 Hp Hends;
    cbn [tiling app].
  - intros Hn. split; [lia|]. split; [exact Hs|]. split; [exact Hn|].
    rewrite slice_empty by lia. reflexivity.
  - intros (Hse & Hs0 & Hn & Ht). inversion Hends as [|? ? He0 Hends']; subst.
    cbn [snd] in He0. split; [exact Hse|]. split; [exact Hs0|].
    split; [exact Hn|]. apply IH; [lia | exact He0 | exact Hends' | exact Ht].
Qed.

Lemma tiling_extend (s e : Z) (cuts : list (Z * Z)) :
  s <= e -> nonws (Py.slice text s e) = [] ->
  forall pos,
    0 <= pos -> pos <= s -> Forall (fun cut => snd cut <= s) cuts ->
    tiling text overlap pos s cuts ->
    tiling text overlap pos e cuts.
Proof.
  intros He Hblank. induction cuts as [|[s0 e0] cuts IH];
    intros pos H0 Hp Hends; cbn [tiling].
  - intros Hn. rewrite (slice_split text pos s e) by lia.
    now rewrite nonws_app, Hn, Hblank.
  - intros (Hse & Hs0 & Hn & Ht). inversion Hends as [|? ? He0 Hends']; subst.
    cbn [snd] in He0. split; [exact Hse|]. split; [exact Hs0|].
    split; [exact Hn|]. apply IH; [lia | exact He0 | exact Hends' | exact Ht].
Qed.

Lemma tiling_clamp (s : Z) (cuts : list (Z * Z)) :
  Py.len text <= s ->
  forall pos,
    0 <= pos -> tiling text overlap pos s cuts ->
    tiling text overlap pos (Py.len text) cuts.
Proof.
  intros Hs. induction cuts as [|[s0 e0] cuts IH]; intros pos H0;
    cbn [tiling].
  - assert (Hl : 0 <= Py.len text) by (unfold Py.len; lia).
    rewrite !slice_nonneg by lia.
    now replace (Z.min s (Py.len text)) with (Z.min (Py.len text) (Py.len text))
      by lia.
  - intros (Hse & Hs0 & Hn & Ht). split; [exact Hse|]. split; [exact Hs0|].
    split; [exact Hn|]. apply IH; [lia | exact Ht].
Qed.

(** A chunk begins, up to whitespace, with the characters before its
    cut. *)
Lemma window_nonws (s e : Z) :
  s = 0 \/ overlap <= s -> s <= e ->
  nonws (window text overlap (s, e))
  = repeated text overlap (s, e) ++ nonws (Py.slice text s e).
Proof.
  intros Hs He. unfold window, repeated, window_start. cbn [fst snd].
  rewrite nonws_strip, <- nonws_app. f_equal.
  apply slice_split; destruct (Z.ltb_spec 0 s); lia.
Qed.

Lemma repeated_length (s e : Z) :
  s = 0 \/ overlap <= s ->
  Z.of_nat (length (repeated text overlap (s, e))) <= overlap.
Proof.
  intros Hs. unfold repeated, window_start. cbn [fst].
  pose proof (nonws_length
                (Py.slice text (if 0 <? s then s - overlap else s) s)).
  pose proof (slice_length text (if 0 <? s then s - overlap else s) s).
  destruct (Z.ltb_spec 0 s); lia.
Qed.

Lemma tiling_windows (cuts : list (Z * Z)) :
  forall pos stop,
    tiling text overlap pos stop cuts ->
    Forall (fun cut =>
              nonws (window text overlap cut)
              = repeated text overlap cut
                  ++ nonws (Py.slice text (fst cut) (snd cut))) cuts
    /\ Forall (fun k => Z.of_nat k <= overlap)
         (map (fun cut => length (repeated text overlap cut)) cuts).
Proof.
  induction cuts as [|[s e] cuts IH]; intros pos stop; cbn [tiling map].
  - intros _. split; constructor.
  - intros (Hse & Hs & _ & Ht). destruct (IH e stop Ht) as [H1 H2].
    split; constructor; auto.
    + cbn [fst snd]. apply window_nonws; [exact Hs | lia].
    + now apply repeated_length.
Qed.

End Tiling.

(** The loop invariant of the round trip: the chunks made so far are the
    chunks of cuts that tile the text before the cursor, and they rebuild
    it. *)
Lemma chunk_loop_cuts (text : str) (size overlap : Z) (fuel : nat) :
  0 <= overlap -> overlap + 98 <= size ->
  forall (acc : list str) (cuts : list (Z * Z)) (s : Z) (cs : list str),
  s = 0 \/ overlap <= s ->
  acc = map (window text overlap) cuts ->
  Forall (fun cut => snd cut <= s) cuts ->
  tiling text overlap 0 s cuts ->
  hd 0%nat (map (fun cut => length (repeated text overlap cut)) cuts) = 0%nat ->
  rebuild (map (fun cut => length (repeated text overlap cut)) cuts) acc
  = nonws (Py.slice text 0 s) ->
  chunk_loop fuel text size overlap acc s = Some (Returns cs) ->
  exists cuts',
    cs = map (window text overlap) cuts'
    /\ tiling text overlap 0 (Py.len text) cuts'
    /\ hd 0%nat (map (fun cut => length (repeated text overlap cut)) cuts')
       = 0%nat
    /\ rebuild (map (fun cut => length (repeated text overlap cut)) cuts') cs
       = nonws text.
Proof.
  intros Hov Hsize.
  induction fuel as [|fuel IH]; intros acc cuts s cs Hs Hacc Hends Htil Hhd Hinv;
    simpl; [discriminate|].
  assert (Hs0 : 0 <= s) by lia.
  destruct (Z.ltb_spec s (Py.len text)) as [Hlt|Hge].
  - destruct (bounds text size overlap s) as [[s' e]|] eqn:E; [|discriminate].
    apply bounds_range in E as [-> He].
    assert (Hse : s <= e) by lia.
    assert (Hw : Py.strip (Py.slice text (window_start overlap s) e)
                 = window text overlap (s, e)) by reflexivity.
    rewrite Hw.
    assert (Hnext : nonws (Py.slice text 0 e)
                    = nonws (Py.slice text 0 s) ++ nonws (Py.slice text s e)).
    { rewrite (slice_split text 0 s e) by lia. apply nonws_app. }
    assert (Hends' : Forall (fun cut : Z * Z => snd cut <= e) cuts).
    { eapply List.Forall_impl; [|exact Hends]. cbv beta. intros cut Hc. lia. }
    pose proof (window_nonws text overlap Hov s e Hs Hse) as Hwn.
    destruct (Py.truthy (window text overlap (s, e))) eqn:Ht.
    + apply (IH _ (cuts ++ [(s, e)])).
      * right. lia.
      * rewrite map_app, Hacc. reflexivity.
      * apply Forall_app. split; [exact Hends'|].
        constructor; [cbn [snd]; lia | constructor].
      * apply tiling_snoc; auto; lia.
      * destruct cuts as [|c0 cuts]; [|exact Hhd]. cbn [app map hd].
        subst acc. cbn [map rebuild] in Hinv.
        unfold repeated, window_start. cbn [fst].
        assert (Hz : nonws (Py.slice text 0 (if 0 <? s then s - overlap else s))
                     ++ nonws (Py.slice text
                                 (if 0 <? s then s - overlap else s) s) = []).
        { rewrite <- nonws_app, <- slice_split, <- Hinv;
            [reflexivity | | ]; destruct (Z.ltb_spec 0 s); lia. }
        apply app_eq_nil in Hz as [_ Hz]. now rewrite Hz.
      * rewrite map_app. cbn [map].
        rewrite rebuild_snoc by (subst acc; now rewrite !length_map).
        rewrite Hinv, Hnext. f_equal. rewrite Hwn.
        now rewrite skipn_app, skipn_all, Nat.sub_diag.
    + assert (Hn : nonws (Py.slice text s e) = []).
      { destruct (window text overlap (s, e)); [|discriminate].
        cbn [nonws List.filter] in Hwn. symmetry in Hwn.
        now apply app_eq_nil in Hwn as [_ Hwn]. }
      apply (IH _ cuts); auto.
      * right. lia.
      * apply (tiling_extend text overlap s e); auto; lia.
      * now rewrite Hinv, Hnext, Hn, app_nil_r.
  - intros H. injection H as <-. exists cuts.
    split; [exact Hacc|]. split; [|split; [exact Hhd|]].
    + apply (tiling_clamp text overlap s); [lia | lia | exact Htil].
    + rewrite Hinv. now rewrite slice_all by lia.
Qed.

(** C2 (as amended).  When [chunk_text] returns, for sizes with
    [0 <= overlap] and [overlap + 98 <= chunk_size] (the default sizes
    among them), the chunks are the trimmed slices of cuts [(s, e)] that
    follow one another through the text and leave out whitespace only.
    Every chunk begins, up to whitespace, with what the text holds in the
    [overlap] characters before its cursor [s], and goes on with the text
    from [s] to [e].  So the text is rebuilt up to whitespace when that
    overlap is dropped from the front of each chunk: [k] characters that
    are not whitespace, where [k] counts those of the text between
    [s - overlap] and [s]; at most [overlap], and none from the first
    chunk. *)
Theorem chunk_text_roundtrip (fuel : nat) (text : str) (size overlap : Z)
    (cs : list str) :
  0 <= overlap -> overlap + 98 <= size ->
  chunk_text fuel text size overlap = Some (Returns cs) ->
  exists (cuts : list (Z * Z)) (ks : list nat),
    cs = map (window text overlap) cuts
    /\ ks = map (fun cut => length (repeated text overlap cut)) cuts
    /\ tiling text overlap 0 (Py.len text) cuts
    /\ Forall (fun cut =>
                 nonws (window text overlap cut)
                 = repeated text overlap cut
                     ++ nonws (Py.slice text (fst cut) (snd cut))) cuts
    /\ Forall (fun k => Z.of_nat k <= overlap) ks
    /\ hd 0%nat ks = 0%nat
    /\ rebuild ks cs = nonws text.
Proof.
  intros Hov Hsize H.
  apply (chunk_loop_cuts text size overlap fuel Hov Hsize [] [] 0 cs) in H
    as (cuts & Hcs & Htil & Hhd & Hre).
  - exists cuts, (map (fun cut => length (repeated text overlap cut)) cuts).
    destruct (tiling_windows text overlap Hov cuts 0 (Py.len text) Htil)
      as [H1 H2].
    repeat (split; [first [assumption | reflexivity]|]). exact Hre.
  - now left.
  - reflexivity.
  - constructor.
  - cbn [tiling]. now rewrite slice_empty.
  - reflexivity.
  - cbn [map rebuild]. now rewrite slice_empty.
Qed.

(** C3 (as amended).  A text of 1500 characters without a sentence break
    gives the trimmed slices [0, 1000) and [800, 1500), in this order,
    each one only when it is not empty. *)
Theorem chunk_text_1500 (fuel : nat) (text : str) :
  length text = 1500%nat ->
  has_break text = false ->
  chunk_text (3 + fuel) text 1000 200
  = Some (Returns (List.filter Py.truthy
                     [Py.strip (Py.slice text 0 1000);
                      Py.strip (Py.slice text 800 1500)])).
Proof.
  intros Hlen Hb.
  assert (Hl : Py.len text = 1500) by (unfold Py.len; lia).
  unfold chunk_text.
  change (3 + fuel)%nat with (S (S (S fuel))).
  cbn [chunk_loop]. rewrite Hl.
  change (0 <? 1500) with true. cbn iota.
  assert (B1 : bounds text 1000 200 0 = Returns (0, 1000)).
  { unfold bounds. rewrite Hl. change (0 + 1000 <? 1500) with true.
    cbn iota. rewrite sentence_end_no_break; [reflexivity | exact Hb |].
    apply List.Forall_forall. intros i Hi.
    apply range_down_bounds in Hi. rewrite Hl. lia. }
  rewrite B1. cbn iota.
  change (1000 <? 1500) with true. cbn iota.
  assert (B2 : bounds text 1000 200 1000 = Returns (800, 2000)).
  { unfold bounds. rewrite Hl. reflexivity. }
  rewrite B2. cbn iota.
  change (2000 <? 1500) with false. cbn iota.
  assert (S2 : Py.slice text 800 2000 = Py.slice text 800 1500).
  { unfold Py.slice. rewrite Hl. reflexivity. }
  rewrite S2. cbn [List.filter app].
  destruct (Py.truthy (Py.strip (Py.slice text 0 1000)));
    destruct (Py.truthy (Py.strip (Py.slice text 800 1500))); reflexivity.
Qed.

End ChunkFacts.

Module ChunkExamples.

Import Chunk ChunkSpec ChunkFacts.

(** C2, counterexample.  The overlap is at the front of a chunk, not at its
    end: dropping the last 200 characters of the second chunk loses 200
    times [b] and keeps 200 times [a] twice. *)
Lemma chunk_text_drop_last_fails :
  chunk_text 3 two_halves 1000 200 = Some (Returns two_halves_chunks)
  /\ nonws (rebuild_dropping_last 200 two_halves_chunks) <> nonws two_halves.
Proof.
  split; [vm_compute; reflexivity|].
  apply PyFacts.eqb_neq. vm_compute. reflexivity.
Qed.

(** C2, counterexample, other sizes.  With [chunk_size = 100] and
    [overlap = 50] text is lost: the first pass ends after the sentence, at
    2, the slice of the second pass begins at 2 - 50, which Python counts
    from the end of the text, and is empty.  No chunk holds an [X]. *)
Lemma chunk_text_lossy :
  chunk_text 5 lossy 100 50 = Some (Returns lossy_chunks)
  /\ Py.mem 88%N (nonws lossy) = true
  /\ existsb (Py.mem 88%N) lossy_chunks = false.
Proof. repeat split; vm_compute; reflexivity. Qed.

Lemma rebuild_mem (x : Py.char) (ks : list nat) (cs : list str) :
  Py.mem x (rebuild ks cs) = true -> existsb (Py.mem x) cs = true.
Proof.
  unfold Py.mem. revert cs. induction ks as [|k ks IH]; intros [|c cs];
    cbn [rebuild existsb]; try discriminate.
  rewrite existsb_app. intros H. apply orb_true_iff in H as [H|H].
  - apply orb_true_iff. left. apply existsb_exists in H as (y & Hy & E).
    apply existsb_exists. exists y. split; [|exact E].
    assert (Hn : In y (nonws c)).
    { rewrite <- (firstn_skipn k (nonws c)). apply in_or_app. now right. }
    unfold nonws in Hn. now apply List.filter_In in Hn as [Hn _].
  - apply orb_true_iff. right. now apply IH.
Qed.

(** C2, counterexample.  The reconstruction of the specification fails
    in three ways.  The overlap is at the front of a chunk, not at its end:
    dropping the last 200 characters of the second chunk of [two_halves]
    loses 200 times [b] and keeps 200 times [a] twice.  Chunks are
    trimmed, so that the overlap can be shorter than [overlap]: the second
    chunk of [spaced] begins with 195 characters of overlap, and dropping
    200 loses five.  And for other sizes text is lost, whatever is
    dropped: no chunk of [lossy] holds an [X]. *)
Lemma chunk_text_roundtrip_fails :
  (chunk_text 3 two_halves 1000 200 = Some (Returns two_halves_chunks)
   /\ nonws (rebuild_dropping_last 200 two_halves_chunks)
      <> nonws two_halves)
  /\ (chunk_text 3 spaced 1000 200 = Some (Returns spaced_chunks)
      /\ nonws (rebuild_dropping_first 200 spaced_chunks) <> nonws spaced)
  /\ (chunk_text 5 lossy 100 50 = Some (Returns lossy_chunks)
      /\ nonws (rebuild_dropping_last 50 lossy_chunks) <> nonws lossy
      /\ forall ks, rebuild ks lossy_chunks <> nonws lossy).
Proof.
  split; [exact chunk_text_drop_last_fails|]. split.
  - split; [vm_compute; reflexivity|].
    apply PyFacts.eqb_neq. vm_compute. reflexivity.
  - destruct chunk_text_lossy as (Hc & Hin & Hout).
    split; [exact Hc|]. split.
    + apply PyFacts.eqb_neq. vm_compute. reflexivity.
    + intros ks H. rewrite <- H in Hin. apply rebuild_mem in Hin.
      rewrite Hin in Hout. discriminate.
Qed.

Lemma chunk_text_roundtrip_witness :
  chunk_text 3 two_halves 1000 200 = Some (Returns two_halves_chunks)
  /\ exists (cuts : list (Z * Z)) (ks : list nat),
       two_halves_chunks = map (window two_halves 200) cuts
       /\ ks = map (fun cut => length (repeated two_halves 200 cut)) cuts
       /\ tiling two_halves 200 0 (Py.len two_halves) cuts
       /\ Forall (fun cut =>
                    nonws (window two_halves 200 cut)
                    = repeated two_halves 200 cut
                        ++ nonws (Py.slice two_halves (fst cut) (snd cut)))
            cuts
       /\ Forall (fun k => Z.of_nat k <= 200) ks
       /\ hd 0%nat ks = 0%nat
       /\ rebuild ks two_halves_chunks = nonws two_halves.
Proof.
  assert (H : chunk_text 3 two_halves 1000 200
              = Some (Returns two_halves_chunks))
    by (vm_compute; reflexivity).
  split; [exact H|].
  apply (chunk_text_roundtrip 3 two_halves 1000 200 two_halves_chunks);
    [lia | lia | exact H].
Defined.

(** C3, counterexample.  A text of 1500 spaces has no sentence break, and
    both of its slices are empty once trimmed: no chunk at all. *)
Lemma chunk_text_1500_blank :
  length blank = 1500%nat /\ has_break blank = false
  /\ chunk_text 3 blank 1000 200 = Some (Returns []).
Proof. repeat split; vm_compute; reflexivity. Qed.

Lemma chunk_text_1500_witness :
  length two_halves = 1500%nat /\ has_break two_halves = false
  /\ chunk_text 3 two_halves 1000 200
     = Some (Returns (List.filter Py.truthy
                        [Py.strip (Py.slice two_halves 0 1000);
                         Py.strip (Py.slice two_halves 800 1500)])).
Proof.
  assert (H1 : length two_halves = 1500%nat) by (vm_compute; reflexivity).
  assert (H2 : has_break two_halves = false) by (vm_compute; reflexivity).
  split; [exact H1|]. split; [exact H2|].
  exact (chunk_text_1500 0 two_halves H1 H2).
Defined.

End ChunkExamples.

(** ** Normalisation to markdown *)

Module MarkdownFacts.

Import Soup Markdown MarkdownSpec.

(** *** The last character of the text *)

Lemma ends_app (a b : str) :
  ChunkSpec.ends_with_terminal (a ++ b)
  = match b with
    | [] => ChunkSpec.ends_with_terminal a
    | _ :: _ => ChunkSpec.ends_with_terminal b
    end.
Proof.
  unfold ChunkSpec.ends_with_terminal. rewrite rev_app_distr.
  destruct b as [|c b]; [reflexivity|].
  destruct (rev (c :: b)) as [|d r] eqn:E; [|reflexivity].
  apply (f_equal (@length _)) in E. rewrite length_rev in E. discriminate.
Qed.

Lemma last_snoc {A} (l : list A) (x d : A) :
  List.last (l ++ [x]) d = x.
Proof. apply last_last. Qed.

Lemma last_snoc2 {A} (l : list A) (x y d : A) :
  List.last (l ++ [x; y]) d = y.
Proof.
  change (l ++ [x; y]) with (l ++ [x] ++ [y]).
  rewrite List.app_assoc. apply last_last.
Qed.

Lemma join_ends (L : list str) :
  ChunkSpec.ends_with_terminal (List.last L []) = false ->
  ChunkSpec.ends_with_terminal (Py.join Py.newline L) = false.
Proof.
  induction L as [|p L IH]; [reflexivity|].
  destruct L as [|q L]; [auto|]. intros H.
  change (Py.join Py.newline (p :: q :: L))
    with (p ++ Py.newline ++ Py.join Py.newline (q :: L)).
  rewrite ends_app. unfold Py.newline at 1 2. cbn [app].
  change (10%N :: Py.join Py.newline (q :: L))
    with ([10%N] ++ Py.join Py.newline (q :: L)).
  rewrite ends_app.
  destruct (Py.join Py.newline (q :: L)) eqn:E; [reflexivity|].
  apply IH. exact H.
Qed.

Lemma headings_last (tags : list node) (acc L : list str) :
  ChunkSpec.ends_with_terminal (List.last acc []) = false ->
  headings tags acc = Returns L ->
  ChunkSpec.ends_with_terminal (List.last L []) = false.
Proof.
  revert acc. induction tags as [|tag tags IH]; intros acc Hacc; simpl.
  - intros H. injection H as <-. exact Hacc.
  - destruct (Py.index (name_of tag) 1) as [c|]; simpl; [|discriminate].
    destruct (int_of_char c) as [level|]; simpl; [|discriminate].
    apply IH. now rewrite last_snoc2.
Qed.

Lemma blocks_last (tags : list node) (acc : list str) :
  ChunkSpec.ends_with_terminal (List.last acc []) = false ->
  ChunkSpec.ends_with_terminal (List.last (blocks tags acc) []) = false.
Proof.
  revert acc. induction tags as [|tag tags IH]; intros acc Hacc; simpl;
    [exact Hacc|].
  destruct (Py.eqb (name_of tag) (Py.lit "p")).
  - apply IH. destruct (Py.truthy _); [|exact Hacc].
    now rewrite last_snoc2.
  - destruct (_ || _); [|now apply IH].
    apply IH. now rewrite last_snoc.
Qed.

Lemma links_last (tags : list node) (acc : list str) :
  ChunkSpec.ends_with_terminal (List.last acc []) = false ->
  ChunkSpec.ends_with_terminal (List.last (links tags acc) []) = false.
Proof.
  revert acc. induction tags as [|tag tags IH]; intros acc Hacc;
    cbn [links]; [exact Hacc|].
  apply IH. destruct (_ && _); [|exact Hacc].
  rewrite last_snoc.
  generalize (Py.lit "["), (Py.lit "]("),
    (default [] (get (Py.lit "href") tag)), (Py.strip (get_text tag)).
  intros a b h t. rewrite !List.app_assoc.
  change (Py.lit ")") with [41%N]. now rewrite ends_app.
Qed.

(** The text made of a document does not end with a sentence terminal: it
    ends with the newline before an empty last line, or with the closing
    parenthesis of a link. *)
Lemma html_to_markdown_ends (soup : node) (text : str) :
  html_to_markdown soup = Returns text ->
  ChunkSpec.ends_with_terminal text = false.
Proof.
  unfold html_to_markdown.
  destruct (main_content soup) as [m|];
    [|intros H; injection H as <-; reflexivity].
  destruct (headings _ _) as [L|] eqn:E; simpl; [|discriminate].
  intros H. injection H as <-.
  apply join_ends, links_last, blocks_last.
  now apply (headings_last (find_all heading_names m) [] L).
Qed.

(** So [chunk_text] returns on every text that [html_to_markdown]
    makes. *)
Lemma chunk_text_of_markdown (fuel : nat) (soup : node) (text : str) :
  html_to_markdown soup = Returns text ->
  (length text < fuel)%nat ->
  exists cs, Chunk.chunk_text fuel text 1000 200 = Some (Returns cs).
Proof.
  intros H Hf.
  apply ChunkFacts.chunk_loop_returns;
    [now apply (html_to_markdown_ends soup) | lia | unfold Py.len; lia].
Qed.

(** C8 (as amended).  A document whose main content holds one [h2] with
    the text [About Us], one paragraph with the text [We build things.]
    and no other heading, paragraph, list or link gives the heading line, an
    empty line, the paragraph line and an empty line, joined by newlines:
    the text ends with one newline. *)
Theorem html_to_markdown_about (soup main h p : node) :
  main_content soup = Some main ->
  find_all heading_names main = [h] ->
  name_of h = Py.lit "h2" ->
  Py.strip (get_text h) = Py.lit "About Us" ->
  find_all (map Py.lit ["p"; "ul"; "ol"]%string) main = [p] ->
  name_of p = Py.lit "p" ->
  Py.strip (get_text p) = Py.lit "We build things." ->
  find_all [Py.lit "a"] main = [] ->
  html_to_markdown soup = Returns about_joined.
Proof.
  intros Hmain Hh Hname Htext Hp Hpname Hptext Ha.
  unfold html_to_markdown. rewrite Hmain, Hh, Hp, Ha.
  cbn [headings blocks links]. rewrite Hname, Htext, Hpname, Hptext.
  reflexivity.
Qed.

(** C8, counterexample.  For the page of the scenario the code returns the
    text with one final newline, not the text with two. *)
Lemma html_to_markdown_about_one_newline :
  html_to_markdown about_doc = Returns about_joined
  /\ html_to_markdown about_doc <> Returns about_expected.
Proof.
  split; [reflexivity|]. intros H. vm_compute in H. discriminate H.
Qed.

Lemma html_to_markdown_about_witness :
  html_to_markdown about_doc = Returns about_joined.
Proof.
  apply (html_to_markdown_about about_doc
           (Tag (Py.lit "main") ∅
              [Tag (Py.lit "h2") ∅ [NavigableString (Py.lit "About Us")];
               Tag (Py.lit "p") ∅
                 [NavigableString (Py.lit "We build things.")]])
           (Tag (Py.lit "h2") ∅ [NavigableString (Py.lit "About Us")])
           (Tag (Py.lit "p") ∅
              [NavigableString (Py.lit "We build things.")]));
    reflexivity.
Defined.

End MarkdownFacts.

(** ** Parsing addresses *)

Module UrlFacts.

Import Url UrlSpec.

Example urlparse_parts :
  urlparse (fun _ => false) (Py.lit "HTTP://Ex.org:80/a/b;p?q=1#f")
  = Returns {| scheme := Py.lit "http"; netloc := Py.lit "Ex.org:80";
               path := Py.lit "/a/b"; params := Py.lit "p";
               query := Py.lit "q=1"; fragment := Py.lit "f" |}.
Proof. reflexivity. Qed.

Example urlparse_no_scheme :
  urlparse (fun _ => false) (Py.lit "example.org/x")
  = Returns {| scheme := []; netloc := []; path := Py.lit "example.org/x";
               params := []; query := []; fragment := [] |}.
Proof. reflexivity. Qed.

Example urlparse_bracket :
  urlparse (fun _ => false) (Py.lit "http://[") = Raises ValueError.
Proof. reflexivity. Qed.

(** The library's own checks of the host come last: a parse is the parse
    without them, refused when they refuse its host. *)
Lemma urlsplit_rejected (netloc_rejected : str -> bool) (url : str) :
  urlsplit netloc_rejected url
  = match urlsplit (fun _ => false) url with
    | Returns r =>
        if netloc_rejected (netloc r) then Raises ValueError else Returns r
    | Raises e => Raises e
    end.
Proof.
  unfold urlsplit.
  repeat match goal with
         | |- context [let '(_, _) := ?x in _] => destruct x
         | |- context [rbind ?x _] => destruct x; cbn [rbind]
         end; reflexivity.
Qed.

Lemma len_nonneg (s : str) : (Py.len s <? 0) = false.
Proof. apply Z.ltb_ge. unfold Py.len. lia. Qed.

Lemma find_zero (s p : str) : Py.find s p 0 = Py.find_at s p 0.
Proof.
  unfold Py.find. cbn [Z.ltb Z.compare]. now rewrite len_nonneg.
Qed.

Lemma slice_prefix (a t : str) : Py.slice (a ++ t) 0 (Py.len a) = a.
Proof.
  unfold Py.slice, Py.adjust. rewrite len_nonneg. cbn [Z.ltb Z.compare].
  unfold Py.len. rewrite length_app.
  rewrite Z.min_l, Z.min_l by lia. change (Z.to_nat 0) with 0%nat.
  rewrite skipn_O, Z.sub_0_r, Nat2Z.id.
  now rewrite firstn_app, Nat.sub_diag, firstn_all, firstn_O, app_nil_r.
Qed.

(** A slice from 0 is a prefix. *)
Lemma slice_from_zero (s : str) (i : Z) : exists k, Py.slice s 0 i = firstn k s.
Proof.
  unfold Py.slice. eexists.
  replace (Py.adjust (Py.len s) 0) with 0.
  - change (Z.to_nat 0) with 0%nat. rewrite skipn_O. reflexivity.
  - unfold Py.adjust. cbn [Z.ltb Z.compare]. unfold Py.len. lia.
Qed.

Ltac split_rest :=
  unfold parse_rest, brackets_unpaired;
  match goal with |- context [splitnetloc ?R] => destruct (splitnetloc R) end;
  match goal with |- context [if ?b then Raises ValueError else _] =>
    destruct b; [reflexivity|] end;
  cbn [rbind];
  repeat match goal with
         | |- context [let '(_, _) := ?x in _] => destruct x
         end;
  reflexivity.

Lemma urlsplit_http (nr : str -> bool) (R : str) :
  urlsplit nr (Py.lit "http" ++ Py.lit "://" ++ R)
  = parse_rest nr (Py.lit "http") (List.filter safe R).
Proof.
  unfold urlsplit.
  change (Py.lit "http" ++ Py.lit "://" ++ R)
    with (104 :: 116 :: 116 :: 112 :: 58 :: 47 :: 47 :: R)%N.
  cbn [Py.lstrip_by c0_control_or_space N.leb N.compare Pos.compare
       Pos.compare_cont].
  cbn [List.filter unsafe_to_remove negb orb N.eqb Pos.eqb].
  fold safe. set (R' := List.filter safe R). cbv zeta.
  rewrite !find_zero.
  change (Py.find_at (104 :: 116 :: 116 :: 112 :: 58 :: 47 :: 47 :: R')%N
            (Py.lit ":") 0) with 4.
  assert (Hs : Py.slice (104 :: 116 :: 116 :: 112 :: 58 :: 47 :: 47 :: R')%N
                 0 4 = Py.lit "http")
    by apply (slice_prefix (Py.lit "http")).
  rewrite !Hs.
  change ((0 <? 4) && Py.is_ascii_alpha 104%N
          && forallb (fun c => Py.mem c scheme_chars) (Py.lit "http"))
    with true.
  cbn iota.
  change (drop (Z.to_nat (4 + 1))
            (104 :: 116 :: 116 :: 112 :: 58 :: 47 :: 47 :: R')%N)
    with (Py.lit "//" ++ R').
  assert (Hs2 : Py.slice (Py.lit "//" ++ R') 0 2 = Py.lit "//")
    by apply (slice_prefix (Py.lit "//")).
  rewrite Hs2.
  change (Py.eqb (Py.lit "//") (Py.lit "//")) with true. cbn iota.
  change (drop 2 (Py.lit "//" ++ R')) with R'.
  split_rest.
Qed.

Lemma urlsplit_https (nr : str -> bool) (R : str) :
  urlsplit nr (Py.lit "https" ++ Py.lit "://" ++ R)
  = parse_rest nr (Py.lit "https") (List.filter safe R).
Proof.
  unfold urlsplit.
  change (Py.lit "https" ++ Py.lit "://" ++ R)
    with (104 :: 116 :: 116 :: 112 :: 115 :: 58 :: 47 :: 47 :: R)%N.
  cbn [Py.lstrip_by c0_control_or_space N.leb N.compare Pos.compare
       Pos.compare_cont].
  cbn [List.filter unsafe_to_remove negb orb N.eqb Pos.eqb].
  fold safe. set (R' := List.filter safe R). cbv zeta.
  rewrite !find_zero.
  change (Py.find_at
            (104 :: 116 :: 116 :: 112 :: 115 :: 58 :: 47 :: 47 :: R')%N
            (Py.lit ":") 0) with 5.
  assert (Hs : Py.slice
                 (104 :: 116 :: 116 :: 112 :: 115 :: 58 :: 47 :: 47 :: R')%N
                 0 5 = Py.lit "https")
    by apply (slice_prefix (Py.lit "https")).
  rewrite !Hs.
  change ((0 <? 5) && Py.is_ascii_alpha 104%N
          && forallb (fun c => Py.mem c scheme_chars) (Py.lit "https"))
    with true.
  cbn iota.
  change (drop (Z.to_nat (5 + 1))
            (104 :: 116 :: 116 :: 112 :: 115 :: 58 :: 47 :: 47 :: R')%N)
    with (Py.lit "//" ++ R').
  assert (Hs2 : Py.slice (Py.lit "//" ++ R') 0 2 = Py.lit "//")
    by apply (slice_prefix (Py.lit "//")).
  rewrite Hs2.
  change (Py.eqb (Py.lit "//") (Py.lit "//")) with true. cbn iota.
  change (drop 2 (Py.lit "//" ++ R')) with R'.
  split_rest.
Qed.

(** *** Characters of a string *)

Lemma contains_char (s : str) (x : Py.char) :
  Py.contains s [x] = existsb (fun c => N.eqb c x) s.
Proof.
  induction s as [|c s IH]; [reflexivity|].
  unfold Py.contains; fold Py.contains. rewrite IH. simpl.
  now rewrite andb_true_r.
Qed.

Lemma contains_char_false (s : str) (x : Py.char) :
  Py.contains s [x] = false <-> Forall (fun c => c <> x) s.
Proof.
  rewrite contains_char. induction s as [|c s IH]; simpl.
  - split; [constructor | reflexivity].
  - rewrite orb_false_iff, IH, N.eqb_neq. split.
    + intros [H1 H2]. now constructor.
    + intros H. inversion H; subst. auto.
Qed.

Lemma Forall_incl {A} (P : A -> Prop) (l l' : list A) :
  incl l l' -> Forall P l' -> Forall P l.
Proof.
  intros Hi H. rewrite List.Forall_forall in *. auto.
Qed.

(** *** The authority *)

Lemma splitnetloc_spec (s a b : str) :
  splitnetloc s = (a, b) ->
  s = a ++ b /\ forallb (fun c => negb (delim c)) a = true
  /\ starts delim b = true.
Proof.
  revert a b. induction s as [|c s IH]; intros a b; simpl.
  - intros H. injection H as <- <-. auto.
  - fold (delim c). destruct (delim c) eqn:E.
    + intros H. injection H as <- <-. simpl. auto.
    + destruct (splitnetloc s) as [a' b'] eqn:E'. intros H.
      injection H as <- <-. destruct (IH a' b' eq_refl) as (-> & H1 & H2).
      simpl. rewrite E, H1. auto.
Qed.

Lemma splitnetloc_app (a b : str) :
  forallb (fun c => negb (delim c)) a = true -> starts delim b = true ->
  splitnetloc (a ++ b) = (a, b).
Proof.
  intros Ha Hb. induction a as [|c a IH]; simpl.
  - destruct b as [|d b]; [reflexivity|]. simpl in Hb. simpl.
    fold (delim d). now rewrite Hb.
  - simpl in Ha. apply andb_true_iff in Ha as [Hc Ha].
    fold (delim c). apply negb_true_iff in Hc. rewrite Hc.
    now rewrite IH.
Qed.

(** *** The first occurrence of a character *)

Lemma split1_spec (x : Py.char) (s a b : str) :
  Py.contains s [x] = true -> Py.split1 x s = (a, b) ->
  s = a ++ x :: b /\ Forall (fun c => c <> x) a.
Proof.
  rewrite contains_char. revert a b.
  induction s as [|c s IH]; intros a b; simpl; [discriminate|].
  destruct (N.eqb_spec c x) as [->|Hne]; simpl.
  - intros _ H. injection H as <- <-. auto.
  - intros Hc. destruct (Py.split1 x s) as [a' b'].
    intros H. injection H as <- <-.
    destruct (IH a' b' Hc eq_refl) as [-> H1]. split; [reflexivity|].
    now constructor.
Qed.

Lemma split1_app (x : Py.char) (a b : str) :
  Forall (fun c => c <> x) a -> Py.split1 x (a ++ x :: b) = (a, b).
Proof.
  induction 1 as [|c a Hc _ IH]; simpl.
  - now rewrite N.eqb_refl.
  - apply N.eqb_neq in Hc. now rewrite Hc, IH.
Qed.


Lemma delim_cases (c : Py.char) :
  delim c = true -> c = 47%N \/ c = 63%N \/ c = 35%N.
Proof.
  unfold delim, Py.mem. change (Py.lit "/?#") with [47; 63; 35]%N.
  simpl. rewrite !orb_true_iff, !N.eqb_eq. intuition discriminate.
Qed.

Lemma has_char_false (x : string) (c : Py.char) (s : str) :
  Py.lit x = [c] -> has x s = false <-> Forall (fun d => d <> c) s.
Proof.
  intros E. unfold has. rewrite E. apply contains_char_false.
Qed.

(** What a parse that returns says of its parts. *)
Lemma parse_rest_parts (nr : str -> bool) (S R : str) (r : ParseResult) :
  parse_rest nr S R = Returns r ->
  scheme r = S /\ params r = []
  /\ brackets_unpaired (netloc r) = false /\ nr (netloc r) = false
  /\ forallb (fun c => negb (delim c)) (netloc r) = true
  /\ incl (netloc r) R /\ incl (path r) R /\ incl (query r) R
  /\ Forall (fun c => c <> 63%N) (path r)
  /\ Forall (fun c => c <> 35%N) (path r)
  /\ Forall (fun c => c <> 35%N) (query r)
  /\ starts (N.eqb 47) (path r) = true.
Proof.
  unfold parse_rest.
  destruct (splitnetloc R) as [N rest] eqn:EN.
  apply splitnetloc_spec in EN as (-> & HN & Hrest).
  destruct (brackets_unpaired N) eqn:EB; [discriminate|].
  assert (Hu : exists u frag,
             (if has "#" rest then Py.split1 35%N rest else (rest, []))
             = (u, frag)
             /\ (exists t, rest = u ++ t)
             /\ Forall (fun c => c <> 35%N) u).
  { destruct (has "#" rest) eqn:E.
    - destruct (Py.split1 35%N rest) as [u frag] eqn:E1.
      apply split1_spec in E1 as [-> H]; [|exact E]. eauto 6.
    - exists rest, []. split; [reflexivity|]. split.
      + exists []. now rewrite app_nil_r.
      + now apply (has_char_false "#" 35%N). }
  destruct Hu as (u & frag & -> & [t1 Ht1] & Hu).
  assert (Hp : exists p q,
             (if has "?" u then Py.split1 63%N u else (u, [])) = (p, q)
             /\ (exists t, u = p ++ t) /\ incl q u
             /\ Forall (fun c => c <> 63%N) p).
  { destruct (has "?" u) eqn:E.
    - destruct (Py.split1 63%N u) as [p q] eqn:E1.
      apply split1_spec in E1 as [-> H]; [|exact E].
      exists p, q. repeat split; eauto.
      intros c Hc. apply in_or_app. right. now right.
    - exists u, []. split; [reflexivity|]. split.
      + exists []. now rewrite app_nil_r.
      + split; [intros c []|]. now apply (has_char_false "?" 63%N). }
  destruct Hp as (p & q & -> & [t2 Ht2] & Hq & Hp).
  destruct (nr N) eqn:ENr; [discriminate|].
  intros H. injection H as <-. cbn [scheme netloc path params query].
  assert (Hpu : incl p u).
  { rewrite Ht2. intros c Hc. apply in_or_app. now left. }
  assert (Hur : incl u (N ++ rest)).
  { rewrite Ht1. intros c Hc. apply in_or_app. right.
    apply in_or_app. now left. }
  repeat split; auto.
  - intros c Hc. apply in_or_app. now left.
  - intros c Hc. auto.
  - intros c Hc. auto.
  - eapply Forall_incl; eauto.
  - eapply Forall_incl; eauto.
  - destruct p as [|c p]; [reflexivity|]. simpl.
    rewrite Ht1, Ht2 in Hrest. simpl in Hrest.
    apply delim_cases in Hrest as [->|[->| ->]]; [reflexivity| |].
    + inversion Hp; congruence.
    + assert (H35 : Forall (fun c => c <> 35%N) (35%N :: p))
        by (eapply Forall_incl; eauto).
      inversion H35; congruence.
Qed.

Lemma starts_slash_delim (P tl : str) :
  starts (N.eqb 47) P = true -> starts delim tl = true ->
  starts delim (P ++ tl) = true.
Proof.
  destruct P as [|c P]; cbn [starts app]; [auto|].
  intros H _. apply N.eqb_eq in H as <-. reflexivity.
Qed.

(** The parse of an authority, a path and a query put together. *)
Lemma parse_rest_build (nr : str -> bool) (S N P Q : str) :
  forallb (fun c => negb (delim c)) N = true ->
  brackets_unpaired N = false -> nr N = false ->
  Forall (fun c => c <> 63%N) P -> Forall (fun c => c <> 35%N) P ->
  starts (N.eqb 47) P = true ->
  Forall (fun c => c <> 35%N) Q ->
  parse_rest nr S (N ++ P ++ query_part Q)
  = Returns {| scheme := S; netloc := N; path := P; params := [];
               query := Q; fragment := [] |}.
Proof.
  intros HN HB Hnr H63 H35 HP HQ. unfold parse_rest.
  rewrite splitnetloc_app; [|exact HN|].
  - rewrite HB.
    assert (Hh : has "#" (P ++ query_part Q) = false).
    { apply (has_char_false "#" 35%N); [reflexivity|].
      apply Forall_app. split; [exact H35|].
      unfold query_part. destruct (Py.truthy Q); [|constructor].
      constructor; [discriminate | exact HQ]. }
    rewrite Hh. unfold query_part.
    destruct Q as [|c Q]; cbn [Py.truthy].
    + rewrite app_nil_r.
      assert (Hq : has "?" P = false)
        by (now apply (has_char_false "?" 63%N)).
      now rewrite Hq, Hnr.
    + assert (Hq : has "?" (P ++ Py.lit "?" ++ c :: Q) = true).
      { unfold has. change (Py.lit "?") with [63%N].
        rewrite contains_char, existsb_app. simpl. apply orb_true_r. }
      rewrite Hq. change (Py.lit "?" ++ c :: Q) with (63%N :: c :: Q).
      rewrite split1_app by exact H63. now rewrite Hnr.
  - apply starts_slash_delim; [exact HP|].
    unfold query_part. destruct (Py.truthy Q); reflexivity.
Qed.

End UrlFacts.

(** ** Cleaning a path *)

Module PathFacts.
Import Url UrlSpec UrlFacts.

Lemma split_cons (sep : Py.char) (s : str) :
  exists p ps, Py.split sep s = p :: ps.
Proof.
  destruct s as [|c s]; simpl; [eauto|].
  destruct (N.eqb c sep); [eauto|].
  destruct (Py.split sep s); eauto.
Qed.

Lemma split_Forall (Q : Py.char -> Prop) (sep : Py.char) (s : str) :
  Forall Q s -> Forall (Forall Q) (Py.split sep s).
Proof.
  induction 1 as [|c s Hc _ IH]; simpl.
  - repeat constructor.
  - destruct (N.eqb c sep); [constructor; [constructor | exact IH]|].
    destruct (Py.split sep s) as [|p ps]; [repeat constructor; auto|].
    inversion IH; subst. constructor; [constructor|]; auto.
Qed.

Lemma split_free (sep : Py.char) (s : str) :
  Forall (Forall (fun c => c <> sep)) (Py.split sep s).
Proof.
  induction s as [|c s IH]; simpl.
  - repeat constructor.
  - destruct (N.eqb_spec c sep) as [->|Hne]; [constructor; [constructor|auto]|].
    destruct (Py.split sep s) as [|p ps]; [repeat constructor; auto|].
    inversion IH; subst. constructor; [constructor|]; auto.
Qed.

Lemma split_weight (sep : Py.char) (s : str) :
  weight (Py.split sep s) = S (length s).
Proof.
  unfold weight. induction s as [|c s IH]; simpl; [reflexivity|].
  destruct (N.eqb c sep); simpl; [now rewrite IH|].
  destruct (Py.split sep s) as [|p ps]; simpl in *; lia.
Qed.

Lemma join_length (sep : Py.char) (L : list str) :
  length (Py.join [sep] L) = (weight L - 1)%nat.
Proof.
  unfold weight. induction L as [|p L IH]; [reflexivity|].
  destruct L as [|q L].
  - simpl. lia.
  - change (Py.join [sep] (p :: q :: L))
      with (p ++ [sep] ++ Py.join [sep] (q :: L)).
    rewrite !length_app, IH. simpl. lia.
Qed.

Lemma filter_weight (f : str -> bool) (L : list str) :
  (weight (List.filter f L) <= weight L)%nat.
Proof.
  unfold weight. induction L as [|p L IH]; simpl; [lia|].
  destruct (f p); simpl; lia.
Qed.

Lemma join_Forall (Q : Py.char -> Prop) (sep : Py.char) (L : list str) :
  Q sep -> Forall (Forall Q) L -> Forall Q (Py.join [sep] L).
Proof.
  intros Hs. induction 1 as [|p L Hp HL IH]; [constructor|].
  destruct L as [|q L]; [exact Hp|].
  change (Py.join [sep] (p :: q :: L))
    with (p ++ [sep] ++ Py.join [sep] (q :: L)).
  apply Forall_app. split; [exact Hp|]. constructor; auto.
Qed.

Lemma split_whole (sep : Py.char) (p : str) :
  Forall (fun c => c <> sep) p -> Py.split sep p = [p].
Proof.
  induction 1 as [|c p Hc _ IH]; simpl; [reflexivity|].
  apply N.eqb_neq in Hc. now rewrite Hc, IH.
Qed.

Lemma split_app_sep (sep : Py.char) (p t : str) :
  Forall (fun c => c <> sep) p ->
  Py.split sep (p ++ sep :: t) = p :: Py.split sep t.
Proof.
  induction 1 as [|c p Hc _ IH]; simpl.
  - now rewrite N.eqb_refl.
  - apply N.eqb_neq in Hc. now rewrite Hc, IH.
Qed.

Lemma split_join (sep : Py.char) (L : list str) :
  L <> [] -> Forall (Forall (fun c => c <> sep)) L ->
  Py.split sep (Py.join [sep] L) = L.
Proof.
  intros Hne H. induction H as [|p L Hp HL IH]; [congruence|].
  destruct L as [|q L]; [now apply split_whole|].
  change (Py.join [sep] (p :: q :: L))
    with (p ++ sep :: Py.join [sep] (q :: L)).
  rewrite split_app_sep by exact Hp. f_equal. apply IH. discriminate.
Qed.

Lemma filter_all {A} (f : A -> bool) (L : list A) :
  List.filter f (List.filter f L) = List.filter f L.
Proof.
  induction L as [|a L IH]; [reflexivity|]. simpl.
  destruct (f a) eqn:E; simpl; [|exact IH]. now rewrite E, IH.
Qed.

Lemma filter_Forall {A} (Q : A -> Prop) (f : A -> bool) (L : list A) :
  Forall Q L -> Forall Q (List.filter f L).
Proof.
  induction 1 as [|a L Ha _ IH]; simpl; [constructor|].
  destruct (f a); [constructor|]; auto.
Qed.

(** Cleaning a path does not add a character. *)
Lemma clean_path_Forall (Q : Py.char -> Prop) (D P : str) :
  Q 47%N -> Forall Q P -> Forall Q (clean_path D P).
Proof.
  intros H47 HP. unfold clean_path. change (Py.lit "/") with [47%N].
  apply join_Forall; [exact H47|].
  apply filter_Forall. now apply split_Forall.
Qed.

(** Cleaning a path does not make it longer. *)
Lemma clean_path_length (D P : str) :
  (length (clean_path D P) <= length P)%nat.
Proof.
  unfold clean_path. change (Py.lit "/") with [47%N].
  rewrite join_length.
  pose proof (filter_weight (fun part => negb (Py.contains part D))
                (Py.split 47%N P)).
  rewrite split_weight in H. lia.
Qed.

(** A clean path is left as it is by a second cleaning. *)
Lemma clean_path_stable (D P : str) :
  clean_path D (clean_path D P) = clean_path D P.
Proof.
  unfold clean_path. change (Py.lit "/") with [47%N].
  set (f := fun part => negb (Py.contains part D)).
  destruct (List.filter f (Py.split 47%N P)) as [|p L] eqn:E.
  - simpl. destruct (f []); reflexivity.
  - rewrite split_join.
    + now rewrite <- E, filter_all.
    + discriminate.
    + rewrite <- E. apply filter_Forall. apply split_free.
Qed.

Lemma contains_nil (s : str) : Py.contains s [] = true.
Proof. destruct s; reflexivity. Qed.

(** A clean path is empty or begins with a slash, as the path did. *)
Lemma clean_path_starts (D P : str) :
  starts (N.eqb 47) P = true -> starts (N.eqb 47) (clean_path D P) = true.
Proof.
  unfold clean_path. change (Py.lit "/") with [47%N].
  destruct P as [|c P]; cbn [starts].
  - intros _. simpl. destruct (negb _); reflexivity.
  - intros H. apply N.eqb_eq in H as <-.
    cbn [Py.split]. rewrite N.eqb_refl. cbn [List.filter].
    destruct (Py.contains [] D) eqn:E; cbn [negb].
    + assert (D = []) as -> by (destruct D; [reflexivity | discriminate]).
      replace (List.filter _ (Py.split 47%N P)) with (@nil str).
      * reflexivity.
      * induction (Py.split 47%N P) as [|p L IH]; [reflexivity|].
        cbn [List.filter]. now rewrite contains_nil.
    + destruct (List.filter _ (Py.split 47%N P)); reflexivity.
Qed.

End PathFacts.

(** ** Canonical addresses *)

Module CleanUrlFacts.
Import Url UrlSpec UrlFacts PathFacts Crawler.

Lemma replace_char (s : str) (x : Py.char) :
  Py.replace s [x] [] = List.filter (fun c => negb (N.eqb c x)) s.
Proof.
  unfold Py.replace. induction s as [|c s IH]; [reflexivity|].
  cbn [Py.replace_from Py.startswith List.filter length].
  rewrite andb_true_r. destruct (N.eqb c x); cbn [negb app Nat.sub];
    now rewrite IH.
Qed.

Lemma replace_char_absent (s : str) (x : Py.char) :
  Forall (fun c => c <> x) s -> Py.replace s [x] [] = s.
Proof.
  rewrite replace_char. induction 1 as [|c s Hc _ IH]; [reflexivity|].
  simpl. apply N.eqb_neq in Hc. now rewrite Hc, IH.
Qed.

Lemma startswith_inv (s p : str) :
  Py.startswith s p = true -> exists t, s = p ++ t.
Proof.
  revert s. induction p as [|d p IH]; intros s; simpl; [eauto|].
  destruct s as [|c s]; [discriminate|].
  rewrite andb_true_iff, N.eqb_eq. intros [-> H].
  destruct (IH s H) as [t ->]. eauto.
Qed.

Lemma startswith_prefix (p t : str) : Py.startswith (p ++ t) p = true.
Proof.
  induction p as [|c p IH]; [reflexivity|]. simpl.
  now rewrite N.eqb_refl, IH.
Qed.

Lemma splitparams_prefix (p : str) : exists k, fst (splitparams p) = firstn k p.
Proof.
  unfold splitparams. destruct (has "/" p).
  - destruct (_ <? 0).
    + exists (length p). now rewrite firstn_all.
    + apply slice_from_zero.
  - apply slice_from_zero.
Qed.

Lemma firstn_incl {A} (k : nat) (l : list A) : incl (firstn k l) l.
Proof.
  intros a Ha. rewrite <- (firstn_skipn k l). apply in_or_app. now left.
Qed.

Lemma firstn_starts (p : Py.char -> bool) (k : nat) (s : str) :
  starts p s = true -> starts p (firstn k s) = true.
Proof.
  destruct k, s; simpl; auto.
Qed.

Lemma filter_safe_id (s : str) :
  Forall kept s -> List.filter safe s = s.
Proof.
  induction 1 as [|c s [Hc _] _ IH]; [reflexivity|]. simpl.
  now rewrite Hc, IH.
Qed.

(** The scheme of an address that begins with [http://] or [https://],
    and what follows the two slashes. *)
Lemma scheme_cases (u : str) :
  Py.startswith u (Py.lit "http://") || Py.startswith u (Py.lit "https://")
  = true ->
  exists S R, (S = Py.lit "http" \/ S = Py.lit "https")
              /\ u = S ++ Py.lit "://" ++ R.
Proof.
  intros H. apply orb_true_iff in H as [H|H];
    apply startswith_inv in H as [R ->].
  - exists (Py.lit "http"), R. split; [now left | reflexivity].
  - exists (Py.lit "https"), R. split; [now right | reflexivity].
Qed.

Lemma urlsplit_scheme (nr : str -> bool) (S R : str) :
  S = Py.lit "http" \/ S = Py.lit "https" ->
  urlsplit nr (S ++ Py.lit "://" ++ R) = parse_rest nr S (List.filter safe R)
  /\ existsb (Py.eqb S) uses_params = true.
Proof.
  intros [-> | ->]; (split; [|reflexivity]).
  - apply urlsplit_http.
  - apply urlsplit_https.
Qed.


Lemma returns_some_inj {A} (x y : A) :
  Returns (Some x) = Returns (Some y) -> x = y.
Proof. congruence. Qed.

(** The shape of what [clean_url] returns. *)
Lemma clean_url_parts (nr : str -> bool) (self : WebsiteCrawler)
    (url c : str) :
  clean_url nr self url = Returns (Some c) ->
  exists S N P Q,
    (S = Py.lit "http" \/ S = Py.lit "https")
    /\ parts nr N P Q
    /\ c = S ++ Py.lit "://" ++ N ++ clean_path (domain self) P
             ++ query_part Q.
Proof.
  unfold clean_url.
  set (u := Py.replace (Py.strip url) [160%N] []).
  assert (Hu : Forall (fun c => c <> 160%N) u).
  { unfold u. rewrite replace_char. apply List.Forall_forall.
    intros x Hx. apply List.filter_In in Hx as [_ Hx].
    apply negb_true_iff in Hx. now apply N.eqb_neq. }
  destruct (Py.startswith u (Py.lit "http://")
            || Py.startswith u (Py.lit "https://")) eqn:Hsw;
    cbn [negb]; [|discriminate].
  destruct (scheme_cases u Hsw) as (S & R & HS & Eu).
  unfold urlparse, Url.urlparse. rewrite Eu.
  destruct (urlsplit_scheme nr S R HS) as [-> Huses].
  destruct (parse_rest nr S (List.filter safe R)) as [r|] eqn:Er;
    [|discriminate].
  cbn [rbind].
  apply parse_rest_parts in Er
    as (HrS & _ & HB & Hnr & HN & IN & IP & IQ & P63 & P35 & Q35 & Pst).
  rewrite HrS, Huses. cbn [andb].
  assert (HR : Forall kept (List.filter safe R)).
  { apply List.Forall_forall. intros x Hx.
    apply List.filter_In in Hx as [Hx Hs]. split; [exact Hs|].
    rewrite List.Forall_forall in Hu. apply Hu. rewrite Eu.
    apply in_or_app. right. apply in_or_app. now right. }
  assert (HP : exists k P,
             (if has ";" (path r) then splitparams (path r)
              else (path r, []))
             = (P, snd (if has ";" (path r) then splitparams (path r)
                        else (path r, [])))
             /\ P = firstn k (path r)).
  { destruct (has ";" (path r)).
    - destruct (splitparams_prefix (path r)) as [k Hk]. exists k.
      destruct (splitparams (path r)) as [P pr]. exists P. auto.
    - exists (length (path r)), (path r). now rewrite firstn_all. }
  destruct HP as (k & P & -> & HPk).
  cbv beta iota zeta. cbn [path query scheme netloc rbind].
  destruct ((500 <? Py.len P) || Py.contains P (Py.lit " ")) eqn:Hchk;
    [discriminate|].
  apply orb_false_iff in Hchk as [Hlen Hsp].
  intros H. apply returns_some_inj in H as <-.
  exists S, (netloc r), P, (query r). split; [exact HS|]. split.
  - assert (HiP : incl P (path r)) by (rewrite HPk; apply firstn_incl).
    unfold parts. repeat split; auto.
    + eapply Forall_incl; eauto.
    + eapply Forall_incl; [|exact HR]. intros x Hx. auto.
    + eapply Forall_incl; eauto.
    + eapply Forall_incl; eauto.
    + eapply Forall_incl; eauto.
    + now apply (contains_char_false P 32%N).
    + rewrite HPk. now apply firstn_starts.
    + apply Z.ltb_ge in Hlen. unfold Py.len in Hlen. lia.
  - unfold query_part, clean_path. destruct (Py.truthy (query r)).
    + generalize (Py.lit "://"), (Py.lit "?"). intros a b.
      now rewrite <- !List.app_assoc.
    + now rewrite app_nil_r.
Qed.

(** The parse of an address made of such parts. *)
Lemma urlsplit_of_parts (nr : str -> bool) (S N P Q : str) :
  S = Py.lit "http" \/ S = Py.lit "https" ->
  parts nr N P Q ->
  forall D,
  urlsplit nr (S ++ Py.lit "://" ++ N ++ clean_path D P ++ query_part Q)
  = Returns {| scheme := S; netloc := N; path := clean_path D P;
               params := []; query := Q; fragment := [] |}.
Proof.
  intros HS (HN & HB & Hnr & KN & KP & KQ & P63 & P35 & P32 & Pst & Plen & Q35)
    D.
  destruct (urlsplit_scheme nr S (N ++ clean_path D P ++ query_part Q) HS)
    as [-> _].
  rewrite filter_safe_id.
  - apply parse_rest_build; auto.
    + apply clean_path_Forall; [discriminate | exact P63].
    + apply clean_path_Forall; [discriminate | exact P35].
    + now apply clean_path_starts.
  - apply Forall_app. split; [exact KN|]. apply Forall_app. split.
    + apply clean_path_Forall; [split; [reflexivity | discriminate] | exact KP].
    + unfold query_part. destruct (Py.truthy Q); [|constructor].
      constructor; [split; [reflexivity | discriminate] | exact KQ].
Qed.


Lemma scheme_prefix (S X : str) :
  S = Py.lit "http" \/ S = Py.lit "https" ->
  Py.startswith (S ++ Py.lit "://" ++ X) (Py.lit "http://")
  || Py.startswith (S ++ Py.lit "://" ++ X) (Py.lit "https://") = true.
Proof.
  intros [-> | ->].
  - change (Py.lit "http" ++ Py.lit "://" ++ X) with (Py.lit "http://" ++ X).
    now rewrite startswith_prefix.
  - change (Py.lit "https" ++ Py.lit "://" ++ X)
      with (Py.lit "https://" ++ X).
    rewrite startswith_prefix. apply orb_true_r.
Qed.

(** What [clean_url] returns begins with [http://] or [https://], and
    its path, as [urlparse] reads it, has at most 500 characters and no
    space. *)
Lemma clean_url_post (nr : str -> bool) (self : WebsiteCrawler)
    (url c : str) :
  clean_url nr self url = Returns (Some c) ->
  Py.startswith c (Py.lit "http://") || Py.startswith c (Py.lit "https://")
  = true
  /\ exists r, urlparse nr c = Returns r
               /\ Py.len (path r) <= 500
               /\ Py.contains (path r) (Py.lit " ") = false.
Proof.
  intros H.
  apply clean_url_parts in H as (S & N & P & Q & HS & HP & ->).
  split; [now apply scheme_prefix|].
  unfold urlparse, Url.urlparse.
  rewrite (urlsplit_of_parts nr S N P Q HS HP). cbn [rbind path].
  destruct HP as (_ & _ & _ & _ & _ & _ & _ & _ & P32 & _ & Plen & _).
  set (cp := clean_path (domain self) P).
  assert (Hk : exists k,
             fst (if existsb (Py.eqb S) uses_params && has ";" cp
                  then splitparams cp else (cp, [])) = firstn k cp).
  { destruct (_ && _); [apply splitparams_prefix|].
    exists (length cp). now rewrite firstn_all. }
  destruct Hk as [k Hk].
  destruct (if _ && _ then _ else _) as [p pr]. cbn [fst] in Hk. subst p.
  eexists. split; [reflexivity|]. cbn [path]. split.
  - pose proof (clean_path_length (domain self) P). fold cp in H.
    unfold Py.len. rewrite List.length_firstn. lia.
  - change (Py.lit " ") with [32%N]. apply contains_char_false.
    eapply Forall_incl; [apply firstn_incl|].
    apply clean_path_Forall; [discriminate | exact P32].
Qed.

(** C10 (as amended).  A canonical address that neither ends in whitespace
    nor holds a semicolon is a fixpoint of [clean_url]. *)
Theorem clean_url_fixpoint (nr : str -> bool) (self : WebsiteCrawler)
    (url c : str) :
  clean_url nr self url = Returns (Some c) ->
  Py.strip c = c ->
  Py.contains c (Py.lit ";") = false ->
  clean_url nr self c = Returns (Some c).
Proof.
  intros H Hstrip Hsemi.
  apply clean_url_parts in H as (S & N & P & Q & HS & HP & ->).
  set (cp := clean_path (domain self) P) in *.
  set (c := S ++ Py.lit "://" ++ N ++ cp ++ query_part Q) in *.
  assert (Hsplit := urlsplit_of_parts nr S N P Q HS HP (domain self)).
  fold cp in Hsplit. fold c in Hsplit.
  destruct HP as (_ & _ & _ & KN & KP & KQ & _ & _ & P32 & _ & Plen & _).
  assert (Hc160 : Forall (fun x => x <> 160%N) c).
  { unfold c. apply Forall_app. split.
    - destruct HS as [-> | ->]; repeat (constructor; [discriminate|]);
        constructor.
    - apply Forall_app. split;
        [repeat (constructor; [discriminate|]); constructor|].
      apply Forall_app. split;
        [eapply List.Forall_impl; [|exact KN]; now intros ? []|].
      apply Forall_app. split.
      + apply clean_path_Forall; [discriminate|].
        eapply List.Forall_impl; [|exact KP]; now intros ? [].
      + unfold query_part. destruct (Py.truthy Q); [|constructor].
        constructor; [discriminate|].
        eapply List.Forall_impl; [|exact KQ]; now intros ? []. }
  assert (Hcp59 : has ";" cp = false).
  { apply (has_char_false ";" 59%N); [reflexivity|].
    change (Py.lit ";") with [59%N] in Hsemi.
    apply contains_char_false in Hsemi.
    eapply Forall_incl; [|exact Hsemi]. unfold c. intros x Hx.
    apply in_or_app. right. apply in_or_app. right.
    apply in_or_app. right. apply in_or_app. now left. }
  unfold clean_url. rewrite Hstrip, (replace_char_absent c) by exact Hc160.
  unfold c at 1 2. rewrite scheme_prefix by exact HS. fold c. cbn [negb].
  unfold urlparse, Url.urlparse. rewrite Hsplit. cbn [rbind path scheme].
  rewrite Hcp59, andb_false_r. cbv beta iota zeta.
  cbn [rbind path query scheme netloc fragment].
  assert (Hlen : (500 <? Py.len cp) = false).
  { apply Z.ltb_ge. pose proof (clean_path_length (domain self) P).
    fold cp in H. unfold Py.len. lia. }
  assert (Hsp : Py.contains cp (Py.lit " ") = false).
  { change (Py.lit " ") with [32%N]. apply contains_char_false.
    apply clean_path_Forall; [discriminate | exact P32]. }
  rewrite Hlen, Hsp. cbn [orb].
  assert (Hst : clean_path (domain self) cp = cp)
    by (unfold cp; apply clean_path_stable).
  fold (clean_path (domain self) cp). rewrite Hst.
  do 2 f_equal. unfold c, query_part.
  generalize (Py.lit "://"), (Py.lit "?"). intros a b.
  destruct (Py.truthy Q).
  - now rewrite <- !List.app_assoc.
  - now rewrite app_nil_r.
Qed.


(** C6.  [clean_url] does not return on every string: an address whose
    host opens a bracket and does not close it is refused by [urlparse]
    with [ValueError], which [clean_url] lets through, where
    [is_valid_url] catches it. *)
Theorem clean_url_unpaired_bracket (nr : str -> bool)
    (self : WebsiteCrawler) :
  clean_url nr self CrawlerSpec.bracket_url = Raises ValueError
  /\ clean_url nr self CrawlerSpec.nbsp_bracket_url = Raises ValueError.
Proof.
  split; unfold clean_url, urlparse, Url.urlparse;
    rewrite urlsplit_rejected; vm_compute; reflexivity.
Qed.

(** C10, counterexample.  A space before the fragment ends the canonical
    address; the second pass trims it. *)
Lemma clean_url_not_idempotent :
  clean_url (fun _ => false) (CrawlerSpec.example_crawler 1 2)
    CrawlerSpec.spaced_url
  = Returns (Some CrawlerSpec.spaced_once)
  /\ clean_url (fun _ => false) (CrawlerSpec.example_crawler 1 2)
       CrawlerSpec.spaced_once
     = Returns (Some CrawlerSpec.spaced_twice)
  /\ CrawlerSpec.spaced_twice <> CrawlerSpec.spaced_once.
Proof.
  split; [vm_compute; reflexivity|]. split; [vm_compute; reflexivity|].
  intros H. vm_compute in H. discriminate H.
Qed.

(** The same with a semicolon: once the segment that holds the domain is
    gone, the segment before it is the last one, and its parameters are cut
    by the second pass. *)
Lemma clean_url_params_cut :
  clean_url (fun _ => false) (CrawlerSpec.example_crawler 1 2)
    CrawlerSpec.params_url
  = Returns (Some CrawlerSpec.params_once)
  /\ clean_url (fun _ => false) (CrawlerSpec.example_crawler 1 2)
       CrawlerSpec.params_once
     = Returns (Some CrawlerSpec.params_twice).
Proof. split; vm_compute; reflexivity. Qed.

Lemma clean_url_fixpoint_witness :
  clean_url (fun _ => false) (CrawlerSpec.example_crawler 1 2)
    CrawlerSpec.about_url
  = Returns (Some CrawlerSpec.about_url).
Proof.
  apply (clean_url_fixpoint (fun _ => false)
           (CrawlerSpec.example_crawler 1 2) CrawlerSpec.about_url
           CrawlerSpec.about_url);
    vm_compute; reflexivity.
Defined.

End CleanUrlFacts.

(** ** File names *)

Module FilenameFacts.

Import Crawler CrawlerSpec.

(** C7.  The code removes the seed address wherever it occurs, not only at
    the front: the second occurrence, in the query of [redirect_url], is
    removed as well, and the file name is not the one of the
    specification. *)
Theorem base_filename_redirect :
  base_filename (example_crawler 1 2) redirect_url
  = Py.lit "redirect?to=_about"
  /\ filename_as_specified (example_crawler 1 2) redirect_url
     = Py.lit "redirect?to=http:__example.org_about".
Proof. split; vm_compute; reflexivity. Qed.

(** The address of C7 is canonical: [clean_url] returns it as it is,
    unless the library refuses the host. *)
Lemma redirect_url_canonical (netloc_rejected : str -> bool) :
  clean_url netloc_rejected (example_crawler 1 2) redirect_url
  = if netloc_rejected (Py.lit "example.org") then Raises ValueError
    else Returns (Some redirect_url).
Proof.
  unfold clean_url, urlparse, Url.urlparse.
  rewrite UrlFacts.urlsplit_rejected.
  set (r := Url.urlsplit _ _). vm_compute in r. subst r.
  set (u := Py.replace _ _ _). vm_compute in u. subst u.
  let v := eval vm_compute in (Py.lit "example.org") in
  change (Py.lit "example.org") with v.
  cbn [rbind Url.netloc Py.startswith N.eqb Pos.eqb andb orb negb].
  destruct (netloc_rejected _); [reflexivity|].
  vm_compute. reflexivity.
Qed.

(** [replace] on a string free of [old] changes nothing. *)
Lemma replace_from_absent (old new s : str) :
  Py.contains s old = false -> Py.replace_from old new 0 s = s.
Proof.
  induction s as [|c s IH]; [reflexivity|].
  unfold Py.contains; fold Py.contains. intros H.
  apply orb_false_iff in H as [H1 H2]. cbn [Py.replace_from].
  rewrite H1. f_equal. auto.
Qed.

Lemma replace_from_skip (old new p s : str) :
  Py.replace_from old new (length p) (p ++ s) = Py.replace_from old new 0 s.
Proof.
  induction p as [|c p IH]; [reflexivity|]. simpl. exact IH.
Qed.

Lemma startswith_app (p s : str) : Py.startswith (p ++ s) p = true.
Proof.
  induction p as [|c p IH]; [reflexivity|]. simpl.
  now rewrite N.eqb_refl, IH.
Qed.

(** Where the seed address occurs at the front of an address and nowhere
    after it, the code and the specification give the same file name. *)
Lemma base_filename_prefix_only (self : WebsiteCrawler) (rest : str) :
  Py.truthy (start_url self) = true ->
  Py.contains rest (start_url self) = false ->
  base_filename self (start_url self ++ rest)
  = filename_as_specified self (start_url self ++ rest).
Proof.
  intros Hne Hrest.
  assert (H : Py.replace (start_url self ++ rest) (start_url self) []
              = removeprefix (start_url self) (start_url self ++ rest)).
  { unfold removeprefix. rewrite startswith_app, skipn_app, skipn_all.
    rewrite Nat.sub_diag. cbn [skipn app].
    unfold Py.replace. destruct (start_url self) as [|c seed];
      [discriminate|].
    change ((c :: seed) ++ rest) with (c :: (seed ++ rest)).
    cbn [Py.replace_from].
    change (c :: (seed ++ rest)) with ((c :: seed) ++ rest).
    rewrite startswith_app.
    replace (length (c :: seed) - 1)%nat with (length seed) by (simpl; lia).
    rewrite replace_from_skip. cbn [app]. now apply replace_from_absent. }
  unfold base_filename, filename_as_specified. now rewrite H.
Qed.

End FilenameFacts.

(** ** The crawl *)

Module CrawlFacts.

Import Crawler CrawlerSpec.

Section Env.

Variable netloc_rejected : str -> bool.
Variable lower : str -> str.
Variable urljoin : str -> str -> result str.
Variable html_parser : str -> Soup.node.
Variable prettify : Soup.node -> str.
Variable guess_type : str -> option str.
Variable guess_extension : str -> option str.
Variable http_get : str -> option Response.
Variable open_fails : str -> bool.

Local Abbreviation crawl' :=
  (crawl netloc_rejected lower urljoin html_parser prettify guess_type
     guess_extension http_get open_fails).
Local Abbreviation save' :=
  (save_content html_parser prettify guess_extension open_fails).
Local Abbreviation mime' := (get_mime_type netloc_rejected lower guess_type).
Local Abbreviation clean' := (clean_url netloc_rejected).
Local Abbreviation valid' := (is_valid_url netloc_rejected).
Local Abbreviation crawl_step' :=
  (crawl_step netloc_rejected lower urljoin html_parser prettify guess_type
     guess_extension http_get open_fails).
Local Abbreviation link_path' :=
  (link_path netloc_rejected lower urljoin html_parser guess_type http_get).
Local Abbreviation in_reach' :=
  (in_reach netloc_rejected lower urljoin html_parser guess_type http_get).

(** What [save_content] does: nothing and [OSError], or one file and one
    more download. *)
Lemma save_content_cases (u : str) (r : Response) (m : str)
    (self : WebsiteCrawler) (w : world) (st : state) (res : result bool) :
  save' u r m (self, w) = (st, res) ->
  (st = (self, w) /\ res = Raises OSError)
  \/ (exists f c, st = (count_download self, write_file f c w)
                  /\ res = Returns true).
Proof.
  unfold save_content.
  destruct (if Py.eqb m (Py.lit "text/html") then _ else _) as [f c].
  destruct (open_fails _); intros H; injection H as <- <-; eauto.
Qed.

Lemma crawl_inv (fuel : nat) (url : str) (depth : Z)
    (self : WebsiteCrawler) (w : world) (st' : state) (o : outcome) :
  crawl' (S fuel) url depth (self, w) = (st', o) ->
  crawl_step' fuel url depth self w st' o.
Proof.
  cbn [crawl].
  destruct (Z.ltb_spec (max_depth self) depth);
    [intros Hr; injection Hr as <- <-; now constructor|].
  destruct (Z.leb_spec (max_downloads self) (download_count self));
    [intros Hr; injection Hr as <- <-; now constructor|].
  cbn [orb].
  destruct (clean_url netloc_rejected self url) as [[u|]|e] eqn:Ec;
    try (intros Hr; injection Hr as <- <-; now constructor).
  destruct (negb (Py.truthy u) || negb (is_valid_url netloc_rejected self u));
    [intros Hr; injection Hr as <- <-; now constructor|].
  destruct (bool_decide _);
    [intros Hr; injection Hr as <- <-; now constructor|].
  destruct (http_get u) as [r|] eqn:Eg;
    [|intros Hr; injection Hr as <- <-; now constructor].
  destruct (raise_for_status r) eqn:Er;
    [intros Hr; injection Hr as <- <-; now constructor|].
  destruct (get_mime_type _ _ _ r) as [m|e] eqn:Em;
    [|intros Hr; injection Hr as <- <-; now constructor].
  destruct (save_content _ _ _ _ u r m _) as [st1 [b|e]] eqn:Es.
  - destruct (Py.eqb m (Py.lit "text/html")) eqn:Eh.
    + intros Hr. eapply step_saved; eauto.
    + intros Hr. injection Hr as <- <-. eapply step_saved; eauto.
  - intros Hr. injection Hr as <- <-. eapply step_saved; eauto.
Qed.


(** The loop over the links keeps what every visit keeps. *)
Lemma follow_preserves (J : state -> Prop) (O : outcome -> Prop)
    (visit : str -> state -> state * outcome) (url : str)
    (links : list Soup.node) :
  (forall link href a st st' o,
     In link links -> Soup.get (Py.lit "href") link = Some href ->
     Py.truthy href = true -> urljoin url href = Returns a ->
     J st -> visit a st = (st', o) -> J st' /\ O o) ->
  forall st st' o,
    J st -> follow urljoin visit url links st = (st', o) ->
    J st' /\ (o = Done \/ (exists e, o = Raised e) \/ O o).
Proof.
  induction links as [|link links IH]; intros Hv st st' o HJ; simpl.
  - intros H. injection H as <- <-. auto.
  - assert (IH' : forall st st' o, J st ->
              follow urljoin visit url links st = (st', o) ->
              J st' /\ (o = Done \/ (exists e, o = Raised e) \/ O o)).
    { apply IH. intros l h a s1 s2 o1 Hl. apply Hv. now right. }
    destruct (Soup.get (Py.lit "href") link) as [href|] eqn:Eh; [|eauto].
    destruct (Py.truthy href) eqn:Et; [|eauto].
    destruct (urljoin url href) as [a|e] eqn:Ej.
    + destruct (visit a st) as [st1 o1] eqn:Ev.
      destruct (Hv link href a st st1 o1 (or_introl eq_refl) Eh Et Ej HJ Ev)
        as [HJ1 HO1].
      destruct o1; [eauto | |]; intros H; injection H as <- <-; eauto.
    + intros H. injection H as <- <-. eauto.
Qed.

Lemma same_settings_refl (a : WebsiteCrawler) : same_settings a a.
Proof. repeat split. Qed.

Lemma same_settings_trans (a b c : WebsiteCrawler) :
  same_settings a b -> same_settings b c -> same_settings a c.
Proof.
  unfold same_settings. intros (?&?&?&?&?) (?&?&?&?&?).
  repeat split; congruence.
Qed.

(** *** The download budget *)

Lemma crawl_within_budget (fuel : nat) :
  forall url depth st0 st st' o,
    within_budget st0 st -> crawl' fuel url depth st = (st', o) ->
    within_budget st0 st'.
Proof.
  induction fuel as [|fuel IH]; intros url depth st0 st st' o HB.
  - intros H. injection H as <- <-. exact HB.
  - destruct st as [self w]. intros H. apply crawl_inv in H.
    destruct HB as (Hs & Hlo & Hhi & new & Hf & Hn). cbn [fst snd] in *.
    assert (Hplain : forall v w', files w' = files w ->
              within_budget st0 (add_visited v self, w')).
    { intros v w' Hw. split; [exact Hs|].
      cbn [fst snd add_visited download_count].
      split; [exact Hlo|]. split; [exact Hhi|].
      exists new. now rewrite Hw. }
    destruct H as [o ? | u ? ? ? | u e ? ? ?
                  | u r m st1 st' res o ? Hlt ? ? ? ? Hsave Hnext].
    + split; [exact Hs|]. split; [exact Hlo|]. split; [exact Hhi|].
      exists new. auto.
    + now apply Hplain.
    + now apply Hplain.
    + assert (HB1 : within_budget st0 st1).
      { apply save_content_cases in Hsave as [[-> _] | (f & c & -> & _)].
        - now apply Hplain.
        - destruct Hs as (? & ? & Hmax & ? & ?).
          split; [repeat split; assumption|].
          cbn [fst snd count_download add_visited download_count
               write_file send_request files].
          split; [lia|]. split; [lia|].
          exists (new ++ [(f, c)]). rewrite Hf, <- List.app_assoc.
          split; [reflexivity|]. rewrite length_app. simpl. lia. }
      destruct Hnext as [[-> _] | [_ Hfollow]]; [exact HB1|].
      eapply (follow_preserves (within_budget st0) (fun _ => True))
        in Hfollow as [HB' _]; [exact HB' | | exact HB1].
      intros link href a s1 s2 o1 _ _ _ _ HJ Hv. split; [|exact I].
      eapply IH; eauto.
Qed.

(** C4.  A call of [crawl] that starts with the download counter within
    [max_downloads] ends with it within [max_downloads]; the counter does
    not go down, and the call writes as many files as the counter goes
    up.  The recursive calls are calls of [crawl]: the counter is within
    the limit after each of them. *)
Theorem crawl_download_budget (fuel : nat) (url : str) (depth : Z)
    (self self' : WebsiteCrawler) (w w' : world) (o : outcome) :
  download_count self <= max_downloads self ->
  crawl' fuel url depth (self, w) = ((self', w'), o) ->
  download_count self' <= max_downloads self'
  /\ max_downloads self' = max_downloads self
  /\ download_count self <= download_count self'
  /\ exists new, files w' = files w ++ new
                 /\ Z.of_nat (length new)
                    = download_count self' - download_count self.
Proof.
  intros H0 H.
  eapply (crawl_within_budget fuel url depth (self, w)) in H.
  - destruct H as ((_ & _ & Hmax & _) & Hlo & Hhi & Hnew).
    cbn [fst snd] in *. rewrite Hmax. auto.
  - split; [apply same_settings_refl|]. cbn [fst snd].
    split; [lia|]. split; [exact H0|]. exists []. rewrite app_nil_r.
    split; [reflexivity | simpl; lia].
Qed.


(** *** The depth bound *)

Lemma clean_url_settings (a b : WebsiteCrawler) (url : str) :
  domain a = domain b -> clean' a url = clean' b url.
Proof. unfold clean_url. now intros ->. Qed.

Lemma link_path_settings (a b : WebsiteCrawler) (k : nat) (s u : str) :
  domain a = domain b -> link_path' a k s u -> link_path' b k s u.
Proof.
  intros Hd. induction 1 as [u | k s v u Hl _ IH]; [constructor|].
  apply (path_step _ _ _ _ _ _ _ _ s v u); [|exact IH].
  destruct Hl as (r & l & h & a' & ? & ? & ? & ? & ? & ? & ? & Hc).
  exists r, l, h, a'. repeat split; try assumption.
  rewrite <- Hc. symmetry. now apply clean_url_settings.
Qed.

Lemma crawl_in_reach (fuel : nat) :
  forall url depth self w st' o,
    crawl' fuel url depth (self, w) = (st', o) ->
    same_settings (fst st') self
    /\ exists new,
         requests (snd st') = requests w ++ new
         /\ forall x, In x new ->
              exists seed, clean' self url = Returns (Some seed)
                           /\ in_reach' self seed depth x.
Proof.
  induction fuel as [|fuel IH]; intros url depth self w st' o.
  - intros H. injection H as <- <-. split; [apply same_settings_refl|].
    exists []. rewrite app_nil_r. split; [reflexivity | intros x []].
  - intros H. apply crawl_inv in H.
    assert (Hone : forall u self1 w1,
              depth <= max_depth self ->
              clean' self url = Returns (Some u) ->
              same_settings self1 self ->
              requests w1 = requests w ++ [u] ->
              same_settings self1 self
              /\ exists new,
                   requests w1 = requests w ++ new
                   /\ forall x, In x new ->
                        exists seed, clean' self url = Returns (Some seed)
                                     /\ in_reach' self seed depth x).
    { intros u self1 w1 Hd Hc Hs Hr. split; [exact Hs|]. exists [u].
      split; [exact Hr|]. intros x [<- | []]. exists u.
      split; [exact Hc|]. exists 0%nat. split; [constructor | simpl; lia]. }
    destruct H as [o ? | u Hd ? Hc | u e Hd ? Hc
                  | u r m st1 st' res o Hd Hlt Hc Hg Hrs Hm Hsave Hnext].
    + split; [apply same_settings_refl|].
      exists []. rewrite app_nil_r. split; [reflexivity | intros x []].
    + apply (Hone u); auto. repeat split.
    + apply (Hone u); auto. repeat split.
    + assert (H1 : same_settings (fst st1) self
                   /\ requests (snd st1) = requests w ++ [u]).
      { apply save_content_cases in Hsave as [[-> _] | (f & c & -> & _)];
          (split; [repeat split | reflexivity]). }
      destruct H1 as [Hs1 Hr1].
      destruct Hnext as [[-> _] | [Hhtml Hfollow]]; [now apply (Hone u)|].
      apply PyFacts.eqb_eq in Hhtml. subst m.
      set (J := fun st : state =>
                  same_settings (fst st) self
                  /\ exists new,
                       requests (snd st) = requests w ++ new
                       /\ forall x, In x new -> in_reach' self u depth x).
      assert (HJ1 : J st1).
      { split; [exact Hs1|]. exists [u]. split; [exact Hr1|].
        intros x [<- | []]. exists 0%nat.
        split; [constructor | simpl; lia]. }
      eapply (follow_preserves J (fun _ => True)) in Hfollow
        as [[Hs' (new & Hr' & Hnew)] _]; [| |exact HJ1].
      * split; [exact Hs'|]. exists new. split; [exact Hr'|].
        intros x Hx. exists u. split; [exact Hc|]. now apply Hnew.
      * intros link href a [si wi] st2 o2 Hin Hhref Ht Hj
          [Hsi (new & Hri & Hnew)] Hv.
        split; [|exact I]. cbn [fst snd] in *.
        apply IH in Hv as [Hs2 (new2 & Hr2 & Hnew2)].
        split; [now apply (same_settings_trans _ si)|].
        exists (new ++ new2). rewrite Hr2, Hri, <- List.app_assoc.
        split; [reflexivity|]. intros x Hx.
        apply in_app_or in Hx as [Hx | Hx]; [now apply Hnew|].
        destruct (Hnew2 x Hx) as (seed & Hcs & k & Hp & Hk).
        destruct Hsi as (_ & Hmd & _ & _ & Hdom).
        exists (S k). split.
        -- apply (path_step _ _ _ _ _ _ _ _ u seed x).
           ++ exists r, link, href, a. repeat split; try assumption.
              rewrite <- Hcs. symmetry. now apply clean_url_settings.
           ++ now apply (link_path_settings si).
        -- rewrite Hmd in Hk. lia.
Qed.

(** C5.  Every address requested by a call [crawl(url, depth)] is the end
    of a path of links from the canonical form of [url], and that path
    is no longer than [max_depth - depth]: from the seed, at depth 0, no
    address further than [max_depth] links away is fetched. *)
Theorem crawl_depth_bound (fuel : nat) (url : str) (depth : Z)
    (self self' : WebsiteCrawler) (w w' : world) (o : outcome) :
  crawl' fuel url depth (self, w) = ((self', w'), o) ->
  exists new,
    requests w' = requests w ++ new
    /\ forall x, In x new ->
         exists seed k,
           clean' self url = Returns (Some seed)
           /\ link_path' self k seed x
           /\ depth + Z.of_nat k <= max_depth self.
Proof.
  intros H. apply crawl_in_reach in H as [_ (new & Hr & Hnew)].
  exists new. split; [exact Hr|]. intros x Hx.
  destruct (Hnew x Hx) as (seed & Hc & k & Hp & Hk). eauto.
Qed.

(** With more fuel than levels to descend, a call of [crawl] ends. *)
Lemma crawl_enough_fuel (fuel : nat) :
  forall url depth self w st' o,
    (0 < fuel)%nat ->
    max_depth self - depth + 1 < Z.of_nat fuel ->
    crawl' fuel url depth (self, w) = (st', o) ->
    o <> OutOfFuel.
Proof.
  induction fuel as [|fuel IH]; intros url depth self w st' o H0 Hf H;
    [lia|].
  apply crawl_inv in H.
  destruct H as [o ? | u Hd ? Hc | u e Hd ? Hc
                | u r m st1 st' res o Hd Hlt Hc Hg Hrs Hm Hsave Hnext];
    try assumption; try discriminate.
  destruct Hnext as [[_ Ho] | [_ Hfollow]]; [exact Ho|].
  assert (Hs1 : same_settings (fst st1) self).
  { apply save_content_cases in Hsave as [[-> _] | (f & c & -> & _)];
      repeat split. }
  eapply (follow_preserves (fun st => same_settings (fst st) self)
            (fun o => o <> OutOfFuel)) in Hfollow
    as [_ [-> | [[e ->] | Ho]]]; try discriminate; try assumption.
  intros link href a [si wi] st2 o2 _ _ _ _ Hsi Hv. cbn [fst] in Hsi.
  split.
  - apply crawl_in_reach in Hv as [Hs2 _].
    now apply (same_settings_trans _ si).
  - destruct Hsi as (_ & Hmd & _). eapply (IH a (depth + 1) si wi); eauto; lia.
Qed.


(** *** A fetch that fails *)

Lemma clean_url_truthy (self : WebsiteCrawler) (url c : str) :
  clean' self url = Returns (Some c) -> Py.truthy c = true.
Proof.
  intros H.
  apply CleanUrlFacts.clean_url_parts
    in H as (S & N & P & Q & [-> | ->] & _ & ->); reflexivity.
Qed.

(** After a visit that returns, the loop goes on with the next link. *)
Lemma follow_continues (visit : str -> state -> state * outcome)
    (url href a : str) (link : Soup.node) (links : list Soup.node)
    (st st1 : state) :
  Soup.get (Py.lit "href") link = Some href -> Py.truthy href = true ->
  urljoin url href = Returns a -> visit a st = (st1, Done) ->
  follow urljoin visit url (link :: links) st
  = follow urljoin visit url links st1.
Proof.
  intros Hh Ht Hj Hv. cbn [follow]. now rewrite Hh, Ht, Hj, Hv.
Qed.

(** C9 (as amended).  When the guards pass and the fetch raises a
    [RequestException] ([requests.get] fails, or the status is a client
    or server error, 400 to 599), the call returns: a warning is logged,
    no file is written, the download counter is as before, the address is
    marked as visited and nothing else is requested. *)
Theorem crawl_fetch_failure (fuel : nat) (url u : str) (depth : Z)
    (self : WebsiteCrawler) (w : world) :
  depth <= max_depth self ->
  download_count self < max_downloads self ->
  clean' self url = Returns (Some u) ->
  valid' self u = true ->
  u ∉ visited_urls self ->
  (http_get u = None
   \/ exists r, http_get u = Some r /\ 400 <= status_code r < 600) ->
  exists self' w',
    crawl' (S fuel) url depth (self, w) = ((self', w'), Done)
    /\ download_count self' = download_count self
    /\ files w' = files w
    /\ warnings w' = warnings w ++ [u]
    /\ requests w' = requests w ++ [u]
    /\ visited_urls self' = {[ u ]} ∪ visited_urls self.
Proof.
  intros Hd Hn Hc Hv Hnew Hfail.
  exists (add_visited u self), (log_warning u (send_request u w)).
  split; [|repeat split]. cbn [crawl].
  replace (max_depth self <? depth) with false by (symmetry; lia).
  replace (max_downloads self <=? download_count self) with false
    by (symmetry; lia).
  cbn [orb]. rewrite Hc, (clean_url_truthy self url u Hc), Hv. cbn [negb orb].
  rewrite bool_decide_eq_false_2 by exact Hnew.
  destruct Hfail as [-> | (r & -> & Hr)]; [reflexivity|].
  unfold raise_for_status.
  replace (400 <=? status_code r) with true by (symmetry; lia).
  replace (status_code r <? 600) with true by (symmetry; lia).
  reflexivity.
Qed.

End Env.

(** *** The small site *)

(** [example_crawler] is the crawler of the seed [http://example.org]. *)
Example init_example :
  init (fun _ => false) home_url 1 2 (Py.lit "workspace/crawled")
  = Returns (example_crawler 1 2).
Proof. vm_compute. reflexivity. Qed.

(** A run that ends with [ValueError]: [__init__] accepts the seed
    [nbsp_bracket_url], and [clean_url], in the first call of [crawl],
    raises on it. *)
Example crawl_raises_on_seed :
  init (fun _ => false) nbsp_bracket_url 1 2 (Py.lit "workspace/crawled")
  = Returns bracket_crawler
  /\ site_crawl 1 nbsp_bracket_url 0 (bracket_crawler, no_files)
     = ((bracket_crawler, no_files), Raised ValueError).
Proof. split; vm_compute; reflexivity. Qed.

(** The scenario of the specification: from the seed, with
    [max_depth = 1] and [max_downloads = 2], the seed page and [/about]
    are saved and [https://other.org] is not requested. *)
Example home_run_saves_two :
  snd home_run = Done
  /\ download_count (fst (fst home_run)) = 2
  /\ map fst (files (snd (fst home_run)))
     = [Py.lit "workspace/crawled/index_text.html";
        Py.lit "workspace/crawled/about_text.html"]
  /\ requests (snd (fst home_run)) = [home_url; about_url]
  /\ warnings (snd (fst home_run)) = [].
Proof. vm_compute. repeat split; reflexivity. Qed.

Lemma crawl_download_budget_witness :
  download_count (fst (fst home_run)) <= max_downloads (fst (fst home_run))
  /\ max_downloads (fst (fst home_run)) = max_downloads (example_crawler 1 2)
  /\ download_count (example_crawler 1 2)
     <= download_count (fst (fst home_run))
  /\ exists new,
       files (snd (fst home_run)) = files no_files ++ new
       /\ Z.of_nat (length new)
          = download_count (fst (fst home_run))
            - download_count (example_crawler 1 2).
Proof.
  apply (crawl_download_budget (fun _ => false) Py.ascii_lower site_urljoin
           site_parser (fun _ => []) (fun _ => None) (fun _ => None)
           site_get (fun _ => false) 3 home_url 0 (example_crawler 1 2)
           (fst (fst home_run)) no_files (snd (fst home_run))
           (snd home_run)).
  - vm_compute. discriminate.
  - vm_compute. reflexivity.
Defined.

Lemma crawl_depth_bound_witness :
  exists new,
    requests (snd (fst home_run)) = requests no_files ++ new
    /\ forall x, In x new ->
         exists seed k,
           clean_url (fun _ => false) (example_crawler 1 2) home_url
           = Returns (Some seed)
           /\ link_path (fun _ => false) Py.ascii_lower site_urljoin
                site_parser (fun _ => None) site_get (example_crawler 1 2)
                k seed x
           /\ 0 + Z.of_nat k <= max_depth (example_crawler 1 2).
Proof.
  apply (crawl_depth_bound (fun _ => false) Py.ascii_lower site_urljoin
           site_parser (fun _ => []) (fun _ => None) (fun _ => None)
           site_get (fun _ => false) 3 home_url 0 (example_crawler 1 2)
           (fst (fst home_run)) no_files (snd (fst home_run))
           (snd home_run)).
  vm_compute. reflexivity.
Defined.

(** C9, counterexample.  [/old] answers 304, which is not a 2xx status and
    not an error status either: [raise_for_status] does not raise, the page
    is saved and counted, and no warning is logged. *)
Lemma crawl_saves_non_2xx :
  option_map status_code (site_get old_url) = Some 304
  /\ snd old_run = Done
  /\ download_count (fst (fst old_run)) = 1
  /\ map fst (files (snd (fst old_run)))
     = [Py.lit "workspace/crawled/old_text.html"]
  /\ warnings (snd (fst old_run)) = [].
Proof. vm_compute. repeat split; reflexivity. Qed.

Lemma crawl_fetch_failure_witness :
  exists self' w',
    site_crawl 1 gone_url 0 (example_crawler 1 2, no_files)
    = ((self', w'), Done)
    /\ download_count self' = download_count (example_crawler 1 2)
    /\ files w' = files no_files
    /\ warnings w' = warnings no_files ++ [gone_url]
    /\ requests w' = requests no_files ++ [gone_url]
    /\ visited_urls self'
       = {[ gone_url ]} ∪ visited_urls (example_crawler 1 2).
Proof.
  apply (crawl_fetch_failure (fun _ => false) Py.ascii_lower site_urljoin
           site_parser (fun _ => []) (fun _ => None) (fun _ => None)
           site_get (fun _ => false) 0 gone_url gone_url 0
           (example_crawler 1 2) no_files).
  - vm_compute. discriminate.
  - vm_compute. reflexivity.
  - vm_compute. reflexivity.
  - vm_compute. reflexivity.
  - apply not_elem_of_empty.
  - right. exists (page 404 "gone" "http://example.org/gone").
    split; [vm_compute; reflexivity | simpl; lia].
Defined.

End CrawlFacts.

(** ** More on chunking *)

Module ChunkMore.

Import Chunk ChunkSpec ChunkFacts.

Lemma lstrip_length (p : Py.char -> bool) (s : str) :
  (length (Py.lstrip_by p s) <= length s)%nat.
Proof.
  induction s as [|c s IH]; simpl; [lia|]. destruct (p c); simpl; lia.
Qed.

Lemma lstrip_skipn (p : Py.char -> bool) (s : str) :
  exists k, Py.lstrip_by p s = skipn k s.
Proof.
  induction s as [|c s [k IH]]; simpl; [now exists 0%nat|].
  destruct (p c); [now exists (S k) | now exists 0%nat].
Qed.

Lemma lstrip_starts (p : Py.char -> bool) (s : str) :
  UrlSpec.starts (fun c => negb (p c)) (Py.lstrip_by p s) = true.
Proof.
  induction s as [|c s IH]; simpl; [reflexivity|].
  destruct (p c) eqn:E; [exact IH|]. simpl. now rewrite E.
Qed.

Lemma lstrip_fixed (p : Py.char -> bool) (s : str) :
  UrlSpec.starts (fun c => negb (p c)) s = true -> Py.lstrip_by p s = s.
Proof.
  destruct s as [|c s]; simpl; [reflexivity|].
  intros H. apply negb_true_iff in H. now rewrite H.
Qed.

Lemma strip_by_length (p : Py.char -> bool) (s : str) :
  (length (Py.strip_by p s) <= length s)%nat.
Proof.
  unfold Py.strip_by, Py.rstrip_by. rewrite length_rev.
  pose proof (lstrip_length p (rev (Py.lstrip_by p s))) as H.
  rewrite length_rev in H. pose proof (lstrip_length p s). lia.
Qed.

(** What [strip] returns has no character to strip at either end. *)
Lemma strip_by_ends (p : Py.char -> bool) (s : str) :
  UrlSpec.starts (fun c => negb (p c)) (Py.strip_by p s) = true
  /\ UrlSpec.starts (fun c => negb (p c)) (rev (Py.strip_by p s)) = true.
Proof.
  unfold Py.strip_by, Py.rstrip_by. split.
  - destruct (lstrip_skipn p (rev (Py.lstrip_by p s))) as [k ->].
    rewrite List.skipn_rev, rev_involutive.
    apply CleanUrlFacts.firstn_starts, lstrip_starts.
  - rewrite rev_involutive. apply lstrip_starts.
Qed.

Lemma strip_by_idempotent (p : Py.char -> bool) (s : str) :
  Py.strip_by p (Py.strip_by p s) = Py.strip_by p s.
Proof.
  destruct (strip_by_ends p s) as [H1 H2].
  unfold Py.strip_by at 1. unfold Py.rstrip_by.
  rewrite (lstrip_fixed p _ H1), (lstrip_fixed p _ H2).
  apply rev_involutive.
Qed.

(** The chunks made so far keep a property that every new chunk has. *)
Lemma chunk_loop_all (Q : str -> Prop) (text : str) (size overlap : Z)
    (fuel : nat) :
  (forall a b, Py.truthy (Py.strip (Py.slice text a b)) = true ->
               Q (Py.strip (Py.slice text a b))) ->
  forall acc s cs,
    Forall Q acc ->
    chunk_loop fuel text size overlap acc s = Some (Returns cs) ->
    Forall Q cs.
Proof.
  intros HQ. induction fuel as [|fuel IH]; intros acc s cs Hacc; simpl;
    [discriminate|].
  destruct (s <? Py.len text); [|intros H; injection H as <-; exact Hacc].
  destruct (bounds text size overlap s) as [[s' e]|]; [|discriminate].
  apply IH. destruct (Py.truthy _) eqn:E; [|exact Hacc].
  apply Forall_app. split; [exact Hacc|]. constructor; [auto | constructor].
Qed.

(** Every chunk is non-empty and trimmed, whatever the sizes. *)
Theorem chunk_text_chunks_trimmed (fuel : nat) (text : str)
    (size overlap : Z) (cs : list str) :
  chunk_text fuel text size overlap = Some (Returns cs) ->
  Forall (fun c => Py.truthy c = true /\ Py.strip c = c) cs.
Proof.
  apply (chunk_loop_all _ text size overlap fuel); [|constructor].
  intros a b H. split; [exact H | apply strip_by_idempotent].
Qed.

(** With the default sizes the cursor is 0 or at least 902, so that the
    slice of a pass begins inside the text and has at most 1300
    characters. *)
Lemma chunk_loop_sizes (text : str) (fuel : nat) :
  forall acc s cs,
    s = 0 \/ 200 <= s ->
    Forall (fun c => (length c <= 1300)%nat) acc ->
    chunk_loop fuel text 1000 200 acc s = Some (Returns cs) ->
    Forall (fun c => (length c <= 1300)%nat) cs.
Proof.
  induction fuel as [|fuel IH]; intros acc s cs Hs Hacc; simpl;
    [discriminate|].
  destruct (s <? Py.len text); [|intros H; injection H as <-; exact Hacc].
  destruct (bounds text 1000 200 s) as [[s' e]|] eqn:E; [|discriminate].
  apply bounds_default in E as [Hs' He].
  assert (H0 : 0 <= s' <= e /\ e - s' <= 1300)
    by (destruct (Z.ltb_spec 0 s); lia).
  apply IH; [lia|]. destruct (Py.truthy _); [|exact Hacc].
  apply Forall_app. split; [exact Hacc|]. constructor; [|constructor].
  pose proof (strip_by_length Py.isspace (Py.slice text s' e)).
  pose proof (slice_length text s' e). unfold Py.strip. lia.
Qed.

(** With the default sizes no chunk has more than 1300 characters: 1000,
    100 more to reach the end of a sentence, and 200 of overlap. *)
Theorem chunk_text_chunk_length (fuel : nat) (text : str) (cs : list str) :
  chunk_text fuel text 1000 200 = Some (Returns cs) ->
  Forall (fun c => (length c <= 1300)%nat) cs.
Proof.
  apply (chunk_loop_sizes text fuel [] 0 cs); [now left | constructor].
Qed.

Lemma chunk_loop_count (text : str) (fuel : nat) :
  forall acc s cs,
    0 <= s ->
    902 * Z.of_nat (length acc) <= s ->
    acc = [] \/ 902 * Z.of_nat (length acc) < Py.len text + 902 ->
    chunk_loop fuel text 1000 200 acc s = Some (Returns cs) ->
    cs = [] \/ 902 * Z.of_nat (length cs) < Py.len text + 902.
Proof.
  induction fuel as [|fuel IH]; intros acc s cs H0 Hs Hacc; simpl;
    [discriminate|].
  destruct (Z.ltb_spec s (Py.len text));
    [|intros H'; injection H' as <-; exact Hacc].
  destruct (bounds text 1000 200 s) as [[s' e]|] eqn:E; [|discriminate].
  apply bounds_default in E as [_ He].
  apply IH; [lia | |]; destruct (Py.truthy _);
    rewrite ?length_app; simpl; lia.
Qed.

(** With the default sizes a text of [n] characters gives at most
    [n / 902] chunks, rounded up: every pass moves on by 902 characters or
    more. *)
Theorem chunk_text_chunk_count (fuel : nat) (text : str) (cs : list str) :
  chunk_text fuel text 1000 200 = Some (Returns cs) ->
  902 * Z.of_nat (length cs) < Py.len text + 902.
Proof.
  intros H.
  apply (chunk_loop_count text fuel [] 0 cs) in H as [-> | H];
    [simpl; unfold Py.len; lia | exact H | lia | simpl; lia | now left].
Qed.

(** A text of at most [chunk_size] characters is one chunk, the trimmed
    text, or no chunk when nothing is left of it. *)
Theorem chunk_text_short (fuel : nat) (text : str) :
  Py.len text <= 1000 ->
  chunk_text (2 + fuel) text 1000 200
  = Some (Returns (List.filter Py.truthy [Py.strip text])).
Proof.
  intros Hlen. unfold chunk_text.
  change (2 + fuel)%nat with (S (S fuel)). cbn [chunk_loop].
  destruct (Z.ltb_spec 0 (Py.len text)) as [Hpos|Hzero].
  - unfold bounds.
    replace (0 + 1000 <? Py.len text) with false by (symmetry; lia).
    cbn [rbind]. change (0 <? 0) with false. cbv iota.
    replace (0 + 1000 <? Py.len text) with false by (symmetry; lia).
    rewrite slice_all by lia. cbn [List.filter app].
    destruct (Py.truthy (Py.strip text)); reflexivity.
  - destruct text as [|c text]; [reflexivity|].
    unfold Py.len in Hzero. simpl in Hzero. lia.
Qed.

Lemma chunk_text_ends_witness :
  (length two_halves < 1501)%nat
  /\ exists r, chunk_text 1501 two_halves 1000 200 = Some r.
Proof.
  assert (H : (length two_halves < 1501)%nat).
  { assert (E : length two_halves = 1500%nat) by (vm_compute; reflexivity).
    rewrite E. lia. }
  split; [exact H|]. exact (chunk_text_ends two_halves 1501 H).
Defined.

Lemma chunk_text_returns_witness :
  ends_with_terminal two_halves = false
  /\ exists cs, chunk_text 1501 two_halves 1000 200 = Some (Returns cs).
Proof.
  assert (H : (length two_halves < 1501)%nat).
  { assert (E : length two_halves = 1500%nat) by (vm_compute; reflexivity).
    rewrite E. lia. }
  assert (He : ends_with_terminal two_halves = false)
    by (vm_compute; reflexivity).
  split; [exact He|]. exact (chunk_text_returns 1501 two_halves He H).
Defined.

Lemma chunk_text_roundtrip_plain_witness :
  rebuild_dropping_first 200 two_halves_chunks = two_halves.
Proof.
  apply (chunk_text_roundtrip_plain 3 two_halves two_halves_chunks).
  - apply List.Forall_forall. intros x Hx.
    assert (H : forallb (fun c => negb (Py.isspace c)) two_halves = true)
      by (vm_compute; reflexivity).
    rewrite List.forallb_forall in H. apply negb_true_iff. now apply H.
  - vm_compute. reflexivity.
Defined.

Lemma chunk_text_chunks_trimmed_witness :
  Forall (fun c => Py.truthy c = true /\ Py.strip c = c) two_halves_chunks.
Proof.
  apply (chunk_text_chunks_trimmed 3 two_halves 1000 200).
  vm_compute. reflexivity.
Defined.

Lemma chunk_text_chunk_length_witness :
  Forall (fun c => (length c <= 1300)%nat) two_halves_chunks.
Proof.
  apply (chunk_text_chunk_length 3 two_halves). vm_compute. reflexivity.
Defined.

Lemma chunk_text_chunk_count_witness :
  902 * Z.of_nat (length two_halves_chunks) < Py.len two_halves + 902.
Proof.
  apply (chunk_text_chunk_count 3 two_halves). vm_compute. reflexivity.
Defined.

Lemma chunk_text_short_witness :
  chunk_text 2 (Py.lit "  hello. world  ") 1000 200
  = Some (Returns (List.filter Py.truthy
                     [Py.strip (Py.lit "  hello. world  ")])).
Proof.
  apply (chunk_text_short 0 (Py.lit "  hello. world  ")).
  vm_compute. discriminate.
Defined.

End ChunkMore.

(** ** Documents *)

Module ProcessFacts.

Import Value Soup Markdown Process ProcessSpec.

Lemma heading_level_returns (nm : str) :
  existsb (Py.eqb nm) heading_names = true ->
  exists level,
    rbind (Py.index nm 1) int_of_char = Returns level.
Proof.
  intros H. apply existsb_exists in H as (h & Hin & He).
  apply PyFacts.eqb_eq in He. subst nm.
  repeat (destruct Hin as [<- | Hin]; [eexists; reflexivity|]).
  destruct Hin.
Qed.

Lemma headings_returns (tags : list node) (acc : list str) :
  Forall (fun t => is_tag_in heading_names t = true) tags ->
  exists L, headings tags acc = Returns L.
Proof.
  intros H. revert acc. induction H as [|tag tags Ht _ IH]; intros acc;
    cbn [headings]; [eauto|].
  destruct tag as [s|nm attrs cs]; [discriminate|].
  cbn [is_tag_in] in Ht. cbn [name_of].
  destruct (heading_level_returns nm Ht) as [level Hl].
  unfold rbind in Hl.
  destruct (Py.index nm 1) as [c|]; [|discriminate]. cbn [rbind].
  rewrite Hl. cbn [rbind]. apply IH.
Qed.

Lemma main_headings_return (m : node) :
  exists L, headings (find_all heading_names m) [] = Returns L.
Proof.
  apply headings_returns. unfold find_all. apply List.Forall_forall.
  intros t Ht. now apply List.filter_In in Ht as [_ Ht].
Qed.

(** [html_to_markdown] does not raise: the tags it takes a level from are
    [h1] to [h6], whose second character is a digit. *)
Theorem html_to_markdown_returns (soup : node) :
  exists text, html_to_markdown soup = Returns text.
Proof.
  unfold html_to_markdown. destruct (main_content soup) as [m|]; [|eauto].
  destruct (main_headings_return m) as [L ->]. cbn [rbind]. eauto.
Qed.

Lemma chunk_text_of_markdown_witness :
  html_to_markdown MarkdownSpec.about_doc = Returns MarkdownSpec.about_joined
  /\ (length MarkdownSpec.about_joined < 100)%nat
  /\ exists cs,
       Chunk.chunk_text 100 MarkdownSpec.about_joined 1000 200
       = Some (Returns cs).
Proof.
  assert (H1 : html_to_markdown MarkdownSpec.about_doc
               = Returns MarkdownSpec.about_joined) by reflexivity.
  assert (H2 : (length MarkdownSpec.about_joined < 100)%nat)
    by (vm_compute; lia).
  split; [exact H1|]. split; [exact H2|].
  exact (MarkdownFacts.chunk_text_of_markdown 100 MarkdownSpec.about_doc
           MarkdownSpec.about_joined H1 H2).
Defined.

Section Env.

Variable html_parser : str -> node.
Variable lower : str -> str.
Variable read_text : str -> result str.
Variable parser_rejects : str -> bool.

Local Abbreviation process' :=
  (process_html_file html_parser lower read_text parser_rejects).

Lemma documents_from_numbered (md : gmap str pyval) (total i : Z)
    (chunks : list str) (acc : list (gmap str pyval)) :
  documents_from md total i chunks acc = acc ++ numbered md total i chunks.
Proof.
  revert i acc. induction chunks as [|c chunks IH]; intros i acc; simpl.
  - now rewrite app_nil_r.
  - rewrite IH, <- List.app_assoc. reflexivity.
Qed.

Lemma numbered_length (md : gmap str pyval) (total i : Z)
    (chunks : list str) :
  length (numbered md total i chunks) = length chunks.
Proof.
  revert i. induction chunks as [|c chunks IH]; intros i; simpl;
    [reflexivity|]. now rewrite IH.
Qed.

Lemma numbered_nth (md : gmap str pyval) (total i : Z)
    (chunks : list str) (j : nat) :
  nth_error (numbered md total i chunks) j
  = option_map (document md total (i + Z.of_nat j)) (nth_error chunks j).
Proof.
  revert i j. induction chunks as [|c chunks IH]; intros i j.
  - destruct j; reflexivity.
  - destruct j as [|j]; simpl.
    + now rewrite Z.add_0_r.
    + rewrite IH. do 2 f_equal. lia.
Qed.

(** The documents of a file are the chunks of its text, in order:
    document number [i] holds chunk number [i], the index [i] and the
    number of documents. *)
Theorem process_html_file_documents (fuel : nat) (html_file : str)
    (docs : list (gmap str pyval)) :
  process' fuel html_file = Some (Returns docs) ->
  exists html_content text chunks,
    read_text html_file = Returns html_content
    /\ parser_rejects html_content = false
    /\ html_to_markdown (html_parser html_content) = Returns text
    /\ Chunk.chunk_text fuel text 1000 200 = Some (Returns chunks)
    /\ length docs = length chunks
    /\ forall (i : nat) (chunk : str),
         nth_error chunks i = Some chunk ->
         exists doc md,
           nth_error docs i = Some doc
           /\ doc !! Py.lit "content" = Some (VStr chunk)
           /\ doc !! Py.lit "metadata" = Some (VDict md)
           /\ md !! Py.lit "chunk_index" = Some (VInt (Z.of_nat i))
           /\ md !! Py.lit "total_chunks"
              = Some (VInt (Z.of_nat (length docs))).
Proof.
  unfold process_html_file.
  destruct (read_text html_file) as [html_content|]; [|discriminate].
  destruct (parser_rejects html_content) eqn:Ep; [discriminate|].
  destruct (html_to_markdown (html_parser html_content)) as [text|] eqn:Et;
    [|discriminate].
  destruct (Chunk.chunk_text fuel text 1000 200) as [[chunks|]|] eqn:Ec;
    try discriminate.
  intros H. injection H as <-. exists html_content, text, chunks.
  rewrite documents_from_numbered. cbn [app].
  split; [reflexivity|]. split; [exact Ep|]. split; [exact Et|].
  split; [exact Ec|]. split; [apply numbered_length|].
  intros i chunk Hi. rewrite numbered_nth, Hi, numbered_length.
  cbn [option_map]. eexists. eexists. split; [reflexivity|].
  unfold document.
  split; [apply lookup_insert_eq|].
  split; [rewrite lookup_insert_ne by discriminate; apply lookup_insert_eq|].
  split; [rewrite lookup_insert_ne by discriminate; apply lookup_insert_eq|].
  apply lookup_insert_eq.
Qed.

(** How [process_html_file] ends: with the exception of [open] or [read]
    when the file cannot be read; with [ParserRejectedMarkup] when
    [BeautifulSoup] refuses the markup; and with the documents otherwise.
    Once the page is parsed nothing raises, neither the conversion nor the
    chunking, and the loop of [chunk_text] ends. *)
Theorem process_html_file_outcome (html_file : str) :
  exists fuel0,
    forall more,
      let outcome :=
        process_html_file html_parser lower read_text parser_rejects
          (fuel0 + more) html_file in
      match read_text html_file with
      | Raises e => outcome = Some (Raises e)
      | Returns html_content =>
          if parser_rejects html_content
          then outcome = Some (Raises ParserRejectedMarkup)
          else exists docs : list (gmap str pyval),
                 outcome = Some (Returns docs)
      end.
Proof.
  unfold process_html_file.
  destruct (read_text html_file) as [html_content|e];
    [|exists 0%nat; reflexivity].
  destruct (parser_rejects html_content); [exists 0%nat; reflexivity|].
  assert (Ht : exists text,
             html_to_markdown (html_parser html_content) = Returns text).
  { unfold html_to_markdown.
    destruct (main_content (html_parser html_content)) as [m|]; [|eauto].
    destruct (main_headings_return m) as [L ->]. cbn [rbind]. eauto. }
  destruct Ht as [text Ht].
  exists (S (length text)). intros more. cbv zeta. rewrite Ht.
  destruct (ChunkFacts.chunk_loop_returns text (S (length text) + more) [] 0)
    as [cs Hcs].
  - now apply (MarkdownFacts.html_to_markdown_ends
                 (html_parser html_content)).
  - lia.
  - unfold Py.len. lia.
  - unfold Chunk.chunk_text. rewrite Hcs. eauto.
Qed.

End Env.

Example about_processed :
  process_html_file about_parser Py.ascii_lower about_read
    no_markup_rejected 100 about_file
  = Some (Returns about_documents).
Proof. vm_compute. reflexivity. Qed.

Lemma process_html_file_documents_witness :
  exists html_content text chunks,
    about_read about_file = Returns html_content
    /\ no_markup_rejected html_content = false
    /\ html_to_markdown (about_parser html_content) = Returns text
    /\ Chunk.chunk_text 100 text 1000 200 = Some (Returns chunks)
    /\ length about_documents = length chunks
    /\ forall (i : nat) (chunk : str),
         nth_error chunks i = Some chunk ->
         exists doc md,
           nth_error about_documents i = Some doc
           /\ doc !! Py.lit "content" = Some (VStr chunk)
           /\ doc !! Py.lit "metadata" = Some (VDict md)
           /\ md !! Py.lit "chunk_index" = Some (VInt (Z.of_nat i))
           /\ md !! Py.lit "total_chunks"
              = Some (VInt (Z.of_nat (length about_documents))).
Proof.
  apply (process_html_file_documents about_parser Py.ascii_lower about_read
           no_markup_rejected 100 about_file about_documents).
  vm_compute. reflexivity.
Defined.

End ProcessFacts.

(** ** More on the crawl *)

Module CrawlMore.

Import Crawler CrawlerSpec CrawlFacts.

Section Env.

Variable netloc_rejected : str -> bool.
Variable lower : str -> str.
Variable urljoin : str -> str -> result str.
Variable html_parser : str -> Soup.node.
Variable prettify : Soup.node -> str.
Variable guess_type : str -> option str.
Variable guess_extension : str -> option str.
Variable http_get : str -> option Response.
Variable open_fails : str -> bool.

Local Abbreviation crawl' :=
  (crawl netloc_rejected lower urljoin html_parser prettify guess_type
     guess_extension http_get open_fails).
Local Abbreviation save' :=
  (save_content html_parser prettify guess_extension open_fails).
Local Abbreviation mime' := (get_mime_type netloc_rejected lower guess_type).
Local Abbreviation clean' := (clean_url netloc_rejected).
Local Abbreviation valid' := (is_valid_url netloc_rejected).
Local Abbreviation urlparse' := (urlparse netloc_rejected).

(** A property of the state that holds after each request, whatever
    becomes of it, holds after a call of [crawl]. *)
Lemma crawl_preserves (J : state -> Prop) :
  (forall self w url u,
     J (self, w) ->
     clean' self url = Returns (Some u) -> valid' self u = true ->
     u ∉ visited_urls self ->
     J (add_visited u self, log_warning u (send_request u w))
     /\ J (add_visited u self, send_request u w)
     /\ forall r m st1 res,
          save' u r m (add_visited u self, send_request u w) = (st1, res) ->
          J st1) ->
  forall fuel url depth st st' o,
    J st -> crawl' fuel url depth st = (st', o) -> J st'.
Proof.
  intros Hstep. induction fuel as [|fuel IH]; intros url depth st st' o HJ.
  - intros H. injection H as <- <-. exact HJ.
  - destruct st as [self w]. cbn [crawl].
    destruct ((max_depth self <? depth)
              || (max_downloads self <=? download_count self));
      [intros H; injection H as <- <-; exact HJ|].
    destruct (clean_url netloc_rejected self url) as [[u|]|e] eqn:Ec;
      try (intros H; injection H as <- <-; exact HJ).
    destruct (Py.truthy u); cbn [negb orb];
      [|intros H; injection H as <- <-; exact HJ].
    destruct (is_valid_url netloc_rejected self u) eqn:Ev; cbn [negb];
      [|intros H; injection H as <- <-; exact HJ].
    destruct (bool_decide (u ∈ visited_urls self)) eqn:Eb;
      [intros H; injection H as <- <-; exact HJ|].
    apply bool_decide_eq_false in Eb.
    destruct (Hstep self w url u HJ Ec Ev Eb) as (Hwarn & Hsent & Hsave).
    destruct (http_get u) as [r|];
      [|intros H; injection H as <- <-; exact Hwarn].
    destruct (raise_for_status r);
      [intros H; injection H as <- <-; exact Hwarn|].
    destruct (get_mime_type _ _ _ r) as [m|e];
      [|intros H; injection H as <- <-; exact Hsent].
    destruct (save_content _ _ _ _ u r m _) as [st1 [b|e]] eqn:Es;
      [|intros H; injection H as <- <-; exact (Hsave _ _ _ _ Es)].
    pose proof (Hsave _ _ _ _ Es) as HJ1.
    destruct (Py.eqb m (Py.lit "text/html"));
      [|intros H; injection H as <- <-; exact HJ1].
    intros H.
    eapply (follow_preserves urljoin J (fun _ => True)) in H as [HJ' _];
      [exact HJ' | | exact HJ1].
    intros link href a s1 s2 o1 _ _ _ _ HJs Hv. split; [|exact I].
    exact (IH a (depth + 1) s1 s2 o1 HJs Hv).
Qed.

(** What [save_content] writes: one file, named after the address, in
    the output folder. *)
Lemma save_content_file (u : str) (r : Response) (m : str)
    (self : WebsiteCrawler) (w : world) (st : state) (res : result bool) :
  save' u r m (self, w) = (st, res) ->
  (st = (self, w) /\ res = Raises OSError)
  \/ (exists ext c,
        st = (count_download self,
              write_file
                (os_path_join (output_folder self)
                   (base_filename self u ++ ext)) c w)
        /\ res = Returns true).
Proof.
  unfold save_content.
  destruct (Py.eqb m (Py.lit "text/html"));
    (destruct (open_fails _); intros H; injection H as <- <-;
     [now left | right; eauto]).
Qed.

(** *** Termination *)

(** A call of [crawl] ends: the recursion goes [max_depth - depth + 1]
    levels down at most, whatever the pages link to. *)
Theorem crawl_terminates (fuel : nat) (url : str) (depth : Z)
    (self : WebsiteCrawler) (w : world) :
  (0 < fuel)%nat ->
  max_depth self - depth + 1 < Z.of_nat fuel ->
  snd (crawl' fuel url depth (self, w)) <> OutOfFuel.
Proof.
  intros H0 Hf.
  destruct (crawl' fuel url depth (self, w)) as [st' o] eqn:E.
  exact (crawl_enough_fuel netloc_rejected lower urljoin html_parser
           prettify guess_type guess_extension http_get open_fails fuel url
           depth self w st' o H0 Hf E).
Qed.

(** *** The media type *)

(** The header decides when it is there: the media type is what stands
    before the first semicolon, in lower case; the parameters after it and
    the address of the response are not looked at. *)
Theorem get_mime_type_header (r : Response) (m rest : str) :
  Forall (fun c => c <> 59%N) m ->
  Py.truthy (lower m) = true ->
  content_type r = Some m \/ content_type r = Some (m ++ 59%N :: rest) ->
  mime' r = Returns (lower m).
Proof.
  intros Hm Ht Hc. unfold get_mime_type.
  assert (Hhd : hd [] (Py.split 59 (default [] (content_type r))) = m).
  { destruct Hc as [-> | ->]; cbn [from_option id].
    - now rewrite PathFacts.split_whole.
    - now rewrite PathFacts.split_app_sep. }
  now rewrite Hhd, Ht.
Qed.

(** *** The addresses requested *)

(** Every address a call of [crawl] requests is one that [is_valid_url]
    accepts: [urlparse] reads it, and its host is the host of the seed. *)
Theorem crawl_requests_in_domain (fuel : nat) (url : str) (depth : Z)
    (self self' : WebsiteCrawler) (w w' : world) (o : outcome) :
  crawl' fuel url depth (self, w) = ((self', w'), o) ->
  exists new,
    requests w' = requests w ++ new
    /\ forall x, In x new ->
         exists parsed,
           urlparse' x = Returns parsed
           /\ Url.netloc parsed = domain self.
Proof.
  set (J := fun st : state =>
              domain (fst st) = domain self
              /\ exists new,
                   requests (snd st) = requests w ++ new
                   /\ forall x, In x new ->
                        exists parsed,
                          urlparse' x = Returns parsed
                          /\ Url.netloc parsed = domain self).
  intros H. apply (crawl_preserves J) in H.
  - destruct H as [_ H]. exact H.
  - clear. intros s w1 url u [Hd (new & Hr & Hnew)] _ Hv _.
    cbn [fst snd] in *.
    assert (Hu : forall x, In x (new ++ [u]) ->
              exists parsed,
                urlparse' x = Returns parsed
                /\ Url.netloc parsed = domain self).
    { intros x Hx. apply in_app_or in Hx as [Hx | [<- | []]]; [auto|].
      unfold is_valid_url in Hv.
      destruct (urlparse netloc_rejected u) as [p|]; [|discriminate].
      exists p. split; [reflexivity|].
      apply PyFacts.eqb_eq in Hv. congruence. }
    assert (Hplain : J (add_visited u s, send_request u w1)).
    { split; [exact Hd|]. exists (new ++ [u]). cbn [snd send_request requests].
      rewrite Hr, <- List.app_assoc. split; [reflexivity | exact Hu]. }
    split; [exact Hplain|]. split; [exact Hplain|].
    intros r m st1 res Hs.
    apply save_content_cases in Hs as [[-> _] | (f & c & -> & _)];
      exact Hplain.
  - split; [reflexivity|]. exists []. rewrite app_nil_r.
    split; [reflexivity | intros x []].
Qed.

(** No address is requested twice: the addresses a call of [crawl]
    requests are different from one another and from the addresses
    visited before the call, and they are what the call adds to the
    visited addresses. *)
Theorem crawl_requests_fresh (fuel : nat) (url : str) (depth : Z)
    (self self' : WebsiteCrawler) (w w' : world) (o : outcome) :
  crawl' fuel url depth (self, w) = ((self', w'), o) ->
  exists new,
    requests w' = requests w ++ new
    /\ NoDup new
    /\ (forall x, In x new -> x ∉ visited_urls self)
    /\ visited_urls self' = list_to_set new ∪ visited_urls self.
Proof.
  set (J := fun st : state =>
              exists new,
                requests (snd st) = requests w ++ new
                /\ NoDup new
                /\ (forall x, In x new -> x ∉ visited_urls self)
                /\ visited_urls (fst st)
                   = list_to_set new ∪ visited_urls self).
  intros H. apply (crawl_preserves J) in H.
  - exact H.
  - clear. intros s w1 url u (new & Hr & Hnd & Hfresh & Hvis) _ _ Hu.
    cbn [fst snd] in *.
    assert (Hplain : J (add_visited u s, send_request u w1)).
    { exists (new ++ [u]).
      cbn [fst snd add_visited send_request requests visited_urls].
      rewrite Hr, <- List.app_assoc. split; [reflexivity|].
      rewrite Hvis in Hu. split; [|split].
      - apply NoDup_app. split; [exact Hnd|]. split.
        + intros x Hx Hxu. apply list_elem_of_singleton in Hxu as ->.
          apply Hu. apply elem_of_union. left.
          now apply elem_of_list_to_set.
        + apply NoDup_singleton.
      - intros x Hx. apply in_app_or in Hx as [Hx | [<- | []]]; [auto|].
        intros Hin. apply Hu. apply elem_of_union. now right.
      - rewrite Hvis, list_to_set_app_L. cbn [list_to_set].
        apply leibniz_equiv. intros x.
        rewrite !elem_of_union, elem_of_empty. tauto. }
    split; [exact Hplain|]. split; [exact Hplain|].
    intros r m st1 res Hs.
    apply save_content_cases in Hs as [[-> _] | (f & c & -> & _)];
      exact Hplain.
  - exists []. rewrite app_nil_r. split; [reflexivity|].
    split; [constructor|]. split; [intros x []|].
    cbn [fst list_to_set]. apply leibniz_equiv. intros x.
    rewrite elem_of_union, elem_of_empty. tauto.
Qed.

(** A visit keeps the settings and what was visited. *)
Lemma crawl_keeps_visited (self : WebsiteCrawler) (u : str) (fuel : nat)
    (url : str) (depth : Z) (st st' : state) (o : outcome) :
  same_settings (fst st) self /\ u ∈ visited_urls (fst st) ->
  crawl' fuel url depth st = (st', o) ->
  same_settings (fst st') self /\ u ∈ visited_urls (fst st').
Proof.
  apply (crawl_preserves
           (fun st => same_settings (fst st) self
                      /\ u ∈ visited_urls (fst st))).
  clear. intros s w1 url v [Hs Hu] _ _ _. cbn [fst] in *.
  assert (Hplain : same_settings (add_visited v s) self
                   /\ u ∈ visited_urls (add_visited v s)).
  { split; [exact Hs|]. cbn [add_visited visited_urls].
    apply elem_of_union. now right. }
  split; [exact Hplain|]. split; [exact Hplain|].
  intros r m st1 res Hsave.
  apply save_content_cases in Hsave as [[-> _] | (f & c & -> & _)];
    exact Hplain.
Qed.

(** A second call for the same address changes nothing.  It returns at
    one of its guards, at the latest because the address was visited;
    unless [clean_url] raises on the address: it is called outside the
    [try], the first call ended with that exception before anything was
    done, and so does the second. *)
Theorem crawl_again (fuel fuel2 : nat) (url : str) (depth : Z)
    (self self' : WebsiteCrawler) (w w' : world) (o : outcome) :
  crawl' (S fuel) url depth (self, w) = ((self', w'), o) ->
  crawl' (S fuel2) url depth (self', w') = ((self', w'), Done)
  \/ (exists e,
        clean' self url = Raises e
        /\ (self', w') = (self, w) /\ o = Raised e
        /\ crawl' (S fuel2) url depth (self', w')
           = ((self', w'), Raised e)).
Proof.
  cbn [crawl].
  destruct ((max_depth self <? depth)
            || (max_downloads self <=? download_count self)) eqn:Eg;
    [intros H; injection H as <- <- <-; rewrite Eg; now left|].
  destruct (clean_url netloc_rejected self url) as [[u|]|e] eqn:Ec;
    [ | intros H; injection H as <- <- <-; rewrite Eg, Ec; now left
      | intros H; injection H as <- <- <-; rewrite Eg, Ec; right; exists e;
        repeat split ].
  destruct (negb (Py.truthy u) || negb (is_valid_url netloc_rejected self u))
    eqn:Ev;
    [intros H; injection H as <- <- <-; rewrite Eg, Ec, Ev; now left|].
  destruct (bool_decide (u ∈ visited_urls self)) eqn:Eb;
    [intros H; injection H as <- <- <-; rewrite Eg, Ec, Ev, Eb; now left|].
  intros H. left.
  assert (HK : same_settings self' self /\ u ∈ visited_urls self').
  { assert (H0 : same_settings (add_visited u self) self
                 /\ u ∈ visited_urls (add_visited u self)).
    { split; [repeat split|]. cbn [add_visited visited_urls].
      apply elem_of_union. left. now apply elem_of_singleton. }
    destruct (http_get u) as [r|]; [|injection H as <- <- <-; exact H0].
    destruct (raise_for_status r); [injection H as <- <- <-; exact H0|].
    destruct (get_mime_type _ _ _ r) as [m|e];
      [|injection H as <- <- <-; exact H0].
    destruct (save_content _ _ _ _ u r m _) as [st1 res] eqn:Es.
    assert (H1 : same_settings (fst st1) self
                 /\ u ∈ visited_urls (fst st1)).
    { apply save_content_cases in Es as [[-> _] | (f & c & -> & _)];
        exact H0. }
    destruct res as [b|e]; [|injection H as -> <-; exact H1].
    destruct (Py.eqb m (Py.lit "text/html"));
      [|injection H as -> <-; exact H1].
    eapply (follow_preserves urljoin
              (fun st => same_settings (fst st) self
                         /\ u ∈ visited_urls (fst st))
              (fun _ => True)) in H as [HK _];
      [exact HK | | exact H1].
    intros link href a s1 s2 o1 _ _ _ _ HJ Hv. split; [|exact I].
    exact (crawl_keeps_visited self u fuel a (depth + 1) s1 s2 o1 HJ Hv). }
  destruct HK as [Hs Hu].
  destruct ((max_depth self' <? depth)
            || (max_downloads self' <=? download_count self'));
    [reflexivity|].
  assert (Hd : domain self' = domain self) by apply Hs.
  rewrite (clean_url_settings netloc_rejected self' self url Hd), Ec.
  unfold is_valid_url. rewrite Hd. fold (is_valid_url netloc_rejected self u).
  rewrite Ev, bool_decide_eq_true_2 by exact Hu.
  reflexivity.
Qed.

(** *** Files, warnings and requests *)

(** Every request ends in at most one of a file and a warning, and a
    warning is about an address that was requested. *)
Theorem crawl_accounting (fuel : nat) (url : str) (depth : Z)
    (self self' : WebsiteCrawler) (w w' : world) (o : outcome) :
  crawl' fuel url depth (self, w) = ((self', w'), o) ->
  exists new_files new_warnings new_requests,
    files w' = files w ++ new_files
    /\ warnings w' = warnings w ++ new_warnings
    /\ requests w' = requests w ++ new_requests
    /\ (length new_files + length new_warnings <= length new_requests)%nat
    /\ incl new_warnings new_requests.
Proof.
  set (J := fun st : state =>
              exists nf nw nr,
                files (snd st) = files w ++ nf
                /\ warnings (snd st) = warnings w ++ nw
                /\ requests (snd st) = requests w ++ nr
                /\ (length nf + length nw <= length nr)%nat
                /\ incl nw nr).
  intros H. apply (crawl_preserves J) in H.
  - exact H.
  - clear. intros s w1 url u (nf & nw & nr & Hf & Hw & Hr & Hlen & Hin) _ _ _.
    cbn [fst snd] in *.
    assert (Hsent : J (add_visited u s, send_request u w1)).
    { exists nf, nw, (nr ++ [u]).
      cbn [snd send_request files warnings requests].
      rewrite Hr, <- List.app_assoc, length_app. cbn [length].
      repeat (split; [first [assumption | reflexivity | lia]|]).
      now apply incl_appl. }
    split; [|split; [exact Hsent|]].
    + exists nf, (nw ++ [u]), (nr ++ [u]).
      cbn [snd send_request log_warning files warnings requests].
      rewrite Hr, Hw, <- !List.app_assoc, !length_app. cbn [length].
      repeat (split; [first [assumption | reflexivity | lia]|]).
      apply incl_app; [now apply incl_appl|].
      apply incl_appr, incl_refl.
    + intros r m st1 res Hs.
      apply save_content_cases in Hs as [[-> _] | (f & c & -> & _)];
        [exact Hsent|].
      exists (nf ++ [(f, c)]), nw, (nr ++ [u]).
      cbn [snd send_request write_file files warnings requests].
      rewrite Hr, Hf, <- !List.app_assoc, !length_app. cbn [length].
      repeat (split; [first [assumption | reflexivity | lia]|]).
      now apply incl_appl.
  - exists [], [], []. rewrite !app_nil_r. cbn [fst snd length].
    repeat (split; [first [reflexivity | lia]|]). apply incl_refl.
Qed.

Lemma replace_char_map (s : str) (x y : Py.char) :
  Py.replace s [x] [y] = map (fun c => if N.eqb c x then y else c) s.
Proof.
  unfold Py.replace. induction s as [|c s IH]; [reflexivity|].
  cbn [Py.replace_from Py.startswith map length Nat.sub].
  rewrite andb_true_r. destruct (N.eqb c x); cbn [app]; now rewrite IH.
Qed.

(** The file name is a non-empty string in which every slash has been
    replaced. *)
Lemma base_filename_map (self : WebsiteCrawler) (url : str) :
  exists g,
    Py.truthy g = true
    /\ base_filename self url
       = map (fun c => if N.eqb c 47 then 95%N else c) g.
Proof.
  unfold base_filename.
  set (f := Py.strip_chars _ _).
  exists (if Py.truthy f then f else Py.lit "index"). split.
  - destruct (Py.truthy f) eqn:E; [exact E | reflexivity].
  - change (Py.lit "/") with [47%N]. change (Py.lit "_") with [95%N].
    apply replace_char_map.
Qed.

(** The file name made of an address is not empty and holds no slash. *)
Theorem base_filename_flat (self : WebsiteCrawler) (url : str) :
  Py.truthy (base_filename self url) = true
  /\ Forall (fun c => c <> 47%N) (base_filename self url).
Proof.
  destruct (base_filename_map self url) as (g & Hg & ->). split.
  - destruct g; [discriminate | reflexivity].
  - apply List.Forall_forall. intros c Hc.
    apply in_map_iff in Hc as (d & <- & _).
    destruct (N.eqb_spec d 47); [discriminate | assumption].
Qed.

Lemma os_path_join_prefix (a b : str) :
  Py.startswith b (Py.lit "/") = false ->
  Py.startswith (os_path_join a b) a = true.
Proof.
  intros H. unfold os_path_join. rewrite H.
  destruct (_ || _); apply CleanUrlFacts.startswith_prefix.
Qed.

Lemma base_filename_relative (self : WebsiteCrawler) (url ext : str) :
  Py.startswith (base_filename self url ++ ext) (Py.lit "/") = false.
Proof.
  destruct (base_filename_map self url) as (g & Hg & ->).
  destruct g as [|c g]; [discriminate|].
  change (Py.lit "/") with [47%N]. cbn [map app Py.startswith].
  destruct (N.eqb_spec c 47) as [_|Hc]; [reflexivity|].
  apply N.eqb_neq in Hc. now rewrite Hc.
Qed.

(** Every file a call of [crawl] writes is named after an address, and
    its path begins with the output folder. *)
Theorem crawl_files_in_folder (fuel : nat) (url : str) (depth : Z)
    (self self' : WebsiteCrawler) (w w' : world) (o : outcome) :
  crawl' fuel url depth (self, w) = ((self', w'), o) ->
  exists new,
    files w' = files w ++ new
    /\ forall f c, In (f, c) new ->
         Py.startswith f (output_folder self) = true
         /\ exists u ext,
              f = os_path_join (output_folder self)
                    (base_filename self u ++ ext).
Proof.
  set (J := fun st : state =>
              same_settings (fst st) self
              /\ exists new,
                   files (snd st) = files w ++ new
                   /\ forall f c, In (f, c) new ->
                        Py.startswith f (output_folder self) = true
                        /\ exists u ext,
                             f = os_path_join (output_folder self)
                                   (base_filename self u ++ ext)).
  intros H. apply (crawl_preserves J) in H.
  - destruct H as [_ H]. exact H.
  - clear. intros s w1 url u [Hs (new & Hf & Hnew)] _ _ _.
    cbn [fst snd] in *.
    assert (Hplain : forall w2, files w2 = files w1 ->
              J (add_visited u s, w2)).
    { intros w2 Hw. split; [exact Hs|]. exists new. cbn [snd].
      now rewrite Hw. }
    split; [now apply Hplain|]. split; [now apply Hplain|].
    intros r m st1 res Hsave.
    apply save_content_file in Hsave as [[-> _] | (ext & c & -> & _)];
      [now apply Hplain|].
    split; [exact Hs|].
    exists (new ++ [(os_path_join (output_folder (add_visited u s))
                       (base_filename (add_visited u s) u ++ ext), c)]).
    cbn [snd write_file send_request files].
    rewrite Hf, <- List.app_assoc. split; [reflexivity|].
    intros f c' Hin. apply in_app_or in Hin as [Hin | [Hin | []]];
      [now apply (Hnew f c')|].
    injection Hin as <- <-.
    destruct Hs as (Hstart & _ & _ & Hout & _).
    cbn [output_folder add_visited].
    assert (Hb : base_filename (add_visited u s) u = base_filename self u).
    { unfold base_filename. cbn [start_url add_visited]. now rewrite Hstart. }
    rewrite Hb, Hout. split; [|eauto].
    apply os_path_join_prefix, base_filename_relative.
  - split; [apply same_settings_refl|]. exists []. rewrite app_nil_r.
    split; [reflexivity | intros f c []].
Qed.

End Env.

(** *** The small site *)

Lemma crawl_terminates_witness :
  (0 < 3)%nat /\ snd home_run <> OutOfFuel.
Proof.
  split; [lia|].
  apply (crawl_terminates (fun _ => false) Py.ascii_lower site_urljoin
           site_parser (fun _ => []) (fun _ => None) (fun _ => None)
           site_get (fun _ => false) 3 home_url 0 (example_crawler 1 2)
           no_files).
  - lia.
  - vm_compute. reflexivity.
Defined.

Lemma get_mime_type_header_witness :
  get_mime_type (fun _ => false) Py.ascii_lower (fun _ => None)
    AddressSpec.charset_page
  = Returns (Py.ascii_lower (Py.lit "Text/HTML")).
Proof.
  apply (get_mime_type_header (fun _ => false) Py.ascii_lower
           (fun _ => None) AddressSpec.charset_page (Py.lit "Text/HTML")
           (Py.lit " charset=utf-8")).
  - vm_compute. repeat (constructor; [discriminate|]). constructor.
  - vm_compute. reflexivity.
  - right. vm_compute. reflexivity.
Defined.

Lemma crawl_requests_in_domain_witness :
  exists new,
    requests (snd (fst home_run)) = requests no_files ++ new
    /\ forall x, In x new ->
         exists parsed,
           urlparse (fun _ => false) x = Returns parsed
           /\ Url.netloc parsed = domain (example_crawler 1 2).
Proof.
  apply (crawl_requests_in_domain (fun _ => false) Py.ascii_lower
           site_urljoin site_parser (fun _ => []) (fun _ => None)
           (fun _ => None) site_get (fun _ => false) 3 home_url 0
           (example_crawler 1 2) (fst (fst home_run)) no_files
           (snd (fst home_run)) (snd home_run)).
  vm_compute. reflexivity.
Defined.

Lemma crawl_requests_fresh_witness :
  exists new,
    requests (snd (fst home_run)) = requests no_files ++ new
    /\ NoDup new
    /\ (forall x, In x new -> x ∉ visited_urls (example_crawler 1 2))
    /\ visited_urls (fst (fst home_run))
       = list_to_set new ∪ visited_urls (example_crawler 1 2).
Proof.
  apply (crawl_requests_fresh (fun _ => false) Py.ascii_lower
           site_urljoin site_parser (fun _ => []) (fun _ => None)
           (fun _ => None) site_get (fun _ => false) 3 home_url 0
           (example_crawler 1 2) (fst (fst home_run)) no_files
           (snd (fst home_run)) (snd home_run)).
  vm_compute. reflexivity.
Defined.

Lemma crawl_again_witness :
  site_crawl 1 home_url 0 (fst (fst home_run), snd (fst home_run))
  = ((fst (fst home_run), snd (fst home_run)), Done)
  \/ (exists e,
        clean_url (fun _ => false) (example_crawler 1 2) home_url = Raises e
        /\ (fst (fst home_run), snd (fst home_run))
           = (example_crawler 1 2, no_files)
        /\ snd home_run = Raised e
        /\ site_crawl 1 home_url 0 (fst (fst home_run), snd (fst home_run))
           = ((fst (fst home_run), snd (fst home_run)), Raised e)).
Proof.
  apply (crawl_again (fun _ => false) Py.ascii_lower
           site_urljoin site_parser (fun _ => []) (fun _ => None)
           (fun _ => None) site_get (fun _ => false) 2 0 home_url 0
           (example_crawler 1 2) (fst (fst home_run)) no_files
           (snd (fst home_run)) (snd home_run)).
  vm_compute. reflexivity.
Defined.

Lemma crawl_accounting_witness :
  exists new_files new_warnings new_requests,
    files (snd (fst home_run)) = files no_files ++ new_files
    /\ warnings (snd (fst home_run)) = warnings no_files ++ new_warnings
    /\ requests (snd (fst home_run)) = requests no_files ++ new_requests
    /\ (length new_files + length new_warnings <= length new_requests)%nat
    /\ incl new_warnings new_requests.
Proof.
  apply (crawl_accounting (fun _ => false) Py.ascii_lower
           site_urljoin site_parser (fun _ => []) (fun _ => None)
           (fun _ => None) site_get (fun _ => false) 3 home_url 0
           (example_crawler 1 2) (fst (fst home_run)) no_files
           (snd (fst home_run)) (snd home_run)).
  vm_compute. reflexivity.
Defined.

Lemma crawl_files_in_folder_witness :
  exists new,
    files (snd (fst home_run)) = files no_files ++ new
    /\ forall f c, In (f, c) new ->
         Py.startswith f (output_folder (example_crawler 1 2)) = true
         /\ exists u ext,
              f = os_path_join (output_folder (example_crawler 1 2))
                    (base_filename (example_crawler 1 2) u ++ ext).
Proof.
  apply (crawl_files_in_folder (fun _ => false) Py.ascii_lower
           site_urljoin site_parser (fun _ => []) (fun _ => None)
           (fun _ => None) site_get (fun _ => false) 3 home_url 0
           (example_crawler 1 2) (fst (fst home_run)) no_files
           (snd (fst home_run)) (snd home_run)).
  vm_compute. reflexivity.
Defined.

Lemma base_filename_prefix_only_witness :
  base_filename (example_crawler 1 2)
    (start_url (example_crawler 1 2) ++ Py.lit "/about")
  = filename_as_specified (example_crawler 1 2)
      (start_url (example_crawler 1 2) ++ Py.lit "/about").
Proof.
  apply (FilenameFacts.base_filename_prefix_only (example_crawler 1 2)
           (Py.lit "/about")).
  - vm_compute. reflexivity.
  - vm_compute. reflexivity.
Defined.

End CrawlMore.

(** ** More on canonical addresses *)

Module CleanUrlMore.

Import Url UrlSpec UrlFacts PathFacts Crawler CleanUrlFacts.

Lemma lstrip_all_app (p : Py.char -> bool) (pre s : str) :
  forallb p pre = true -> Py.lstrip_by p (pre ++ s) = Py.lstrip_by p s.
Proof.
  induction pre as [|c pre IH]; [reflexivity|]. cbn [forallb app Py.lstrip_by].
  intros H. apply andb_true_iff in H as [-> H]. auto.
Qed.

Lemma lstrip_app (p : Py.char -> bool) (s t : str) :
  Py.lstrip_by p (s ++ t)
  = if Py.truthy (Py.lstrip_by p s) then Py.lstrip_by p s ++ t
    else Py.lstrip_by p t.
Proof.
  induction s as [|c s IH]; [reflexivity|]. cbn [app Py.lstrip_by].
  destruct (p c); [exact IH | reflexivity].
Qed.

Lemma lstrip_all (p : Py.char -> bool) (s : str) :
  forallb p s = true -> Py.lstrip_by p s = [].
Proof.
  intros H. rewrite <- (app_nil_r s). now rewrite lstrip_all_app.
Qed.

Lemma rstrip_all_app (p : Py.char -> bool) (s post : str) :
  forallb p post = true -> Py.rstrip_by p (s ++ post) = Py.rstrip_by p s.
Proof.
  intros H. unfold Py.rstrip_by. rewrite rev_app_distr, lstrip_all_app;
    [reflexivity|].
  rewrite forallb_forall in *. intros x Hx. apply H. now apply in_rev.
Qed.

(** Characters that [strip] removes, before and after a string, do not
    change what it returns. *)
Lemma strip_by_app (p : Py.char -> bool) (pre s post : str) :
  forallb p pre = true -> forallb p post = true ->
  Py.strip_by p (pre ++ s ++ post) = Py.strip_by p s.
Proof.
  intros Hpre Hpost. unfold Py.strip_by.
  rewrite (lstrip_all_app p pre) by exact Hpre. rewrite lstrip_app.
  destruct (Py.lstrip_by p s) as [|c l] eqn:E; cbn [Py.truthy].
  - now rewrite (lstrip_all p post).
  - now apply rstrip_all_app.
Qed.

(** Whitespace around an address does not count. *)
Theorem clean_url_whitespace (nr : str -> bool) (self : WebsiteCrawler)
    (pre url post : str) :
  forallb Py.isspace pre = true -> forallb Py.isspace post = true ->
  clean_url nr self (pre ++ url ++ post) = clean_url nr self url.
Proof.
  intros Hpre Hpost. unfold clean_url, Py.strip.
  now rewrite (strip_by_app Py.isspace pre url post Hpre Hpost).
Qed.

(** A canonical address holds no fragment mark, no non-breaking space and
    no tab or line break. *)
Theorem clean_url_characters (nr : str -> bool) (self : WebsiteCrawler)
    (url c : str) :
  clean_url nr self url = Returns (Some c) ->
  Forall (fun x => x <> 35%N /\ x <> 160%N
                   /\ x <> 9%N /\ x <> 10%N /\ x <> 13%N) c.
Proof.
  intros H.
  apply clean_url_parts in H as (S & N & P & Q & HS & HP & ->).
  destruct HP as (HN & _ & _ & KN & KP & KQ & _ & P35 & _ & _ & _ & Q35).
  assert (Hkept : forall x, kept x ->
            x <> 160%N /\ x <> 9%N /\ x <> 10%N /\ x <> 13%N).
  { intros x [Hs Hx]. split; [exact Hx|].
    repeat split; intros ->; discriminate Hs. }
  assert (Hboth : forall L, Forall kept L -> Forall (fun x => x <> 35%N) L ->
            Forall (fun x => x <> 35%N /\ x <> 160%N
                             /\ x <> 9%N /\ x <> 10%N /\ x <> 13%N) L).
  { intros L H1 H2. rewrite List.Forall_forall in *. intros x Hx.
    split; [now apply H2 | apply Hkept; now apply H1]. }
  assert (HN35 : Forall (fun x => x <> 35%N) N).
  { apply List.Forall_forall. intros x Hx.
    rewrite forallb_forall in HN. specialize (HN x Hx).
    intros ->. discriminate HN. }
  apply Forall_app. split.
  { destruct HS as [-> | ->];
      repeat (constructor; [repeat split; discriminate|]); constructor. }
  apply Forall_app. split.
  { repeat (constructor; [repeat split; discriminate|]); constructor. }
  apply Forall_app. split; [now apply Hboth|].
  apply Forall_app. split.
  - apply clean_path_Forall; [repeat split; discriminate|].
    now apply Hboth.
  - unfold query_part. destruct (Py.truthy Q); [|constructor].
    constructor; [repeat split; discriminate | now apply Hboth].
Qed.

Lemma clean_url_post_witness :
  Py.startswith CrawlerSpec.about_url (Py.lit "http://")
  || Py.startswith CrawlerSpec.about_url (Py.lit "https://") = true
  /\ exists r, Crawler.urlparse (fun _ => false) CrawlerSpec.about_url
               = Returns r
               /\ Py.len (path r) <= 500
               /\ Py.contains (path r) (Py.lit " ") = false.
Proof.
  apply (clean_url_post (fun _ => false) (CrawlerSpec.example_crawler 1 2)
           CrawlerSpec.about_url CrawlerSpec.about_url).
  vm_compute. reflexivity.
Defined.

Lemma clean_url_whitespace_witness :
  clean_url (fun _ => false) (CrawlerSpec.example_crawler 1 2)
    AddressSpec.padded_url
  = clean_url (fun _ => false) (CrawlerSpec.example_crawler 1 2)
      CrawlerSpec.about_url.
Proof.
  apply (clean_url_whitespace (fun _ => false)
           (CrawlerSpec.example_crawler 1 2) [32%N] CrawlerSpec.about_url
           [10%N]).
  - reflexivity.
  - reflexivity.
Defined.

Lemma clean_url_characters_witness :
  Forall (fun x => x <> 35%N /\ x <> 160%N
                   /\ x <> 9%N /\ x <> 10%N /\ x <> 13%N)
    CrawlerSpec.about_url.
Proof.
  apply (clean_url_characters (fun _ => false)
           (CrawlerSpec.example_crawler 1 2) CrawlerSpec.about_url
           CrawlerSpec.about_url).
  vm_compute. reflexivity.
Defined.

End CleanUrlMore.

(** ** The knowledge graph *)

Module GraphFacts.

Import Value Process ProcessSpec Graph.

Section Env.

Variable vector : Type.
Variable embed_query : pyval -> option vector.
Variable run_fails : Document vector -> bool.
Variable html_parser : str -> Soup.node.
Variable lower : str -> str.
Variable read_text : str -> result str.
Variable parser_rejects : str -> bool.

Local Abbreviation create' :=
  (create_knowledge_graph vector embed_query run_fails).
Local Abbreviation process' :=
  (process_html_file html_parser lower read_text parser_rejects).
Local Abbreviation extract_metadata' := (extract_metadata html_parser lower).

(** The nodes are created in the order of the documents, one for each,
    with its content; an error ends the loop and leaves the nodes created
    so far. *)
Theorem create_knowledge_graph_nodes (documents : list (gmap str pyval))
    (db db' : list (Document vector)) (err : option error) :
  create' documents db = (db', err) ->
  exists new,
    db' = db ++ new
    /\ Forall2 (fun node doc => doc !! Py.lit "content"
                                = Some (content vector node))
         new (firstn (length new) documents)
    /\ (length new <= length documents)%nat
    /\ (err = None <-> length new = length documents).
Proof.
  revert db. induction documents as [|doc documents IH]; intros db;
    cbn [create_knowledge_graph].
  - intros H. injection H as <- <-. exists []. rewrite app_nil_r.
    split; [reflexivity|]. split; [constructor|]. split; [simpl; lia|].
    split; reflexivity.
  - assert (Hstop : forall e, (db, Some e) = (db', err) ->
              exists new,
                db' = db ++ new
                /\ Forall2 (fun node d => d !! Py.lit "content"
                                          = Some (content vector node))
                     new (firstn (length new) (doc :: documents))
                /\ (length new <= length (doc :: documents))%nat
                /\ (err = None <-> length new = length (doc :: documents))).
    { intros e H. injection H as <- <-. exists []. rewrite app_nil_r.
      split; [reflexivity|]. split; [constructor|]. split; [simpl; lia|].
      split; discriminate. }
    destruct (doc !! Py.lit "content") as [c|] eqn:Ec; [|apply Hstop].
    destruct (embed_query c) as [v|]; [|apply Hstop].
    destruct (get "metadata" (VDict ∅) doc) as [| | |md];
      try apply Hstop.
    match goal with |- context [run_fails ?n] => set (node := n) end.
    destruct (run_fails node); [apply Hstop|]. clear Hstop.
    intros H. apply IH in H as (new & -> & Hnew & Hlen & Herr).
    exists (node :: new). rewrite <- List.app_assoc. split; [reflexivity|].
    cbn [length firstn]. split; [constructor; [exact Ec | exact Hnew]|].
    split; [lia|]. rewrite Herr. lia.
Qed.

(** The documents can be loaded in batches: what a call does with two
    lists, one after the other, two calls do. *)
Theorem create_knowledge_graph_app (batch1 batch2 : list (gmap str pyval))
    (db : list (Document vector)) :
  create' (batch1 ++ batch2) db
  = match create' batch1 db with
    | (db1, None) => create' batch2 db1
    | stopped => stopped
    end.
Proof.
  revert db. induction batch1 as [|doc batch1 IH]; intros db;
    cbn [app create_knowledge_graph]; [reflexivity|].
  destruct (doc !! Py.lit "content") as [c|]; [|reflexivity].
  destruct (embed_query c) as [v|]; [|reflexivity].
  destruct (get "metadata" (VDict ∅) doc) as [| | |md]; try reflexivity.
  destruct (run_fails _); [reflexivity | apply IH].
Qed.

Lemma metadata_unset (html_content file : str) (total i : Z) (key : string) :
  In (Py.lit key) unset_keys ->
  get key (VStr [])
    (<[Py.lit "total_chunks" := VInt total]>
       (<[Py.lit "chunk_index" := VInt i]>
          (extract_metadata' html_content file)))
  = VStr [].
Proof.
  intros Hk. unfold get, extract_metadata.
  repeat (destruct Hk as [<- | Hk];
          [rewrite !lookup_insert_ne by discriminate;
           now rewrite lookup_empty|]).
  destruct Hk.
Qed.

Lemma metadata_title (html_content file : str) (total i : Z) :
  get "title" (VStr [])
    (<[Py.lit "total_chunks" := VInt total]>
       (<[Py.lit "chunk_index" := VInt i]>
          (extract_metadata' html_content file)))
  = get "title" (VStr []) (extract_metadata' html_content file).
Proof.
  unfold get. now rewrite !lookup_insert_ne by discriminate.
Qed.

Lemma create_numbered (html_content file : str) (total : Z)
    (chunks : list str) :
  forall i db db' err,
    create' (numbered (extract_metadata' html_content file) total i chunks)
      db = (db', err) ->
    exists new,
      db' = db ++ new
      /\ Forall (fun node =>
                   source vector node = VStr []
                   /\ filename vector node = VStr []
                   /\ last_modified vector node = VStr []
                   /\ created vector node = VStr []
                   /\ title vector node
                      = get "title" (VStr [])
                          (extract_metadata' html_content file)) new
      /\ (err = None \/ err = Some EmbeddingError \/ err = Some DriverError).
Proof.
  induction chunks as [|chunk chunks IH]; intros i db db' err;
    cbn [numbered create_knowledge_graph].
  - intros H. injection H as <- <-. exists []. rewrite app_nil_r. auto.
  - unfold document at 1 2.
    rewrite lookup_insert_eq. unfold get at 1.
    rewrite lookup_insert_ne by discriminate. rewrite lookup_insert_eq.
    cbn [from_option id].
    destruct (embed_query (VStr chunk)) as [v|];
      [|intros H; injection H as <- <-; exists []; rewrite app_nil_r; auto].
    rewrite !metadata_unset by (unfold unset_keys; simpl; auto).
    rewrite metadata_title.
    match goal with |- context [run_fails ?n] => set (node := n) end.
    destruct (run_fails node);
      [intros H; injection H as <- <-; exists []; rewrite app_nil_r;
       auto 6|].
    intros H. apply IH in H as (new & -> & Hnew & Herr).
    exists (node :: new). rewrite <- List.app_assoc. split; [reflexivity|].
    split; [|exact Herr]. constructor; [|exact Hnew]. cbn. auto 6.
Qed.

(** The documents of [process_html_file] have none of the metadata
    [create_knowledge_graph] asks for but the title: the nodes made of them
    have an empty source, file name and dates.  The loop does not fail on
    them for a missing key. *)
Theorem create_knowledge_graph_of_processed (fuel : nat)
    (html_file : str) (docs : list (gmap str pyval))
    (db db' : list (Document vector)) (err : option error) :
  process' fuel html_file = Some (Returns docs) ->
  create' docs db = (db', err) ->
  exists html_content new,
    read_text html_file = Returns html_content
    /\ db' = db ++ new
    /\ Forall (fun node =>
                 source vector node = VStr []
                 /\ filename vector node = VStr []
                 /\ last_modified vector node = VStr []
                 /\ created vector node = VStr []
                 /\ title vector node
                    = get "title" (VStr [])
                        (extract_metadata' html_content html_file)) new
    /\ (err = None \/ err = Some EmbeddingError \/ err = Some DriverError).
Proof.
  unfold process_html_file.
  destruct (read_text html_file) as [html_content|]; [|discriminate].
  destruct (parser_rejects html_content); [discriminate|].
  destruct (Markdown.html_to_markdown _) as [text|]; [|discriminate].
  destruct (Chunk.chunk_text fuel text 1000 200) as [[chunks|]|];
    try discriminate.
  intros H. injection H as <-.
  rewrite ProcessFacts.documents_from_numbered. cbn [app].
  intros Hc. exists html_content.
  apply create_numbered in Hc as (new & Hdb & Hnew & Herr).
  exists new. split; [reflexivity|]. auto.
Qed.

End Env.

Lemma create_knowledge_graph_nodes_witness :
  exists new,
    fst about_graph = [] ++ new
    /\ Forall2 (fun node doc => doc !! Py.lit "content"
                                = Some (content unit node))
         new (firstn (length new) about_documents)
    /\ (length new <= length about_documents)%nat
    /\ (snd about_graph = None <-> length new = length about_documents).
Proof.
  apply (create_knowledge_graph_nodes unit embed_unit accepts_all
           about_documents [] (fst about_graph) (snd about_graph)).
  vm_compute. reflexivity.
Defined.

Lemma create_knowledge_graph_of_processed_witness :
  exists html_content new,
    about_read about_file = Returns html_content
    /\ fst about_graph = [] ++ new
    /\ Forall (fun node =>
                 source unit node = VStr []
                 /\ filename unit node = VStr []
                 /\ last_modified unit node = VStr []
                 /\ created unit node = VStr []
                 /\ title unit node
                    = get "title" (VStr [])
                        (extract_metadata about_parser Py.ascii_lower
                           html_content about_file)) new
    /\ (snd about_graph = None \/ snd about_graph = Some EmbeddingError
        \/ snd about_graph = Some DriverError).
Proof.
  apply (create_knowledge_graph_of_processed unit embed_unit accepts_all
           about_parser Py.ascii_lower about_read no_markup_rejected 100
           about_file about_documents [] (fst about_graph)
           (snd about_graph)).
  - vm_compute. reflexivity.
  - vm_compute. reflexivity.
Defined.

End GraphFacts.

(** ** Metadata *)

Module MetadataFacts.

Import Value Process Crawler.

Lemma rfind_at_absent (s : str) (pos : Z) :
  Forall (fun c => c <> 47%N) s -> Py.rfind_at s [47%N] pos = -1.
Proof.
  intros H. revert pos. induction H as [|c s Hc _ IH]; intros pos;
    [reflexivity|].
  cbn [Py.rfind_at Py.startswith]. rewrite IH.
  apply N.eqb_neq in Hc. now rewrite Hc.
Qed.

Lemma rfind_at_last (a name : str) (pos : Z) :
  0 <= pos -> Forall (fun c => c <> 47%N) name ->
  Py.rfind_at (a ++ 47%N :: name) [47%N] pos = pos + Py.len a.
Proof.
  intros Hpos Hn. revert pos Hpos.
  induction a as [|c a IH]; intros pos Hpos; cbn [app Py.rfind_at].
  - rewrite rfind_at_absent by exact Hn. cbn [Py.startswith].
    rewrite N.eqb_refl. unfold Py.len. simpl. lia.
  - rewrite IH by lia. unfold Py.len. cbn [length].
    destruct (Z.leb_spec 0 (pos + 1 + Z.of_nat (length a))); lia.
Qed.

Lemma basename_plain (name : str) :
  Forall (fun c => c <> 47%N) name -> basename name = name.
Proof.
  intros H. unfold basename, Py.rfind. change (Py.lit "/") with [47%N].
  now rewrite rfind_at_absent.
Qed.

Lemma basename_after_slash (a name : str) :
  Forall (fun c => c <> 47%N) name -> basename (a ++ 47%N :: name) = name.
Proof.
  intros H. unfold basename, Py.rfind. change (Py.lit "/") with [47%N].
  rewrite rfind_at_last by (assumption || lia). unfold Py.len.
  replace (Z.to_nat (0 + Z.of_nat (length a) + 1)) with (length a + 1)%nat
    by lia.
  clear H. induction a as [|c a IH]; [reflexivity | exact IH].
Qed.

Lemma startswith_rev_slash (a : str) :
  Py.startswith (rev a) (Py.lit "/") = true -> exists a', a = a' ++ [47%N].
Proof.
  intros H. apply CleanUrlFacts.startswith_inv in H as [t Ht].
  exists (rev t). rewrite <- (rev_involutive a), Ht. apply rev_app_distr.
Qed.

(** [basename] undoes [join]: the last component of the path of a file in
    a folder is the name of the file. *)
Lemma basename_os_path_join (folder name : str) :
  Forall (fun c => c <> 47%N) name ->
  basename (os_path_join folder name) = name.
Proof.
  intros H. unfold os_path_join.
  assert (Hs : Py.startswith name (Py.lit "/") = false).
  { destruct H as [|c name Hc _]; [reflexivity|].
    change (Py.lit "/") with [47%N]. cbn [Py.startswith].
    apply N.eqb_neq in Hc. now rewrite Hc. }
  rewrite Hs. destruct folder as [|c folder]; cbn [Py.truthy negb orb].
  - now apply basename_plain.
  - destruct (Py.startswith (rev (c :: folder)) (Py.lit "/")) eqn:E.
    + apply startswith_rev_slash in E as [a' ->].
      rewrite <- List.app_assoc. now apply basename_after_slash.
    + change (Py.lit "/" ++ name) with (47%N :: name).
      now apply basename_after_slash.
Qed.

Section Env.

Variable html_parser : str -> Soup.node.
Variable lower : str -> str.

Local Abbreviation extract_metadata' := (extract_metadata html_parser lower).

(** The content type of a file is decided by its name and not by the
    folder it is in: the metadata of [folder/name] differ from those of
    [name] in the path of the source file only. *)
Theorem extract_metadata_folder (html_content folder name : str) :
  Forall (fun c => c <> 47%N) name ->
  extract_metadata' html_content (os_path_join folder name)
  = <[Py.lit "source_file" := VStr (os_path_join folder name)]>
      (extract_metadata' html_content name).
Proof.
  intros H. unfold extract_metadata.
  rewrite (basename_os_path_join folder name H), (basename_plain name H).
  set (ct := VStr (if Py.contains _ _ then _ else _)).
  apply map_eq. intros k.
  destruct (decide (k = Py.lit "source_file")) as [-> | Hk].
  - rewrite lookup_insert_eq.
    rewrite !lookup_insert_ne by discriminate. now rewrite lookup_insert_eq.
  - rewrite (lookup_insert_ne _ (Py.lit "source_file")) by congruence.
    destruct (decide (k = Py.lit "title")) as [-> | Ht];
      [now rewrite !lookup_insert_eq|].
    rewrite !(lookup_insert_ne _ (Py.lit "title")) by congruence.
    destruct (decide (k = Py.lit "description")) as [-> | Hd];
      [now rewrite !lookup_insert_eq|].
    rewrite !(lookup_insert_ne _ (Py.lit "description")) by congruence.
    destruct (decide (k = Py.lit "content_type")) as [-> | Hc];
      [now rewrite !lookup_insert_eq|].
    rewrite !(lookup_insert_ne _ (Py.lit "content_type")) by congruence.
    rewrite !(lookup_insert_ne _ (Py.lit "source_file")) by congruence.
    reflexivity.
Qed.

End Env.

Lemma extract_metadata_folder_witness :
  extract_metadata ProcessSpec.about_parser Py.ascii_lower []
    (os_path_join (Py.lit "workspace/crawled") ProcessSpec.about_name)
  = <[Py.lit "source_file" :=
        VStr (os_path_join (Py.lit "workspace/crawled")
                ProcessSpec.about_name)]>
      (extract_metadata ProcessSpec.about_parser Py.ascii_lower []
         ProcessSpec.about_name).
Proof.
  apply (extract_metadata_folder ProcessSpec.about_parser Py.ascii_lower []
           (Py.lit "workspace/crawled") ProcessSpec.about_name).
  vm_compute. repeat (constructor; [discriminate|]). constructor.
Defined.

End MetadataFacts.
